(** * CMYK_Prusa: the G-code tool switcher of [src/CMYK.py]

    A shallow embedding of [GCodeToolSwitcher] (layer locator, tool sequence
    planner, command rewriter) and of the validation order of
    [App.process_gcode], with the properties its specification states; then
    [App.hex_to_rgb] and [App.rgb_to_hex], and further properties of all of
    these.

    Conventions of the model.
    - Python [str] is [list ascii], a character being a code point below
      256; the character classes below are Python's [\s], [\d] and [\w] on
      these code points.
    - Python [int] tool ids, indices and counters that cannot be negative are
      [nat]; [current_layer], which starts at [-1], is [Z].
    - The numbers of a ratio pattern are exact rationals [Q]: every finite
      float is one, and [int(x)] and [x % 1] are exact on floats.
      Sums are exact too; on the non-negative patterns of the specification
      a float sum is positive exactly when the exact one is.
    - A raised exception is a value of [exn]; [while] loops carry fuel. *)

From Stdlib Require Import ZArith QArith Qround Qabs Lia Ascii String DecimalString.
From Stdlib Require Import Sorted.
From Stdlib Require HexadecimalString.
From stdpp Require Import base option list gmap strings.

Local Open Scope nat_scope.
Local Open Scope list_scope.

(** ** Python text *)

Definition str := list ascii.

Definition lit (s : string) : str := list_ascii_of_string s.

(** [\d] *)
Definition is_digit (c : ascii) : bool :=
  let n := nat_of_ascii c in (48 <=? n) && (n <=? 57).

(** [\s]: tab, line feed, vertical tab, form feed, carriage return, the four
    separators 28..31, the blank, the next-line control 133 and the no-break
    space 160. *)
Definition is_space (c : ascii) : bool :=
  let n := nat_of_ascii c in
  ((9 <=? n) && (n <=? 13)) || ((28 <=? n) && (n <=? 31)) || (n =? 32)
  || (n =? 133) || (n =? 160).

(** The letters and numbers above 127: the ordinal indicators 170 and 186,
    the micro sign 181, the superscripts 178, 179 and 185, the fractions
    188..190, and the letters 192..255, which leave out the multiplication
    sign 215 and the division sign 247. *)
Definition is_high_alnum (c : ascii) : bool :=
  let n := nat_of_ascii c in
  (n =? 170) || (n =? 178) || (n =? 179) || (n =? 181) || (n =? 185) || (n =? 186)
  || ((188 <=? n) && (n <=? 190))
  || ((192 <=? n) && (n <=? 214)) || ((216 <=? n) && (n <=? 246)) || (248 <=? n).

(** [\w] *)
Definition is_word (c : ascii) : bool :=
  let n := nat_of_ascii c in
  is_digit c || ((65 <=? n) && (n <=? 90)) || ((97 <=? n) && (n <=? 122)) || (n =? 95)
  || is_high_alnum c.

Definition is_newline (c : ascii) : bool := nat_of_ascii c =? 10.

(** [str(n)] and the [{n}] of an f-string, for a non-negative [int]. *)
Definition str_of_nat (n : nat) : str :=
  lit (NilZero.string_of_uint (Nat.to_uint n)).

Definition digit_val (c : ascii) : nat := nat_of_ascii c - 48.

(** [sys.int_info.default_max_str_digits]: from CPython 3.11 on, [int(s)]
    raises [ValueError] on more than this many digits, and so does [str(n)]
    on a number that has more. *)
Definition max_str_digits : nat := 4300.

(** [int(s)] for a string [s] of decimal digits (a [\d+] group) that is not
    longer than [max_str_digits]; the properties that promise a result ask
    for lines within that length. *)
Definition int_of_digits (s : str) : nat :=
  fold_left (fun acc c => 10 * acc + digit_val c) s 0.

(** The longest prefix of [s] whose characters satisfy [p], and the rest. *)
Fixpoint span (p : ascii -> bool) (s : str) : str * str :=
  match s with
  | [] => ([], [])
  | c :: s' => if p c then let '(a, b) := span p s' in (c :: a, b) else ([], s)
  end.

Fixpoint strip_prefix (l s : str) : option str :=
  match l, s with
  | [], _ => Some s
  | _ :: _, [] => None
  | a :: l', b :: s' => if Ascii.eqb a b then strip_prefix l' s' else None
  end.

(** ** The regular expressions of the source

    The expressions of [CMYK.py] are sequences of literals, [\s+], [\s*],
    [\d+], one group [(\d+)], [\b], [^], [.*] and [$].  In each of them a
    repeated class is followed by something outside the class (or by the end
    of the expression), so the greedy choice is the only one that can match
    and matching needs no backtracking. *)

Inductive atom :=
| Lit (l : string)   (* literal text *)
| Spaces1            (* \s+ *)
| Spaces0            (* \s* *)
| Digits1            (* \d+ *)
| Group1             (* (\d+) *)
| WordBoundary       (* \b *)
| StartAnchor        (* ^ *)
| DotStar            (* .* *)
| EndAnchor          (* $ *).

Definition regex := list atom.

(** A match object: [group(0)], [group(1)] (empty when the expression has no
    group) and the text after the match. *)
Record re_match := MkMatch { group0 : str; group1 : str; after : str }.

Definition word_opt (c : option ascii) : bool :=
  match c with Some c => is_word c | None => false end.

Definition last_or (prev : option ascii) (s : str) : option ascii :=
  match last s with Some c => Some c | None => prev end.

Definition extend (m : str) (g : option str) (r : re_match) : re_match :=
  MkMatch (m ++ group0 r) (match g with Some g => g | None => group1 r end) (after r).

(** [match_here prev r s]: match [r] at the position whose text is [s] and
    whose preceding character is [prev] ([None] at the start of the string). *)
Fixpoint match_here (prev : option ascii) (r : regex) (s : str) : option re_match :=
  match r with
  | [] => Some (MkMatch [] [] s)
  | Lit l :: r' =>
      match strip_prefix (lit l) s with
      | Some s' => extend (lit l) None <$> match_here (last_or prev (lit l)) r' s'
      | None => None
      end
  | Spaces1 :: r' =>
      let '(sp, s') := span is_space s in
      match sp with
      | [] => None
      | _ => extend sp None <$> match_here (last_or prev sp) r' s'
      end
  | Spaces0 :: r' =>
      let '(sp, s') := span is_space s in
      extend sp None <$> match_here (last_or prev sp) r' s'
  | Digits1 :: r' =>
      let '(ds, s') := span is_digit s in
      match ds with
      | [] => None
      | _ => extend ds None <$> match_here (last_or prev ds) r' s'
      end
  | Group1 :: r' =>
      let '(ds, s') := span is_digit s in
      match ds with
      | [] => None
      | _ => extend ds (Some ds) <$> match_here (last_or prev ds) r' s'
      end
  | WordBoundary :: r' =>
      if xorb (word_opt prev) (word_opt (head s)) then match_here prev r' s else None
  | StartAnchor :: r' =>
      match prev with None => match_here prev r' s | Some _ => None end
  | DotStar :: r' =>
      let '(run, s') := span (fun c => negb (is_newline c)) s in
      extend run None <$> match_here (last_or prev run) r' s'
  | EndAnchor :: r' =>
      match s with
      | [] => match_here prev r' s
      | [c] => if is_newline c then match_here prev r' s else None
      | _ => None
      end
  end.

(** [re.search]: the leftmost match. *)
Fixpoint search_from (prev : option ascii) (r : regex) (s : str) : option re_match :=
  match match_here prev r s with
  | Some m => Some m
  | None =>
      match s with
      | [] => None
      | c :: s' => search_from (Some c) r s'
      end
  end.

Definition search (r : regex) (s : str) : option re_match := search_from None r s.

(** [re.sub(r, repl, s)]: every non-overlapping match, left to right, is
    replaced by [repl].  [skip] counts the characters of the current match
    that are still to be dropped. *)
Fixpoint sub_from (skip : nat) (prev : option ascii) (r : regex) (repl s : str) : str :=
  match s with
  | [] =>
      match skip, match_here prev r [] with
      | 0, Some _ => repl
      | _, _ => []
      end
  | c :: s' =>
      match skip with
      | S k => sub_from k (Some c) r repl s'
      | 0 =>
          match match_here prev r s with
          | Some m =>
              match group0 m with
              | [] => repl ++ c :: sub_from 0 (Some c) r repl s'
              | _ :: g => repl ++ sub_from (length g) (Some c) r repl s'
              end
          | None => c :: sub_from 0 (Some c) r repl s'
          end
      end
  end.

Definition sub (r : regex) (repl s : str) : str := sub_from 0 None r repl s.

(** [needle in s] *)
Definition contains (needle : string) (s : str) : bool :=
  bool_decide (is_Some (search [Lit needle] s)).

(** [s.split('\n')] *)
Fixpoint split_lines (s : str) : list str :=
  match s with
  | [] => [[]]
  | c :: s' =>
      if is_newline c then [] :: split_lines s'
      else match split_lines s' with
           | l :: ls => (c :: l) :: ls
           | [] => [[c]]
           end
  end.

(** ['\n'.join(lines)] *)
Fixpoint join_lines (lines : list str) : str :=
  match lines with
  | [] => []
  | [l] => l
  | l :: ls => l ++ lit (String "010" EmptyString) ++ join_lines ls
  end.

(** ** Exceptions *)

(** Which subscript raised: [tool_names[current_tool]], [tool_names[old_tool]]
    or [tool_counts[tool]]. *)
Inductive subscript := CurrentToolName | OldToolName | ToolCount.

Inductive exn :=
| IndexError (site : subscript) (index : nat)
| OSError (path : string).

Inductive result (A : Type) :=
| Ok (a : A)
| Raise (e : exn).
Arguments Ok {A} a.
Arguments Raise {A} e.

Definition rbind {A B} (r : result A) (f : A -> result B) : result B :=
  match r with
  | Ok a => f a
  | Raise e => Raise e
  end.

#[global] Instance result_bind : MBind result := fun A B f r => rbind r f.
#[global] Instance result_ret : MRet result := @Ok.

(** [xs[i]] on a Python list, for [i >= 0]. *)
Definition subscript_at {A} (site : subscript) (xs : list A) (i : nat) : result A :=
  match xs !! i with
  | Some x => Ok x
  | None => Raise (IndexError site i)
  end.

(** ** GCodeToolSwitcher *)

Module GCodeToolSwitcher.

Definition layer_markers : string := ";LAYER_CHANGE".

(** [M104\.1\s+T(\d+)] *)
Definition m104_pattern : regex := [Lit "M104.1"; Spaces1; Lit "T"; Group1].

(** [\bT(\d+)\s+S\d+\s+L\d+\s+D\d+] *)
Definition tool_pattern : regex :=
  [WordBoundary; Lit "T"; Group1; Spaces1; Lit "S"; Digits1; Spaces1; Lit "L"; Digits1;
   Spaces1; Lit "D"; Digits1].

(** [^T(\d+)\s*;] *)
Definition simple_tool_pattern : regex := [StartAnchor; Lit "T"; Group1; Spaces0; Lit ";"].

(** [P0\s+S1\s+L2\s+D0] *)
Definition park_pattern : regex :=
  [Lit "P0"; Spaces1; Lit "S1"; Spaces1; Lit "L2"; Spaces1; Lit "D0"].

(** [T(\d+)\s+S1\s+L0\s+D0] *)
Definition pickup_pattern : regex :=
  [Lit "T"; Group1; Spaces1; Lit "S1"; Spaces1; Lit "L0"; Spaces1; Lit "D0"].

(** *** parse_layers *)

Fixpoint layers_from (i : nat) (lines : list str) : list nat :=
  match lines with
  | [] => []
  | line :: rest =>
      if contains layer_markers line then i :: layers_from (S i) rest
      else layers_from (S i) rest
  end.

Definition parse_layers (gcode_content : str) : list nat * list str :=
  let lines := split_lines gcode_content in
  (layers_from 0 lines, lines).

(** *** calculate_tool_distribution *)

(** [int(count)]: truncation toward zero. *)
Definition int_of (count : Q) : Z := Z.quot (Qnum count) (Zpos (Qden count)).

(** [count % 1 > 0]: the remainder of a division by 1 lies in [0, 1), and is
    positive exactly when [count] is not an integer. *)
Definition has_fraction (count : Q) : bool :=
  negb (Z.eqb (Z.modulo (Qnum count) (Zpos (Qden count))) 0).

(** The inner [for _ in range(int(count))], with its [break]. *)
Fixpoint fill (times total_layers tool_idx : nat) (tool_sequence : list nat) : list nat :=
  match times with
  | 0 => tool_sequence
  | S times' =>
      if length tool_sequence <? total_layers
      then fill times' total_layers tool_idx (tool_sequence ++ [tool_idx])
      else tool_sequence
  end.

(** The [for tool_idx, count in enumerate(ratio_pattern)] loop, from tool
    [tool_idx] on, with its [break]. *)
Fixpoint sweep (total_layers tool_idx : nat) (ratio_pattern : list Q)
    (tool_sequence : list nat) : list nat :=
  match ratio_pattern with
  | [] => tool_sequence
  | count :: rest =>
      let seq1 := fill (Z.to_nat (int_of count)) total_layers tool_idx tool_sequence in
      let seq2 :=
        if has_fraction count && (length seq1 <? total_layers)
        then seq1 ++ [tool_idx] else seq1 in
      if total_layers <=? length seq2 then seq2
      else sweep total_layers (S tool_idx) rest seq2
  end.

(** The [while len(tool_sequence) < total_layers] loop; [None] when the fuel
    runs out before the loop exits. *)
Fixpoint while_sweeps (fuel total_layers : nat) (ratio_pattern : list Q)
    (tool_sequence : list nat) : option (list nat) :=
  if length tool_sequence <? total_layers then
    match fuel with
    | 0 => None
    | S fuel' =>
        while_sweeps fuel' total_layers ratio_pattern
          (sweep total_layers 0 ratio_pattern tool_sequence)
    end
  else Some tool_sequence.

Definition calculate_tool_distribution (fuel total_layers : nat) (ratio_pattern : list Q)
    : option (list nat) :=
  while_sweeps fuel total_layers ratio_pattern [].

(** *** modify_gcode *)

(** The variables one loop iteration assigns: [modified_gcode[i]] and
    [active_tool]. *)
Record LineState := MkLine { out : str; active : option nat }.

(** Control flow of one iteration: fall through to the next pattern, or
    [continue]. *)
Inductive flow :=
| Next (s : LineState)
| Continue (s : LineState).

Definition flow_state (f : flow) : LineState :=
  match f with
  | Next s => s
  | Continue s => s
  end.

(** The blocks of one iteration, run in order until one of them does
    [continue] or raises. *)
Fixpoint run_steps (steps : list (LineState -> result flow)) (s : LineState)
    : result LineState :=
  match steps with
  | [] => Ok s
  | step :: rest =>
      match step s with
      | Ok (Next s') => run_steps rest s'
      | Ok (Continue s') => Ok s'
      | Raise e => Raise e
      end
  end.

Definition is_active (active_tool : option nat) (current_tool : nat) : bool :=
  bool_decide (active_tool = Some current_tool).

Section Rewriter.

Variable tool_names : list str.

Definition already_active (what : string) (line : str) (current_tool : nat) : result str :=
  name ← subscript_at CurrentToolName tool_names current_tool;
  Ok (lit "; " ++ line ++ lit what ++ lit "T" ++ str_of_nat current_tool ++ lit " (" ++ name
        ++ lit ") is already active").

(** Lines 68-72.  Every step reads [line], the text the iteration started
    with, and writes [modified_gcode[i]]. *)
Definition park_step (current_tool : nat) (line : str) (s : LineState) : result flow :=
  match search park_pattern line with
  | Some _ =>
      if is_active (active s) current_tool then
        text ← already_active " - skipped parking as " line current_tool;
        Ok (Continue (MkLine text (active s)))
      else Ok (Next s)
  | None => Ok (Next s)
  end.

(** Lines 73-84. *)
Definition pickup_step (current_tool : nat) (line : str) (s : LineState) : result flow :=
  match search pickup_pattern line with
  | Some pickup_match =>
      let tool_to_pickup := int_of_digits (group1 pickup_match) in
      if negb (tool_to_pickup =? current_tool) then
        Ok (Next (MkLine (sub [Lit "T"; Digits1] (lit "T" ++ str_of_nat current_tool) line)
                         (Some current_tool)))
      else if is_active (active s) current_tool then
        text ← already_active " - skipped pickup as " line current_tool;
        Ok (Continue (MkLine text (active s)))
      else Ok (Next (MkLine (out s) (Some current_tool)))
  | None => Ok (Next s)
  end.

Definition group1_or (r : regex) (line : str) (default : str) : str :=
  match search r line with
  | Some m => group1 m
  | None => default
  end.

(** Lines 90-101: the replacement of a heater command. *)
Definition new_command (current_tool old_tool : nat) (line : str) : result str :=
  let p_value := group1_or [Lit "P"; Group1] line (lit "120") in
  let q_value :=
    group1_or [Lit "Q"; Group1] line (str_of_nat (int_of_digits p_value + current_tool + 1)) in
  let s_value := group1_or [Lit "S"; Group1] line (lit "210") in
  let command :=
    lit "M104.1 T" ++ str_of_nat current_tool ++ lit " P" ++ p_value ++ lit " Q" ++ q_value
      ++ lit " S" ++ s_value in
  match search [Lit ";"; DotStar; EndAnchor] line with
  | Some comment_match => Ok (command ++ lit " " ++ group0 comment_match)
  | None =>
      old_name ← subscript_at OldToolName tool_names old_tool;
      new_name ← subscript_at CurrentToolName tool_names current_tool;
      Ok (command ++ lit " ; switched from T" ++ str_of_nat old_tool ++ lit " (" ++ old_name
            ++ lit ") to T" ++ str_of_nat current_tool ++ lit " (" ++ new_name ++ lit ")")
  end.

(** Lines 85-107. *)
Definition m104_step (current_tool : nat) (line : str) (s : LineState) : result flow :=
  match search m104_pattern line with
  | Some m104_match =>
      let old_tool := int_of_digits (group1 m104_match) in
      if negb (old_tool =? current_tool) then
        if negb (is_active (active s) current_tool) then
          text ← new_command current_tool old_tool line;
          Ok (Next (MkLine text (Some current_tool)))
        else
          text ← already_active " - skipped as " line current_tool;
          Ok (Continue (MkLine text (active s)))
      else Ok (Next s)
  | None => Ok (Next s)
  end.

(** Lines 108-114. *)
Definition tool_step (current_tool : nat) (line : str) (s : LineState) : result flow :=
  match search tool_pattern line with
  | Some tool_match =>
      let old_tool := int_of_digits (group1 tool_match) in
      if negb (old_tool =? current_tool) then
        Ok (Next (MkLine (sub [WordBoundary; Lit "T"; Digits1; WordBoundary]
                              (lit "T" ++ str_of_nat current_tool) line)
                         (Some current_tool)))
      else Ok (Next s)
  | None => Ok (Next s)
  end.

(** Lines 115-121. *)
Definition simple_step (current_tool : nat) (line : str) (s : LineState) : result flow :=
  match search simple_tool_pattern line with
  | Some simple_match =>
      let old_tool := int_of_digits (group1 simple_match) in
      if negb (old_tool =? current_tool) then
        Ok (Next (MkLine (sub [StartAnchor; Lit "T"; Digits1]
                              (lit "T" ++ str_of_nat current_tool) line)
                         (Some current_tool)))
      else Ok (Next s)
  | None => Ok (Next s)
  end.

(** Lines 68-121: the body of [if current_tool is not None]. *)
Definition rewrite_line (current_tool : nat) (active_tool : option nat) (line : str)
    : result LineState :=
  run_steps
    [park_step current_tool line;
     pickup_step current_tool line;
     m104_step current_tool line;
     tool_step current_tool line;
     simple_step current_tool line]
    (MkLine line active_tool).

Record RewriteState := MkState {
  current_layer : Z;
  current_tool : option nat;
  active_tool : option nat
}.

Definition initial_state : RewriteState := MkState (-1) None None.

Section Pass.

Variable layer_positions : list nat.
Variable tool_sequence : list nat.

(** Lines 63-66. *)
Definition enter_layer (i : nat) (st : RewriteState) : RewriteState :=
  if bool_decide (i ∈ layer_positions) then
    let layer := (current_layer st + 1)%Z in
    if (layer <? Z.of_nat (length tool_sequence))%Z then
      MkState layer (tool_sequence !! Z.to_nat layer) (active_tool st)
    else MkState layer (current_tool st) (active_tool st)
  else st.

(** One iteration of the [for i, line in enumerate(modified_gcode)] loop:
    the new [modified_gcode[i]] and the state after it. *)
Definition process_line (i : nat) (st : RewriteState) (line : str)
    : result (str * RewriteState) :=
  let st1 := enter_layer i st in
  match current_tool st1 with
  | Some tool =>
      s ← rewrite_line tool (active_tool st1) line;
      Ok (out s, MkState (current_layer st1) (current_tool st1) (active s))
  | None => Ok (line, st1)
  end.

Fixpoint pass (i : nat) (st : RewriteState) (lines : list str)
    : result (list str * RewriteState) :=
  match lines with
  | [] => Ok ([], st)
  | line :: rest =>
      r ← process_line i st line;
      t ← pass (S i) (snd r) rest;
      Ok (fst r :: fst t, snd t)
  end.

Definition modify_gcode (gcode_lines : list str) : result (list str) :=
  r ← pass 0 initial_state gcode_lines;
  Ok (fst r).

End Pass.
End Rewriter.
End GCodeToolSwitcher.

(** ** The planner as the specification words it *)

Module PlannerSpec.

(** "append its id floor(count) times, and if count has a nonzero fractional
    part, append one additional instance" *)
Definition copies (count : Q) : nat :=
  Z.to_nat (Qfloor count) + (if Qeq_bool count (inject_Z (Qfloor count)) then 0 else 1).

(** One full sweep "from tool index 0 to last". *)
Definition full_sweep (ratio_pattern : list Q) : list nat :=
  concat (imap (fun tool_idx count => replicate (copies count) tool_idx) ratio_pattern).

(** "Repeat the full sweep until length N is reached", "stop appending the
    instant the sequence reaches length N": the first [N] entries of repeated
    sweeps; [N] sweeps always suffice when a sweep is not empty. *)
Definition plan (total_layers : nat) (ratio_pattern : list Q) : list nat :=
  take total_layers (concat (replicate total_layers (full_sweep ratio_pattern))).

End PlannerSpec.

(** [sum(ratio_pattern)] *)
Definition sum_pattern (ratio_pattern : list Q) : Q := fold_left Qplus ratio_pattern 0%Q.

(** ** App.process_gcode

    The widgets of the front end are left out; what is kept is what the
    caller can observe of one conversion attempt: the dialogs shown, the file
    operations performed and the files afterwards. *)

Module App.
Import GCodeToolSwitcher.

(** The file system: the contents of the paths that exist, and the paths on
    which [open] fails. *)
Record World := MkWorld {
  files : gmap string str;
  denied : gset string
}.

Inductive message :=
| Text (s : string)
| InputNotFound (input_file : string)     (* f"Input file not found: {input_file}" *)
| FailedToProcess (e : exn)               (* f"Failed to process G-code: {str(e)}" *)
| Processed (total_layers : nat).         (* f"... {total_layers} layers modified." *)

Inductive event :=
| PathExists (path : string)              (* os.path.exists(path) *)
| OpenRead (path : string)                (* open(path, 'r') *)
| OpenWrite (path : string)               (* open(path, 'w') *)
| ShowError (title : string) (m : message)
| ShowInfo (title : string) (m : message).

Definition is_file_io (e : event) : bool :=
  match e with
  | OpenRead _ | OpenWrite _ => true
  | _ => false
  end.

Definition read_file (w : World) (path : string) : result str :=
  if bool_decide (path ∈ denied w) then Raise (OSError path)
  else match files w !! path with
       | Some content => Ok content
       | None => Raise (OSError path)
       end.

Definition write_file (w : World) (path : string) (content : str) : result World :=
  if bool_decide (path ∈ denied w) then Raise (OSError path)
  else Ok (MkWorld (<[path := content]> (files w)) (denied w)).

Section Conversion.

Variable tool_names : list str.       (* GCodeToolSwitcher.tool_names *)
Variable tool_names_ui : list str.    (* App.tool_names_ui *)

(** [GCodeToolSwitcher.process_file]; [None] when the planner's loop does not
    exit within [fuel] sweeps. *)
Definition process_file (fuel : nat) (w : World) (input_file output_file : string)
    (ratio_pattern : list Q) : option (World * list event * result (nat * list nat)) :=
  match read_file w input_file with
  | Raise e => Some (w, [OpenRead input_file], Raise e)
  | Ok gcode_content =>
      let '(layer_positions, gcode_lines) := parse_layers gcode_content in
      let total_layers := length layer_positions in
      match calculate_tool_distribution fuel total_layers ratio_pattern with
      | None => None
      | Some tool_sequence =>
          match modify_gcode tool_names layer_positions tool_sequence gcode_lines with
          | Raise e => Some (w, [OpenRead input_file], Raise e)
          | Ok modified_lines =>
              match write_file w output_file (join_lines modified_lines) with
              | Raise e => Some (w, [OpenRead input_file; OpenWrite output_file], Raise e)
              | Ok w' =>
                  Some (w', [OpenRead input_file; OpenWrite output_file],
                        Ok (total_layers, tool_sequence))
              end
          end
      end
  end.

(** [get_current_pattern]: each entry is the outcome of [float(var.get())],
    [None] standing for [ValueError]. *)
Fixpoint get_current_pattern (entries : list (option Q)) : option (list Q) :=
  match entries with
  | [] => Some []
  | None :: _ => None
  | Some value :: rest =>
      match get_current_pattern rest with
      | Some pattern => Some (value :: pattern)
      | None => None
      end
  end.

(** Lines 287-289: [tool_counts[tool] += 1] for every planned layer. *)
Fixpoint count_tools (tool_sequence tool_counts : list nat) : result (list nat) :=
  match tool_sequence with
  | [] => Ok tool_counts
  | tool :: rest =>
      count ← subscript_at ToolCount tool_counts tool;
      count_tools rest (<[tool := count + 1]> tool_counts)
  end.

(** Lines 285-299: the report.  A count is positive only when there is a
    layer, so the percentage never divides by zero; the layers listed are
    those already counted. *)
Definition report (tool_sequence : list nat) : result (list nat) :=
  count_tools tool_sequence (replicate (length tool_names_ui) 0).

Definition pattern_rejected : event :=
  ShowError "Error" (Text "At least one tool must have a value greater than zero").

(** [process_gcode]: the world after the attempt and what happened, in
    order. *)
Definition process_gcode (fuel : nat) (w : World) (input_file output_file : string)
    (entries : list (option Q)) : option (World * list event) :=
  if bool_decide (input_file = EmptyString) || bool_decide (output_file = EmptyString) then
    Some (w, [ShowError "Error" (Text "Please specify both input and output files")])
  else if negb (bool_decide (is_Some (files w !! input_file))) then
    Some (w, [PathExists input_file; ShowError "Error" (InputNotFound input_file)])
  else
    match get_current_pattern entries with
    | None =>
        Some (w, [PathExists input_file;
                  ShowError "Invalid Input" (Text "Please enter valid numbers for all tools")])
    | Some pattern =>
        if Qle_bool (sum_pattern pattern) 0 then
          Some (w, [PathExists input_file; pattern_rejected])
        else
          match process_file fuel w input_file output_file pattern with
          | None => None
          | Some (w', io, r) =>
              match r ≫= (fun '(total_layers, tool_sequence) =>
                            _ ← report tool_sequence; Ok total_layers) with
              | Ok total_layers =>
                  Some (w', PathExists input_file :: io
                            ++ [ShowInfo "Success" (Processed total_layers)])
              | Raise e =>
                  Some (w', PathExists input_file :: io
                            ++ [ShowError "Error" (FailedToProcess e)])
              end
          end
    end.

End Conversion.
End App.

(** ** Notions used to state the properties *)

Module Notions.
Import GCodeToolSwitcher.

(** *** Planner *)

(** What one sweep appends for a count, as the code computes it. *)
Definition layers_per_sweep (count : Q) : nat :=
  Z.to_nat (int_of count) + (if has_fraction count then 1 else 0).

(** The untruncated sweep from tool [tool_idx] on. *)
Fixpoint blocks (tool_idx : nat) (ratio_pattern : list Q) : list nat :=
  match ratio_pattern with
  | [] => []
  | count :: rest => replicate (layers_per_sweep count) tool_idx ++ blocks (S tool_idx) rest
  end.

Definition count_tool (t : nat) (tool_sequence : list nat) : nat :=
  count_occ Nat.eq_dec tool_sequence t.

(** The layers tool [t] receives in one sweep. *)
Definition per_sweep (ratio_pattern : list Q) (t : nat) : nat :=
  match ratio_pattern !! t with
  | Some count => layers_per_sweep count
  | None => 0
  end.

(** The count of a tool is within one layer of N times its share of the
    pattern sum. *)
Definition within_one_layer (ratio_pattern : list Q) (total_layers : nat)
    (tool_sequence : list nat) (t : nat) : Prop :=
  (Qabs (inject_Z (Z.of_nat (count_tool t tool_sequence))
         - inject_Z (Z.of_nat total_layers)
           * (nth t ratio_pattern 0 / sum_pattern ratio_pattern))
   <= 1)%Q.

(** *** Rewriter *)

(** The tool a line names through a pattern with a group. *)
Definition named (r : regex) (line : str) : option nat :=
  (fun m => int_of_digits (group1 m)) <$> search r line.

Definition names_other (r : regex) (current_tool : nat) (line : str) : bool :=
  match search r line with
  | Some m => negb (int_of_digits (group1 m) =? current_tool)
  | None => false
  end.

(** The early exits of an iteration. *)
Definition park_skips (current_tool : nat) (active_tool : option nat) (line : str) : bool :=
  match search park_pattern line with
  | Some _ => is_active active_tool current_tool
  | None => false
  end.

Definition pickup_skips (current_tool : nat) (active_tool : option nat) (line : str) : bool :=
  match search pickup_pattern line with
  | Some m => (int_of_digits (group1 m) =? current_tool) && is_active active_tool current_tool
  | None => false
  end.

(** [active_tool] once the pickup block has run without [continue]. *)
Definition active_after_pickup (current_tool : nat) (active_tool : option nat) (line : str)
    : option nat :=
  match search pickup_pattern line with
  | Some _ => Some current_tool
  | None => active_tool
  end.

Definition heater_skips (current_tool : nat) (active_tool : option nat) (line : str) : bool :=
  names_other m104_pattern current_tool line
  && is_active (active_after_pickup current_tool active_tool line) current_tool.

(** Every recognized form on the line names the tool of the layer. *)
Definition settled (current_tool : nat) (line : str) : bool :=
  negb (names_other pickup_pattern current_tool line)
  && negb (names_other m104_pattern current_tool line)
  && negb (names_other tool_pattern current_tool line)
  && negb (names_other simple_tool_pattern current_tool line).

(** The three [re.sub] calls. *)
Definition pickup_rewrite (current_tool : nat) (line : str) : str :=
  sub [Lit "T"; Digits1] (lit "T" ++ str_of_nat current_tool) line.
Definition tool_rewrite (current_tool : nat) (line : str) : str :=
  sub [WordBoundary; Lit "T"; Digits1; WordBoundary] (lit "T" ++ str_of_nat current_tool) line.
Definition simple_rewrite (current_tool : nat) (line : str) : str :=
  sub [StartAnchor; Lit "T"; Digits1] (lit "T" ++ str_of_nat current_tool) line.

(** What [modified_gcode[i]] can be after the iteration on [line]. *)
Inductive line_outcome (tool_names : list str) (line text : str) : Prop :=
| Unchanged : text = line -> line_outcome tool_names line text
| Rewritten (current_tool : nat) :
    text = pickup_rewrite current_tool line
    \/ text = tool_rewrite current_tool line
    \/ text = simple_rewrite current_tool line
    \/ (exists old_tool, new_command tool_names current_tool old_tool line = Ok text) ->
    line_outcome tool_names line text
| Commented (annotation : str) :
    text = lit "; " ++ line ++ annotation -> line_outcome tool_names line text.

(** The line forms on which an iteration sets [active_tool]. *)
Definition mounts (current_tool : nat) (line : str) : Prop :=
  is_Some (search pickup_pattern line)
  \/ names_other m104_pattern current_tool line = true
  \/ names_other tool_pattern current_tool line = true
  \/ names_other simple_tool_pattern current_tool line = true.

(** [text] is [line] commented out by the annotation [what]. *)
Definition commented (tool_names : list str) (what : string) (current_tool : nat)
    (line text : str) : Prop :=
  exists name,
    tool_names !! current_tool = Some name /\
    text = lit "; " ++ line ++ lit what ++ lit "T" ++ str_of_nat current_tool ++ lit " ("
             ++ name ++ lit ") is already active".

Definition heater_command (tool_names : list str) (current_tool : nat) (line text : str)
    : Prop :=
  exists old_tool,
    named m104_pattern line = Some old_tool /\
    new_command tool_names current_tool old_tool line = Ok text.

(** The edit an iteration ends with: an early exit, else the last block
    that wrote [modified_gcode[i]], each block rewriting [line] itself. *)
Definition last_edit (tool_names : list str) (current_tool : nat) (active_tool : option nat)
    (line text : str) : Prop :=
  if park_skips current_tool active_tool line then
    commented tool_names " - skipped parking as " current_tool line text
  else if pickup_skips current_tool active_tool line then
    commented tool_names " - skipped pickup as " current_tool line text
  else if heater_skips current_tool active_tool line then
    commented tool_names " - skipped as " current_tool line text
  else if names_other simple_tool_pattern current_tool line then
    text = simple_rewrite current_tool line
  else if names_other tool_pattern current_tool line then
    text = tool_rewrite current_tool line
  else if names_other m104_pattern current_tool line then
    heater_command tool_names current_tool line text
  else if names_other pickup_pattern current_tool line then
    text = pickup_rewrite current_tool line
  else text = line.

Definition left_or_skipped (tool_names : list str) (current_tool : nat) (line text : str)
    : Prop :=
  text = line
  \/ commented tool_names " - skipped parking as " current_tool line text
  \/ commented tool_names " - skipped pickup as " current_tool line text.

(** The exceptions an iteration can raise. *)
Definition line_error (tool_names : list str) (current_tool : nat) (line : str) (e : exn)
    : Prop :=
  (e = IndexError CurrentToolName current_tool /\ tool_names !! current_tool = None)
  \/ (exists old_tool,
        named m104_pattern line = Some old_tool /\ old_tool <> current_tool /\
        e = IndexError OldToolName old_tool /\ tool_names !! old_tool = None).

(** The tool of the current layer is a planned one. *)
Definition planned (tool_sequence : list nat) (st : RewriteState) : Prop :=
  forall t, current_tool st = Some t -> t ∈ tool_sequence.

(** The iteration as the specification words it: every block works on the
    line "as already edited by the earlier ones". *)
Definition rewrite_line_accumulating (tool_names : list str) (current_tool : nat)
    (active_tool : option nat) (line : str) : result LineState :=
  run_steps
    [fun s => park_step tool_names current_tool (out s) s;
     fun s => pickup_step tool_names current_tool (out s) s;
     fun s => m104_step tool_names current_tool (out s) s;
     fun s => tool_step current_tool (out s) s;
     fun s => simple_step current_tool (out s) s]
    (MkLine line active_tool).

(** [current_tool] during the iterations on [n] lines from index [i] on; it
    depends on the layer positions and the tool sequence only. *)
Fixpoint tools_from (layer_positions tool_sequence : list nat) (i : nat) (st : RewriteState)
    (n : nat) : list (option nat) :=
  match n with
  | 0 => []
  | S n' =>
      let st1 := enter_layer layer_positions tool_sequence i st in
      current_tool st1 :: tools_from layer_positions tool_sequence (S i) st1 n'
  end.

Definition settled_for (tool : option nat) (line : str) : bool :=
  match tool with
  | Some current_tool => settled current_tool line
  | None => true
  end.

(** Every line of the document is settled for the tool of its layer. *)
Definition doc_settled (layer_positions tool_sequence : list nat) (lines : list str) : bool :=
  forallb (fun p => settled_for (fst p) (snd p))
    (zip (tools_from layer_positions tool_sequence 0 initial_state (length lines)) lines).

(** Invariants of the blocks of one iteration. *)
Definition keeps_line (tool_names : list str) (line : str) (s : LineState) : Prop :=
  line_outcome tool_names line (out s).

Definition active_ok (current_tool : nat) (active_tool : option nat) (line : str)
    (s : LineState) : Prop :=
  active s = active_tool \/ (active s = Some current_tool /\ mounts current_tool line).

(** Two states of a pass in the same layer. *)
Definition same_layer (st st2 : RewriteState) : Prop :=
  current_layer st = current_layer st2 /\ current_tool st = current_tool st2.

(** A line short enough for [int] to convert every digit group of it. *)
Definition short_line (line : str) : Prop := length line <= max_str_digits.

(** A tool id that [str] and the f-strings write out, also as part of the
    default Q value P + id + 1 of a short line. *)
Definition short_id (tool : nat) : Prop := length (str_of_nat tool) < max_str_digits.

(** The tool names of [TwoToolApp] and of the five-tool configuration. *)
Definition two_tools : list str := [lit "T1"; lit "T2"].
Definition five_tools : list str :=
  [lit "Cyan"; lit "Magenta"; lit "Yellow"; lit "White"; lit "Black"].

End Notions.

(** ** App: the colour helpers

    [hex_to_rgb] and [rgb_to_hex] work on integers and text only.  A raised
    [ValueError] is [None].  ([mix_colors] and [rgb_to_cmyk] divide floats and
    are left out.) *)

Module Colors.

(** The whitespace [int(text, 16)] skips around a number: tab, line feed,
    vertical tab, form feed, carriage return, the blank, the next-line
    control 133 and the no-break space 160. *)
Definition is_int_space (c : ascii) : bool :=
  let n := nat_of_ascii c in
  ((9 <=? n) && (n <=? 13)) || (n =? 32) || (n =? 133) || (n =? 160).

(** The value of a hexadecimal digit, in either case. *)
Definition hex_val (c : ascii) : option Z :=
  let n := nat_of_ascii c in
  if (48 <=? n) && (n <=? 57) then Some (Z.of_nat (n - 48))
  else if (97 <=? n) && (n <=? 102) then Some (Z.of_nat (n - 87))
  else if (65 <=? n) && (n <=? 70) then Some (Z.of_nat (n - 55))
  else None.

Fixpoint skip (p : ascii -> bool) (s : str) : str :=
  match s with
  | c :: s' => if p c then skip p s' else s
  | [] => []
  end.

(** The digits of [int(text, 16)], single underscores allowed between them:
    the value read so far, whether a digit was read, whether the last
    character was an underscore.  The result is the value and the text left,
    [None] for a doubled, leading or trailing underscore or no digit. *)
Fixpoint hex_digits (acc : Z) (any after_underscore : bool) (s : str) : option (Z * str) :=
  match s with
  | c :: s' =>
      if Ascii.eqb c "_" then
        if after_underscore || negb any then None
        else hex_digits acc any true s'
      else
        match hex_val c with
        | Some d => hex_digits (16 * acc + d) true false s'
        | None => if after_underscore || negb any then None else Some (acc, s)
        end
  | [] => if after_underscore || negb any then None else Some (acc, [])
  end.

(** [int(text, 16)]: surrounding whitespace, an optional sign, an optional
    prefix [0x] or [0X] (one underscore may follow it), then the digits. *)
Definition int16 (text : str) : option Z :=
  let s1 := skip is_int_space text in
  let '(negative, s2) :=
    match s1 with
    | c :: r => if Ascii.eqb c "-" then (true, r)
                else if Ascii.eqb c "+" then (false, r) else (false, s1)
    | [] => (false, s1)
    end in
  let s3 :=
    match s2 with
    | z :: x :: r =>
        if Ascii.eqb z "0" && (Ascii.eqb x "x" || Ascii.eqb x "X") then
          match r with
          | u :: r' => if Ascii.eqb u "_" then r' else r
          | [] => r
          end
        else s2
    | _ => s2
    end in
  match hex_digits 0 false false s3 with
  | Some (value, rest) =>
      match skip is_int_space rest with
      | [] => Some (if negative then (- value)%Z else value)
      | _ :: _ => None
      end
  | None => None
  end.

(** ["{:02x}".format(n)]: lower-case hexadecimal, padded with a zero to two
    characters; a negative number keeps its sign, which fills the width. *)
Definition hex_text (n : N) : str :=
  lit (HexadecimalString.NilZero.string_of_uint (N.to_hex_uint n)).

Definition format_02x (n : Z) : str :=
  if (n <? 0)%Z then lit "-" ++ hex_text (Z.to_N (- n))
  else
    match hex_text (Z.to_N n) with
    | [d] => [ascii_of_nat 48; d]
    | digits => digits
    end.

(** Lines 305-308. *)
Definition hex_to_rgb (hex_value : str) : option (Z * Z * Z) :=
  let hex_value := skip (Ascii.eqb "#") hex_value in
  r ← int16 (take 2 hex_value);
  g ← int16 (take 2 (drop 2 hex_value));
  b ← int16 (take 2 (drop 4 hex_value));
  Some (r, g, b).

(** Lines 310-312. *)
Definition rgb_to_hex (r g b : Z) : str :=
  lit "#" ++ format_02x r ++ format_02x g ++ format_02x b.

End Colors.

(** ** Further notions *)

Module MoreNotions.
Import GCodeToolSwitcher Notions App Colors.

(** [needle in s] as a statement. *)
Definition is_substring (needle s : str) : Prop :=
  exists before after, s = before ++ needle ++ after.

Definition no_newline (s : str) : Prop := Forall (fun c => is_newline c = false) s.

(** A line on which none of the five command forms is found. *)
Definition inert (line : str) : Prop :=
  search park_pattern line = None
  /\ search pickup_pattern line = None
  /\ search m104_pattern line = None
  /\ search tool_pattern line = None
  /\ search simple_tool_pattern line = None.

(** The layers one full sweep of the pattern appends. *)
Definition sweep_length (ratio_pattern : list Q) : nat :=
  sum_list (map layers_per_sweep ratio_pattern).

(** The events that show a dialog. *)
Definition is_dialog (e : event) : bool :=
  match e with
  | ShowError _ _ | ShowInfo _ _ => true
  | _ => false
  end.

(** The match is a prefix of the text matched, [after] is what follows it,
    and the group lies inside the match. *)
Definition well_cut (s : str) (m : re_match) : Prop :=
  s = group0 m ++ after m /\ exists a b, group0 m = a ++ group1 m ++ b.

(** A hexadecimal digit, in either case. *)
Definition hex_digit (c : ascii) : Prop := is_Some (hex_val c).

(** [str.lower] on one ASCII character. *)
Definition lower (c : ascii) : ascii :=
  let n := nat_of_ascii c in
  if (65 <=? n) && (n <=? 90) then ascii_of_nat (n + 32) else c.

(** Every character, for the checks that go through all of them. *)
Definition all_ascii : list ascii := map ascii_of_nat (seq 0 256).

(** What [int16] can give on at most two characters. *)
Definition within (o : option Z) : bool :=
  match o with
  | Some v => (-15 <=? v)%Z && (v <=? 255)%Z
  | None => true
  end.

(** [format_02x x] is two characters, the first no [#], that read back as
    [x]. *)
Definition byte_checked (x : Z) : bool :=
  match format_02x x with
  | [c1; c2] => negb (Ascii.eqb "#" c1) && bool_decide (int16 [c1; c2] = Some x)
  | _ => false
  end.

(** Two hexadecimal digits read as a byte that is written back in lower
    case. *)
Definition pair_checked (c1 c2 : ascii) : bool :=
  match hex_val c1, hex_val c2 with
  | Some h1, Some h2 =>
      bool_decide (int16 [c1; c2] = Some (16 * h1 + h2)%Z)
      && bool_decide (format_02x (16 * h1 + h2) = [lower c1; lower c2])
      && (0 <=? 16 * h1 + h2)%Z && (16 * h1 + h2 <=? 255)%Z
      && negb (Ascii.eqb "#" c1)
  | _, _ => true
  end.

End MoreNotions.

(** ** Facts about the planner *)

Module PlannerFacts.
Import GCodeToolSwitcher Notions.

Lemma take_take_app {A} (n : nat) (a b : list A) :
  take n (take n a ++ b) = take n (a ++ b).
Proof.
  destruct (decide (n <= length a)) as [Hle | Hgt].
  - rewrite (take_app_le a b n) by lia.
    rewrite take_app_le by (rewrite length_take; lia).
    apply take_idemp.
  - rewrite (take_ge a) by lia. reflexivity.
Qed.

Lemma fill_take (times total_layers tool_idx : nat) (tool_sequence : list nat) :
  length tool_sequence <= total_layers ->
  fill times total_layers tool_idx tool_sequence
  = take total_layers (tool_sequence ++ replicate times tool_idx).
Proof.
  revert tool_sequence.
  induction times as [| times IH]; intros tool_sequence Hlen; simpl.
  - rewrite app_nil_r, take_ge by lia. reflexivity.
  - destruct (Nat.ltb_spec (length tool_sequence) total_layers) as [Hlt | Hge].
    + rewrite IH by (rewrite length_app; simpl; lia).
      rewrite <- app_assoc. reflexivity.
    + rewrite take_app_le by lia. rewrite take_ge by lia. reflexivity.
Qed.

Lemma sweep_take (total_layers : nat) (ratio_pattern : list Q) :
  forall (tool_idx : nat) (tool_sequence : list nat),
  length tool_sequence <= total_layers ->
  sweep total_layers tool_idx ratio_pattern tool_sequence
  = take total_layers (tool_sequence ++ blocks tool_idx ratio_pattern).
Proof.
  induction ratio_pattern as [| count rest IH]; intros tool_idx tool_sequence Hlen; simpl.
  - rewrite app_nil_r, take_ge by lia. reflexivity.
  - unfold layers_per_sweep.
    set (k := Z.to_nat (int_of count)).
    rewrite fill_take by assumption.
    set (seq1 := take total_layers (tool_sequence ++ replicate k tool_idx)).
    assert (Hseq1 : length seq1 <= total_layers) by (unfold seq1; rewrite length_take; lia).
    assert (Hout :
      (if has_fraction count && (length seq1 <? total_layers) then seq1 ++ [tool_idx] else seq1)
      = take total_layers
          (tool_sequence ++ replicate (k + (if has_fraction count then 1 else 0)) tool_idx)).
    { destruct (has_fraction count); simpl.
      - rewrite replicate_add, app_assoc. simpl.
        rewrite <- (take_take_app total_layers (tool_sequence ++ replicate k tool_idx)).
        fold seq1.
        destruct (Nat.ltb_spec (length seq1) total_layers) as [Hlt | Hge].
        + rewrite take_ge by (rewrite length_app; simpl; lia). reflexivity.
        + rewrite take_app_le by lia. rewrite take_ge by lia. reflexivity.
      - rewrite Nat.add_0_r. reflexivity. }
    rewrite Hout. clear Hout.
    set (seq2 := take total_layers
                   (tool_sequence ++ replicate (k + (if has_fraction count then 1 else 0)) tool_idx)).
    assert (Hseq2 : length seq2 <= total_layers) by (unfold seq2; rewrite length_take; lia).
    rewrite app_assoc.
    rewrite <- (take_take_app total_layers (tool_sequence ++ _)).
    fold seq2.
    destruct (Nat.leb_spec total_layers (length seq2)) as [Hfull | Hmore].
    + rewrite take_app_le by lia. rewrite take_ge by lia. reflexivity.
    + rewrite IH by lia. reflexivity.
Qed.

Lemma while_sweeps_take (total_layers : nat) (ratio_pattern : list Q) :
  1 <= length (blocks 0 ratio_pattern) ->
  forall (fuel : nat) (tool_sequence : list nat),
  length tool_sequence <= total_layers ->
  total_layers <= length tool_sequence + fuel ->
  while_sweeps fuel total_layers ratio_pattern tool_sequence
  = Some (take total_layers
            (tool_sequence ++ concat (replicate fuel (blocks 0 ratio_pattern)))).
Proof.
  intros Hpos.
  induction fuel as [| fuel IH]; intros tool_sequence Hlen Hfuel; simpl.
  - destruct (Nat.ltb_spec (length tool_sequence) total_layers); [lia |].
    rewrite app_nil_r, take_ge by lia. reflexivity.
  - destruct (Nat.ltb_spec (length tool_sequence) total_layers) as [Hlt | Hge].
    + rewrite sweep_take by assumption.
      rewrite IH.
      * rewrite take_take_app, <- app_assoc. reflexivity.
      * rewrite length_take. lia.
      * rewrite length_take, length_app. lia.
    + rewrite take_app_le by lia. rewrite take_ge by lia. reflexivity.
Qed.

Lemma length_concat_replicate {A} (k : nat) (l : list A) :
  length (concat (replicate k l)) = k * length l.
Proof.
  induction k as [| k IH]; simpl; [reflexivity |].
  rewrite length_app, IH. reflexivity.
Qed.

Lemma take_sweeps_more {A} (n k : nat) (l : list A) :
  1 <= length l -> n <= k ->
  take n (concat (replicate k l)) = take n (concat (replicate n l)).
Proof.
  intros Hl Hk.
  replace k with (n + (k - n)) by lia.
  rewrite replicate_add, concat_app.
  apply take_app_le.
  rewrite length_concat_replicate. nia.
Qed.

(** Enough fuel: [total_layers] sweeps, each of which appends at least one
    entry. *)
Lemma calculate_take (fuel total_layers : nat) (ratio_pattern : list Q) :
  1 <= length (blocks 0 ratio_pattern) ->
  total_layers <= fuel ->
  calculate_tool_distribution fuel total_layers ratio_pattern
  = Some (take total_layers (concat (replicate total_layers (blocks 0 ratio_pattern)))).
Proof.
  intros Hpos Hfuel.
  unfold calculate_tool_distribution.
  rewrite while_sweeps_take by (simpl; lia).
  simpl. rewrite take_sweeps_more by assumption. reflexivity.
Qed.

(** A pattern whose sum is positive has a positive count. *)
Lemma fold_left_Qplus_le (l : list Q) (a : Q) :
  Forall (fun c => (c <= 0)%Q) l -> (fold_left Qplus l a <= a)%Q.
Proof.
  revert a. induction l as [| c l IH]; intros a Hall; simpl.
  - apply Qle_refl.
  - inversion Hall as [| ? ? Hc Hl]; subst.
    eapply Qle_trans; [apply IH; assumption |].
    rewrite <- (Qplus_0_r a) at 2.
    apply Qplus_le_r. assumption.
Qed.

Lemma positive_sum_positive_count (ratio_pattern : list Q) :
  (0 < sum_pattern ratio_pattern)%Q -> Exists (fun c => (0 < c)%Q) ratio_pattern.
Proof.
  intros Hsum.
  destruct (Forall_Exists_dec (fun c => (c <= 0)%Q) (fun c => (0 < c)%Q)
              (fun c => match Qlt_le_dec 0 c with left H => right H | right H => left H end)
              ratio_pattern) as [Hall | Hex]; [| exact Hex].
  exfalso.
  apply fold_left_Qplus_le with (a := 0%Q) in Hall.
  unfold sum_pattern in Hsum.
  apply (Qlt_irrefl 0). eapply Qlt_le_trans; eassumption.
Qed.

Lemma layers_per_sweep_positive (count : Q) :
  (0 < count)%Q -> 1 <= layers_per_sweep count.
Proof.
  destruct count as [n d]. unfold Qlt, layers_per_sweep, int_of, has_fraction. simpl.
  intros Hpos.
  assert (Hn : (0 < n)%Z) by lia.
  destruct (Z_lt_le_dec n (Zpos d)) as [Hsmall | Hbig].
  - rewrite Z.mod_small by lia.
    destruct (Z.eqb_spec n 0); [lia |]. simpl. lia.
  - assert ((1 <= n ÷ Zpos d)%Z).
    { rewrite Z.quot_div_nonneg by lia. apply Z.div_le_lower_bound; lia. }
    lia.
Qed.

Lemma blocks_nonempty (ratio_pattern : list Q) (tool_idx : nat) :
  Exists (fun c => (0 < c)%Q) ratio_pattern -> 1 <= length (blocks tool_idx ratio_pattern).
Proof.
  intros Hex. revert tool_idx.
  induction Hex as [c l Hc | c l Hex IH]; intros tool_idx; simpl; rewrite length_app.
  - rewrite length_replicate. pose proof (layers_per_sweep_positive c Hc). lia.
  - specialize (IH (S tool_idx)). lia.
Qed.

(** Every entry of a sweep is the index of a count of the pattern. *)
Lemma blocks_bounds (ratio_pattern : list Q) (tool_idx : nat) :
  Forall (fun t => tool_idx <= t < tool_idx + length ratio_pattern)
         (blocks tool_idx ratio_pattern).
Proof.
  revert tool_idx.
  induction ratio_pattern as [| c l IH]; intros tool_idx; simpl; [constructor |].
  apply Forall_app. split.
  - apply Forall_forall. intros t Ht. apply elem_of_replicate in Ht. lia.
  - eapply Forall_impl; [apply IH |]. simpl. intros t Ht. lia.
Qed.

(** On non-negative counts the code's [int(count)] and [count % 1 > 0] are
    the specification's floor and fractional part. *)
Lemma layers_per_sweep_copies (count : Q) :
  (0 <= count)%Q -> layers_per_sweep count = PlannerSpec.copies count.
Proof.
  destruct count as [n d]. unfold Qle, layers_per_sweep, PlannerSpec.copies, int_of, has_fraction.
  simpl. intros Hn.
  rewrite Z.quot_div_nonneg by lia.
  f_equal.
  unfold Qeq_bool. simpl.
  pose proof (Z.div_mod n (Zpos d) ltac:(lia)) as Hdm.
  destruct (Z.eqb_spec (n mod Zpos d) 0) as [Hz | Hnz]; simpl.
  - rewrite (proj2 (Z.eqb_eq _ _)); [reflexivity | lia].
  - rewrite (proj2 (Z.eqb_neq _ _)); [reflexivity | lia].
Qed.

Lemma blocks_imap (ratio_pattern : list Q) (tool_idx : nat) :
  Forall (fun c => (0 <= c)%Q) ratio_pattern ->
  blocks tool_idx ratio_pattern
  = concat (imap (fun t count => replicate (PlannerSpec.copies count) (tool_idx + t))
                 ratio_pattern).
Proof.
  intros Hall. revert tool_idx.
  induction Hall as [| c l Hc Hl IH]; intros tool_idx; simpl; [reflexivity |].
  rewrite layers_per_sweep_copies by assumption.
  rewrite Nat.add_0_r. f_equal.
  rewrite IH. f_equal. apply imap_ext. intros i x _. simpl. f_equal. lia.
Qed.

Lemma blocks_full_sweep (ratio_pattern : list Q) :
  Forall (fun c => (0 <= c)%Q) ratio_pattern ->
  blocks 0 ratio_pattern = PlannerSpec.full_sweep ratio_pattern.
Proof. intros Hall. rewrite blocks_imap by assumption. reflexivity. Qed.

(** Without a positive count the loop never exits: a sweep appends
    nothing, and no fuel is enough. *)
Lemma blocks_zero (ratio_pattern : list Q) (tool_idx : nat) :
  Forall (fun c => (c == 0)%Q) ratio_pattern -> blocks tool_idx ratio_pattern = [].
Proof.
  intros Hall. revert tool_idx.
  induction Hall as [| c l Hc Hl IH]; intros tool_idx; simpl; [reflexivity |].
  rewrite IH, app_nil_r.
  destruct c as [n d]. unfold Qeq in Hc. simpl in Hc.
  assert (n = 0%Z) as -> by lia.
  reflexivity.
Qed.

Lemma zero_pattern_diverges (fuel total_layers : nat) (ratio_pattern : list Q) :
  Forall (fun c => (c == 0)%Q) ratio_pattern ->
  0 < total_layers ->
  calculate_tool_distribution fuel total_layers ratio_pattern = None.
Proof.
  intros Hall Hpos. unfold calculate_tool_distribution.
  induction fuel as [| fuel IH]; simpl.
  - destruct (Nat.ltb_spec 0 total_layers); [reflexivity | lia].
  - destruct (Nat.ltb_spec 0 total_layers); [| lia].
    rewrite sweep_take by (simpl; lia).
    rewrite blocks_zero by assumption. simpl.
    rewrite take_nil. exact IH.
Qed.

(** *** Counting the layers of a tool *)

Lemma count_tool_app (t : nat) (a b : list nat) :
  count_tool t (a ++ b) = count_tool t a + count_tool t b.
Proof. apply count_occ_app. Qed.

Lemma count_tool_replicate (t x k : nat) :
  count_tool t (replicate k x) = if decide (x = t) then k else 0.
Proof.
  unfold count_tool.
  induction k as [| k IH]; simpl.
  - destruct (decide (x = t)); reflexivity.
  - destruct (Nat.eq_dec x t) as [Heq | Hne]; rewrite IH;
      destruct (decide (x = t)); try contradiction; reflexivity.
Qed.

Lemma count_tool_blocks (ratio_pattern : list Q) :
  forall tool_idx t,
  count_tool t (blocks tool_idx ratio_pattern)
  = if decide (tool_idx <= t) then per_sweep ratio_pattern (t - tool_idx) else 0.
Proof.
  induction ratio_pattern as [| c l IH]; intros tool_idx t; simpl.
  - unfold per_sweep. rewrite lookup_nil. destruct (decide (tool_idx <= t)); reflexivity.
  - rewrite count_tool_app, count_tool_replicate, IH.
    destruct (decide (tool_idx = t)) as [-> | Hne].
    + rewrite decide_False by lia. rewrite decide_True by lia.
      rewrite Nat.sub_diag. unfold per_sweep. simpl. lia.
    + destruct (decide (tool_idx <= t)) as [Hle | Hgt].
      * rewrite decide_True by lia.
        replace (t - tool_idx) with (S (t - S tool_idx)) by lia.
        unfold per_sweep. simpl. reflexivity.
      * rewrite decide_False by lia. reflexivity.
Qed.

Lemma count_tool_sweep (ratio_pattern : list Q) (t : nat) :
  count_tool t (blocks 0 ratio_pattern) = per_sweep ratio_pattern t.
Proof.
  rewrite count_tool_blocks. rewrite decide_True by lia.
  rewrite Nat.sub_0_r. reflexivity.
Qed.

Lemma count_tool_sweeps (t k : nat) (l : list nat) :
  count_tool t (concat (replicate k l)) = k * count_tool t l.
Proof.
  induction k as [| k IH]; simpl; [reflexivity |].
  rewrite count_tool_app, IH. reflexivity.
Qed.

Lemma count_tool_take (t r : nat) (l : list nat) :
  count_tool t (take r l) <= count_tool t l.
Proof.
  rewrite <- (take_drop r l) at 2. rewrite count_tool_app. lia.
Qed.

Lemma take_sweeps_enough {A} (n k1 k2 : nat) (l : list A) :
  n <= k1 * length l -> k1 <= k2 ->
  take n (concat (replicate k2 l)) = take n (concat (replicate k1 l)).
Proof.
  intros Hn Hk.
  replace k2 with (k1 + (k2 - k1)) by lia.
  rewrite replicate_add, concat_app.
  apply take_app_le.
  rewrite length_concat_replicate. exact Hn.
Qed.

(** [n = q * length l + r] entries of repeated sweeps are [q] whole sweeps
    and the first [r] entries of one more. *)
Lemma take_sweeps_split {A} (q r : nat) (l : list A) :
  r <= length l ->
  take (q * length l + r) (concat (replicate (S q) l))
  = concat (replicate q l) ++ take r l.
Proof.
  intros Hr.
  replace (S q) with (q + 1) by lia.
  rewrite replicate_add, concat_app. simpl. rewrite app_nil_r.
  rewrite take_app_add'; [reflexivity |].
  rewrite length_concat_replicate. reflexivity.
Qed.

Lemma count_tool_plan (total_layers t : nat) (sweep_once : list nat) :
  1 <= length sweep_once ->
  exists extra : nat,
    extra <= count_tool t sweep_once /\
    count_tool t (take total_layers (concat (replicate total_layers sweep_once)))
    = total_layers / length sweep_once * count_tool t sweep_once + extra.
Proof.
  intros Hlen.
  set (E := length sweep_once) in *.
  set (q := total_layers / E).
  set (r := total_layers mod E).
  assert (HN : total_layers = q * E + r).
  { unfold q, r. rewrite (Nat.div_mod total_layers E) at 1 by lia. lia. }
  assert (Hr : r < E) by (apply Nat.mod_upper_bound; lia).
  exists (count_tool t (take r sweep_once)).
  split; [apply count_tool_take |].
  assert (Heq : take total_layers (concat (replicate total_layers sweep_once))
                = concat (replicate q sweep_once) ++ take r sweep_once).
  { rewrite <- take_sweeps_split by (fold E; lia). fold E. rewrite <- HN.
    destruct (Nat.le_ge_cases total_layers (S q)) as [Hle | Hge].
    - symmetry. apply take_sweeps_enough; [fold E; nia | exact Hle].
    - apply take_sweeps_enough; [fold E; nia | exact Hge]. }
  rewrite Heq, count_tool_app, count_tool_sweeps. reflexivity.
Qed.

Lemma length_blocks (ratio_pattern : list Q) (tool_idx : nat) :
  length (blocks tool_idx ratio_pattern) = sum_list (map layers_per_sweep ratio_pattern).
Proof.
  revert tool_idx.
  induction ratio_pattern as [| c l IH]; intros tool_idx; simpl; [reflexivity |].
  rewrite length_app, length_replicate, IH. reflexivity.
Qed.

Lemma sweep_not_empty (ratio_pattern : list Q) :
  (0 < sum_pattern ratio_pattern)%Q -> 1 <= length (blocks 0 ratio_pattern).
Proof. intros Hsum. apply blocks_nonempty, positive_sum_positive_count, Hsum. Qed.

End PlannerFacts.


(** ** Facts about the rewriter *)

Module RewriterFacts.
Import GCodeToolSwitcher Notions.

Section Steps.

Variable tool_names : list str.

Local Abbreviation commented := (commented tool_names).
Local Abbreviation last_edit := (last_edit tool_names).
Local Abbreviation left_or_skipped := (left_or_skipped tool_names).
Local Abbreviation line_error := (line_error tool_names).
Local Abbreviation keeps_line := (keeps_line tool_names).

Lemma run_steps_preserves (P : LineState -> Prop) (steps : list (LineState -> result flow)) :
  Forall (fun step => forall s f, P s -> step s = Ok f -> P (flow_state f)) steps ->
  forall s s', P s -> run_steps steps s = Ok s' -> P s'.
Proof.
  induction 1 as [| step rest Hstep Hrest IH]; intros s s' Hs Hrun; simpl in Hrun.
  - inversion Hrun; subst. exact Hs.
  - destruct (step s) as [[s1 | s1] | e] eqn:Hstep_s; [| | discriminate].
    + apply (IH s1); [| exact Hrun]. apply (Hstep s (Next s1)); assumption.
    + inversion Hrun; subst. apply (Hstep s (Continue s')); assumption.
Qed.

Lemma run_steps_raises (E : exn -> Prop) (steps : list (LineState -> result flow)) :
  Forall (fun step => forall s e, step s = Raise e -> E e) steps ->
  forall s e, run_steps steps s = Raise e -> E e.
Proof.
  induction 1 as [| step rest Hstep Hrest IH]; intros s e Hrun; simpl in Hrun.
  - discriminate.
  - destruct (step s) as [[s1 | s1] | e1] eqn:Hs; [| discriminate |].
    + apply (IH s1). exact Hrun.
    + injection Hrun as ->. apply (Hstep s). exact Hs.
Qed.

Lemma already_active_ok (what : string) (line : str) (current_tool : nat) (text : str) :
  already_active tool_names what line current_tool = Ok text ->
  exists name,
    tool_names !! current_tool = Some name /\
    text = lit "; " ++ line ++ lit what ++ lit "T" ++ str_of_nat current_tool ++ lit " ("
             ++ name ++ lit ") is already active".
Proof.
  unfold already_active, subscript_at, mbind, result_bind, rbind.
  destruct (tool_names !! current_tool) as [name |]; [| discriminate].
  intros [= <-]. exists name. split; reflexivity.
Qed.

Lemma already_active_raise (what : string) (line : str) (current_tool : nat) (e : exn) :
  already_active tool_names what line current_tool = Raise e ->
  e = IndexError CurrentToolName current_tool /\ tool_names !! current_tool = None.
Proof.
  unfold already_active, subscript_at, mbind, result_bind, rbind.
  destruct (tool_names !! current_tool) as [name |]; [discriminate |].
  intros [= <-]. split; reflexivity.
Qed.

Ltac unfold_steps :=
  unfold park_step, pickup_step, m104_step, tool_step, simple_step,
    mbind, result_bind, rbind in *.

Ltac split_step H :=
  repeat match type of H with
  | context [match ?x with _ => _ end] => destruct x eqn:?; try discriminate H
  end;
  try (injection H as <-); cbn [flow_state out active] in *;
  repeat match goal with
  | H' : already_active _ _ _ _ = Ok _ |- _ =>
      apply already_active_ok in H' as (? & ? & ->)
  end.

(** *** Every step leaves a line that is the original, a rewrite of it, or
    the original commented out. *)

Lemma steps_keep_line (current_tool : nat) (line : str) :
  Forall (fun step => forall s f,
            keeps_line line s -> step s = Ok f -> keeps_line line (flow_state f))
    [park_step tool_names current_tool line;
     pickup_step tool_names current_tool line;
     m104_step tool_names current_tool line;
     tool_step current_tool line;
     simple_step current_tool line].
Proof.
  unfold Notions.keeps_line.
  repeat first [apply Forall_nil_2 | apply Forall_cons_2];
    intros s f Hs H; unfold_steps; split_step H;
    first
      [ exact Hs
      | eapply Commented; reflexivity
      | apply (Rewritten _ _ _ current_tool); left; reflexivity
      | apply (Rewritten _ _ _ current_tool); right; left; reflexivity
      | apply (Rewritten _ _ _ current_tool); right; right; left; reflexivity
      | apply (Rewritten _ _ _ current_tool); right; right; right; eexists; eassumption ].
Qed.

Lemma rewrite_line_outcome (current_tool : nat) (active_tool : option nat) (line : str)
    (s : LineState) :
  rewrite_line tool_names current_tool active_tool line = Ok s ->
  line_outcome tool_names line (out s).
Proof.
  apply (run_steps_preserves (keeps_line line) _ (steps_keep_line current_tool line)).
  apply Unchanged. reflexivity.
Qed.

(** *** When and how [active_tool] changes *)

Lemma names_other_intro (r : regex) (current_tool : nat) (line : str) (m : re_match) :
  search r line = Some m ->
  negb (int_of_digits (group1 m) =? current_tool) = true ->
  names_other r current_tool line = true.
Proof. intros Hm Hne. unfold names_other. rewrite Hm. exact Hne. Qed.

Lemma steps_active (current_tool : nat) (active_tool : option nat) (line : str) :
  Forall (fun step => forall s f,
            active_ok current_tool active_tool line s -> step s = Ok f ->
            active_ok current_tool active_tool line (flow_state f))
    [park_step tool_names current_tool line;
     pickup_step tool_names current_tool line;
     m104_step tool_names current_tool line;
     tool_step current_tool line;
     simple_step current_tool line].
Proof.
  unfold active_ok, mounts.
  repeat first [apply Forall_nil_2 | apply Forall_cons_2];
    intros s f Hs H; unfold_steps; split_step H; try exact Hs; right; (split; [reflexivity |]).
  - left. eexists. reflexivity.
  - left. eexists. reflexivity.
  - right. left. eapply names_other_intro; eassumption.
  - right. right. left. eapply names_other_intro; eassumption.
  - right. right. right. eapply names_other_intro; eassumption.
Qed.

Lemma rewrite_line_active (current_tool : nat) (active_tool : option nat) (line : str)
    (s : LineState) :
  rewrite_line tool_names current_tool active_tool line = Ok s ->
  active s = active_tool \/ (active s = Some current_tool /\ mounts current_tool line).
Proof.
  apply (run_steps_preserves _ _ (steps_active current_tool active_tool line)).
  left. reflexivity.
Qed.

(** *** Which edit a line ends with *)

Lemma park_step_eq (current_tool : nat) (line : str) (s : LineState) :
  park_step tool_names current_tool line s
  = if park_skips current_tool (active s) line then
      text ← already_active tool_names " - skipped parking as " line current_tool;
      Ok (Continue (MkLine text (active s)))
    else Ok (Next s).
Proof.
  unfold park_step, park_skips. destruct (search park_pattern line); reflexivity.
Qed.

Lemma pickup_step_eq (current_tool : nat) (line : str) (s : LineState) :
  pickup_step tool_names current_tool line s
  = if pickup_skips current_tool (active s) line then
      text ← already_active tool_names " - skipped pickup as " line current_tool;
      Ok (Continue (MkLine text (active s)))
    else
      Ok (Next (MkLine (if names_other pickup_pattern current_tool line
                        then pickup_rewrite current_tool line else out s)
                       (active_after_pickup current_tool (active s) line))).
Proof.
  unfold pickup_step, pickup_skips, names_other, active_after_pickup.
  destruct (search pickup_pattern line) as [m |]; [| destruct s; reflexivity].
  destruct (int_of_digits (group1 m) =? current_tool); simpl; [| reflexivity].
  destruct (is_active (active s) current_tool); reflexivity.
Qed.

Lemma m104_step_eq (current_tool : nat) (line : str) (s : LineState) :
  m104_step tool_names current_tool line s
  = if names_other m104_pattern current_tool line then
      if is_active (active s) current_tool then
        text ← already_active tool_names " - skipped as " line current_tool;
        Ok (Continue (MkLine text (active s)))
      else
        match named m104_pattern line with
        | Some old_tool =>
            text ← new_command tool_names current_tool old_tool line;
            Ok (Next (MkLine text (Some current_tool)))
        | None => Ok (Next s)
        end
    else Ok (Next s).
Proof.
  unfold m104_step, names_other, named.
  destruct (search m104_pattern line) as [m |]; [| reflexivity]. simpl.
  destruct (int_of_digits (group1 m) =? current_tool); simpl; [reflexivity |].
  destruct (is_active (active s) current_tool); reflexivity.
Qed.

Lemma tool_step_eq (current_tool : nat) (line : str) (s : LineState) :
  tool_step current_tool line s
  = Ok (Next (if names_other tool_pattern current_tool line
              then MkLine (tool_rewrite current_tool line) (Some current_tool) else s)).
Proof.
  unfold tool_step, names_other.
  destruct (search tool_pattern line) as [m |]; [| reflexivity].
  destruct (negb (int_of_digits (group1 m) =? current_tool)); reflexivity.
Qed.

Lemma simple_step_eq (current_tool : nat) (line : str) (s : LineState) :
  simple_step current_tool line s
  = Ok (Next (if names_other simple_tool_pattern current_tool line
              then MkLine (simple_rewrite current_tool line) (Some current_tool) else s)).
Proof.
  unfold simple_step, names_other.
  destruct (search simple_tool_pattern line) as [m |]; [| reflexivity].
  destruct (negb (int_of_digits (group1 m) =? current_tool)); reflexivity.
Qed.

Lemma rewrite_line_last_edit (current_tool : nat) (active_tool : option nat) (line : str)
    (s : LineState) :
  rewrite_line tool_names current_tool active_tool line = Ok s ->
  last_edit current_tool active_tool line (out s).
Proof.
  unfold rewrite_line, run_steps, Notions.last_edit, heater_skips, heater_command.
  rewrite park_step_eq. cbn [active].
  destruct (park_skips current_tool active_tool line).
  { unfold mbind, result_bind, rbind.
    destruct (already_active _ _ _ _) eqn:Hc; [| discriminate].
    intros [= <-]. apply already_active_ok in Hc. exact Hc. }
  rewrite pickup_step_eq. cbn [active].
  destruct (pickup_skips current_tool active_tool line).
  { unfold mbind, result_bind, rbind.
    destruct (already_active _ _ _ _) eqn:Hc; [| discriminate].
    intros [= <-]. apply already_active_ok in Hc. exact Hc. }
  rewrite m104_step_eq. cbn [active out].
  destruct (names_other m104_pattern current_tool line) eqn:Hm; cbn [andb].
  - destruct (is_active (active_after_pickup current_tool active_tool line) current_tool).
    { unfold mbind, result_bind, rbind.
      destruct (already_active _ _ _ _) eqn:Hc; [| discriminate].
      intros [= <-]. apply already_active_ok in Hc. exact Hc. }
    destruct (named m104_pattern line) as [old_tool |] eqn:Hold.
    + unfold mbind, result_bind, rbind.
      destruct (new_command tool_names current_tool old_tool line) as [text | e] eqn:Hc;
        [| discriminate].
      cbv beta iota. rewrite tool_step_eq. cbv beta iota. rewrite simple_step_eq.
      destruct (names_other simple_tool_pattern current_tool line),
               (names_other tool_pattern current_tool line);
        intros [= <-]; cbn [out]; try reflexivity;
        exists old_tool; split; [reflexivity | exact Hc].
    + unfold named, names_other in *.
      destruct (search m104_pattern line); discriminate.
  - cbv beta iota. rewrite tool_step_eq. cbv beta iota. rewrite simple_step_eq.
    destruct (names_other simple_tool_pattern current_tool line),
             (names_other tool_pattern current_tool line),
             (names_other pickup_pattern current_tool line);
      intros [= <-]; reflexivity.
Qed.

(** *** A line that already names the tool of its layer *)

Lemma rewrite_line_settled (current_tool : nat) (active_tool : option nat) (line : str)
    (s : LineState) :
  settled current_tool line = true ->
  rewrite_line tool_names current_tool active_tool line = Ok s ->
  left_or_skipped current_tool line (out s).
Proof.
  unfold settled. rewrite !andb_true_iff, !negb_true_iff.
  intros [[[Hpickup Hm104] Htool] Hsimple] Hs.
  apply rewrite_line_last_edit in Hs.
  unfold Notions.last_edit, heater_skips, Notions.left_or_skipped in *.
  rewrite Hpickup, Hm104, Htool, Hsimple in Hs. cbn [andb] in Hs.
  destruct (park_skips current_tool active_tool line); [right; left; exact Hs |].
  destruct (pickup_skips current_tool active_tool line); [right; right; exact Hs |].
  left. exact Hs.
Qed.

(** *** The heater block alone *)

Lemma rewrite_line_heater (current_tool : nat) (active_tool : option nat) (line : str)
    (old_tool : nat) :
  named m104_pattern line = Some old_tool ->
  old_tool <> current_tool ->
  active_tool <> Some current_tool ->
  search pickup_pattern line = None ->
  names_other tool_pattern current_tool line = false ->
  names_other simple_tool_pattern current_tool line = false ->
  rewrite_line tool_names current_tool active_tool line
  = text ← new_command tool_names current_tool old_tool line;
    Ok (MkLine text (Some current_tool)).
Proof.
  intros Hold Hne Hact Hpickup Htool Hsimple.
  assert (Hinactive : is_active active_tool current_tool = false).
  { unfold is_active. apply bool_decide_eq_false_2. exact Hact. }
  assert (Hother : names_other m104_pattern current_tool line = true).
  { unfold names_other, named in *. destruct (search m104_pattern line); [| discriminate].
    injection Hold as ->. apply negb_true_iff, Nat.eqb_neq. exact Hne. }
  unfold rewrite_line, run_steps.
  rewrite park_step_eq. cbn [active].
  unfold park_skips. rewrite Hinactive.
  replace (match search park_pattern line with Some _ => false | None => false end)
    with false by (destruct (search park_pattern line); reflexivity).
  rewrite pickup_step_eq. cbn [active].
  unfold pickup_skips, active_after_pickup, names_other at 1. rewrite Hpickup.
  rewrite m104_step_eq. cbn [active out].
  rewrite Hother, Hinactive, Hold.
  unfold mbind, result_bind, rbind.
  destruct (new_command tool_names current_tool old_tool line) as [text | e]; [| reflexivity].
  rewrite tool_step_eq. cbv beta iota. rewrite simple_step_eq.
  rewrite Htool, Hsimple. reflexivity.
Qed.

(** The text of the synthesized heater command. *)
Lemma new_command_text (current_tool old_tool : nat) (line : str) :
  (is_Some (search [Lit ";"; DotStar; EndAnchor] line)
   \/ (old_tool < length tool_names /\ current_tool < length tool_names)) ->
  exists p_value q_value s_value tail,
    new_command tool_names current_tool old_tool line
    = Ok (lit "M104.1 T" ++ str_of_nat current_tool ++ lit " P" ++ p_value ++ lit " Q"
            ++ q_value ++ lit " S" ++ s_value ++ tail)
    /\ p_value = match search [Lit "P"; Group1] line with
                 | Some p_match => group1 p_match
                 | None => lit "120"
                 end
    /\ q_value = match search [Lit "Q"; Group1] line with
                 | Some q_match => group1 q_match
                 | None => str_of_nat (int_of_digits p_value + current_tool + 1)
                 end
    /\ s_value = match search [Lit "S"; Group1] line with
                 | Some s_match => group1 s_match
                 | None => lit "210"
                 end
    /\ match search [Lit ";"; DotStar; EndAnchor] line with
       | Some comment_match => tail = lit " " ++ group0 comment_match
       | None =>
           exists old_name new_name,
             tool_names !! old_tool = Some old_name
             /\ tool_names !! current_tool = Some new_name
             /\ tail = lit " ; switched from T" ++ str_of_nat old_tool ++ lit " ("
                         ++ old_name ++ lit ") to T" ++ str_of_nat current_tool ++ lit " ("
                         ++ new_name ++ lit ")"
       end.
Proof.
  intros Hnames. unfold new_command, group1_or.
  set (p_value := match search [Lit "P"; Group1] line with
                  | Some m => group1 m | None => lit "120" end).
  set (q_value := match search [Lit "Q"; Group1] line with
                  | Some m => group1 m
                  | None => str_of_nat (int_of_digits p_value + current_tool + 1) end).
  set (s_value := match search [Lit "S"; Group1] line with
                  | Some m => group1 m | None => lit "210" end).
  destruct (search [Lit ";"; DotStar; EndAnchor] line) as [comment_match |] eqn:Hcomment.
  - exists p_value, q_value, s_value, (lit " " ++ group0 comment_match).
    split; [| repeat split].
    f_equal. rewrite <- !app_assoc. reflexivity.
  - destruct Hnames as [[m Hm] | [Hold Hcur]]; [discriminate |].
    apply lookup_lt_is_Some in Hold as [old_name Hold].
    apply lookup_lt_is_Some in Hcur as [new_name Hcur].
    unfold subscript_at, mbind, result_bind, rbind. rewrite Hold, Hcur.
    eexists p_value, q_value, s_value, _.
    split; [| split; [reflexivity | split; [reflexivity | split; [reflexivity |]]]].
    + f_equal. rewrite <- !app_assoc. reflexivity.
    + exists old_name, new_name. split; [exact Hold |]. split; [exact Hcur | reflexivity].
Qed.

(** *** The exceptions of an iteration *)

Lemma new_command_raise (current_tool old_tool : nat) (line : str) (e : exn) :
  new_command tool_names current_tool old_tool line = Raise e ->
  (e = IndexError CurrentToolName current_tool /\ tool_names !! current_tool = None)
  \/ (e = IndexError OldToolName old_tool /\ tool_names !! old_tool = None).
Proof.
  unfold new_command, subscript_at, mbind, result_bind, rbind.
  destruct (search [Lit ";"; DotStar; EndAnchor] line); [discriminate |].
  destruct (tool_names !! old_tool) eqn:Hold.
  - destruct (tool_names !! current_tool) eqn:Hcur; [discriminate |].
    intros [= <-]. left. split; reflexivity.
  - intros [= <-]. right. split; reflexivity.
Qed.

Lemma steps_raise (current_tool : nat) (line : str) :
  Forall (fun step => forall s e, step s = Raise e -> line_error current_tool line e)
    [park_step tool_names current_tool line;
     pickup_step tool_names current_tool line;
     m104_step tool_names current_tool line;
     tool_step current_tool line;
     simple_step current_tool line].
Proof.
  unfold Notions.line_error.
  repeat first [apply Forall_nil_2 | apply Forall_cons_2];
    intros s e H; unfold_steps;
    repeat match type of H with
    | context [match ?x with _ => _ end] => destruct x eqn:?; try discriminate H
    end;
    injection H as <-;
    try (left; eapply already_active_raise; eassumption).
  match goal with H : new_command _ _ _ _ = Raise _ |- _ =>
    apply new_command_raise in H as [Hc | [-> Ho]] end.
  - left. exact Hc.
  - right. eexists. split; [unfold named; rewrite Heqo; reflexivity |].
    split; [| split; [reflexivity | exact Ho]].
    apply negb_true_iff, Nat.eqb_neq in Heqb. exact Heqb.
Qed.

Lemma rewrite_line_raise (current_tool : nat) (active_tool : option nat) (line : str)
    (e : exn) :
  rewrite_line tool_names current_tool active_tool line = Raise e ->
  line_error current_tool line e.
Proof.
  apply (run_steps_raises _ _ (steps_raise current_tool line)).
Qed.

End Steps.

(** *** The pass *)

Section PassFacts.

Variable tool_names : list str.
Variable layer_positions : list nat.
Variable tool_sequence : list nat.

Local Abbreviation process_line := (process_line tool_names layer_positions tool_sequence).
Local Abbreviation pass := (pass tool_names layer_positions tool_sequence).
Local Abbreviation enter_layer := (enter_layer layer_positions tool_sequence).
Local Abbreviation planned := (planned tool_sequence).

Lemma enter_layer_planned (i : nat) (st : RewriteState) :
  planned st -> planned (enter_layer i st).
Proof.
  unfold Notions.planned, GCodeToolSwitcher.enter_layer. intros Hst t.
  destruct (bool_decide (i ∈ layer_positions)); [| apply Hst].
  destruct (Z.ltb_spec (current_layer st + 1) (Z.of_nat (length tool_sequence)));
    simpl; [| apply Hst].
  intros Ht. apply list_elem_of_lookup. eexists. exact Ht.
Qed.

Lemma enter_layer_active (i : nat) (st : RewriteState) :
  active_tool (enter_layer i st) = active_tool st.
Proof.
  unfold GCodeToolSwitcher.enter_layer.
  destruct (bool_decide (i ∈ layer_positions)); [| reflexivity].
  destruct (Z.ltb_spec (current_layer st + 1) (Z.of_nat (length tool_sequence))); reflexivity.
Qed.

Lemma enter_layer_current (i : nat) (st : RewriteState) :
  current_tool (enter_layer i st) <> current_tool st -> i ∈ layer_positions.
Proof.
  unfold GCodeToolSwitcher.enter_layer.
  destruct (bool_decide_reflect (i ∈ layer_positions)) as [Hin | Hout]; [intros _; exact Hin |].
  intros Hne. contradiction.
Qed.

Lemma process_line_ok (i : nat) (st : RewriteState) (line text : str) (st' : RewriteState) :
  process_line i st line = Ok (text, st') ->
  current_tool st' = current_tool (enter_layer i st)
  /\ current_layer st' = current_layer (enter_layer i st)
  /\ match current_tool st' with
     | None => text = line /\ active_tool st' = active_tool st
     | Some tool =>
         exists s, rewrite_line tool_names tool (active_tool st) line = Ok s
                   /\ text = out s /\ active_tool st' = active s
     end.
Proof.
  unfold GCodeToolSwitcher.process_line.
  pose proof (enter_layer_active i st) as Hact.
  destruct (current_tool (enter_layer i st)) as [tool |] eqn:Htool.
  - unfold mbind, result_bind, rbind. rewrite Hact.
    destruct (rewrite_line tool_names tool (active_tool st) line) as [s | e] eqn:Hs;
      [| discriminate].
    intros [= <- <-]. simpl.
    split; [reflexivity |]. split; [reflexivity |].
    exists s. repeat split. exact Hs.
  - intros [= <- <-]. rewrite Htool. repeat split. exact Hact.
Qed.

Lemma process_line_planned (i : nat) (st : RewriteState) (line : str)
    (r : str * RewriteState) :
  planned st -> process_line i st line = Ok r -> planned (snd r).
Proof.
  intros Hst Hr. destruct r as [text st'].
  apply process_line_ok in Hr as (Hcur & _).
  pose proof (enter_layer_planned i st Hst) as Hst1.
  unfold Notions.planned in *. simpl. rewrite Hcur. exact Hst1.
Qed.

Lemma process_line_raise (i : nat) (st : RewriteState) (line : str) (e : exn) :
  process_line i st line = Raise e ->
  exists tool, current_tool (enter_layer i st) = Some tool
               /\ Notions.line_error tool_names tool line e.
Proof.
  unfold GCodeToolSwitcher.process_line.
  destruct (current_tool (enter_layer i st)) as [tool |] eqn:Htool; [| discriminate].
  unfold mbind, result_bind, rbind.
  destruct (rewrite_line tool_names tool (active_tool (enter_layer i st)) line) as [s | e']
    eqn:Hs; [discriminate |].
  intros [= <-]. exists tool. split; [reflexivity |].
  eapply rewrite_line_raise. exact Hs.
Qed.

Lemma pass_cons (i : nat) (st : RewriteState) (line : str) (rest : list str) :
  pass i st (line :: rest)
  = r ← process_line i st line; t ← pass (S i) (snd r) rest; Ok (fst r :: fst t, snd t).
Proof. reflexivity. Qed.

Lemma pass_ok_cons (i : nat) (st : RewriteState) (line : str) (rest : list str)
    (texts : list str) (st' : RewriteState) :
  pass i st (line :: rest) = Ok (texts, st') ->
  exists text st1 texts',
    process_line i st line = Ok (text, st1)
    /\ pass (S i) st1 rest = Ok (texts', st')
    /\ texts = text :: texts'.
Proof.
  rewrite pass_cons. unfold mbind, result_bind, rbind.
  destruct (process_line i st line) as [[text st1] | e]; [| discriminate].
  simpl. destruct (pass (S i) st1 rest) as [[texts' st2] | e] eqn:Hrest; [| discriminate].
  intros [= <- <-]. exists text, st1, texts'.
  split; [reflexivity |]. split; [exact Hrest | reflexivity].
Qed.

Lemma pass_outcome (lines : list str) :
  forall i st texts st',
  pass i st lines = Ok (texts, st') ->
  Forall2 (line_outcome tool_names) lines texts.
Proof.
  induction lines as [| line rest IH]; intros i st texts st' Hpass.
  - simpl in Hpass. injection Hpass as <- <-. constructor.
  - apply pass_ok_cons in Hpass as (text & st1 & texts' & Hline & Hrest & ->).
    constructor; [| eapply IH; exact Hrest].
    apply process_line_ok in Hline as (_ & _ & Hline).
    destruct (current_tool st1).
    + destruct Hline as (s & Hs & -> & _). eapply rewrite_line_outcome. exact Hs.
    + destruct Hline as [-> _]. apply Unchanged. reflexivity.
Qed.

Lemma pass_raise (lines : list str) :
  forall i st e,
  planned st ->
  pass i st lines = Raise e ->
  exists tool line,
    tool ∈ tool_sequence /\ line ∈ lines /\ Notions.line_error tool_names tool line e.
Proof.
  induction lines as [| line rest IH]; intros i st e Hst Hpass.
  - discriminate.
  - rewrite pass_cons in Hpass. unfold mbind, result_bind, rbind in Hpass.
    destruct (process_line i st line) as [r | e1] eqn:Hline.
    + destruct (pass (S i) (snd r) rest) as [t | e2] eqn:Hrest; [discriminate |].
      injection Hpass as ->.
      destruct (IH _ _ _ (process_line_planned _ _ _ _ Hst Hline) Hrest)
        as (tool & l & Htool & Hl & He).
      exists tool, l. split; [exact Htool |]. split; [| exact He].
      apply elem_of_cons. right. exact Hl.
    + injection Hpass as ->.
      apply process_line_raise in Hline as (tool & Htool & He).
      exists tool, line. split; [| split; [apply elem_of_cons; left; reflexivity | exact He]].
      apply (enter_layer_planned i st Hst). exact Htool.
Qed.

Lemma pass_length (lines : list str) :
  forall i st texts st',
  pass i st lines = Ok (texts, st') -> length texts = length lines.
Proof.
  induction lines as [| line rest IH]; intros i st texts st' Hpass.
  - simpl in Hpass. injection Hpass as <- <-. reflexivity.
  - apply pass_ok_cons in Hpass as (text & st1 & texts' & _ & Hrest & ->).
    simpl. f_equal. eapply IH. exact Hrest.
Qed.

Lemma pass_app (a b : list str) :
  forall i st,
  pass i st (a ++ b)
  = r ← pass i st a; t ← pass (i + length a) (snd r) b; Ok (fst r ++ fst t, snd t).
Proof.
  induction a as [| line rest IH]; intros i st.
  - simpl. rewrite Nat.add_0_r. unfold mbind, result_bind, rbind.
    destruct (pass i st b) as [[texts st'] |]; reflexivity.
  - rewrite <- app_comm_cons, !pass_cons. unfold mbind, result_bind, rbind.
    destruct (process_line i st line) as [[text st1] | e]; [| reflexivity].
    cbn [fst snd]. rewrite IH. unfold mbind, result_bind, rbind.
    destruct (pass (S i) st1 rest) as [[texts1 st2] | e]; [| reflexivity].
    cbn [fst snd length]. replace (i + S (length rest)) with (S i + length rest) by lia.
    destruct (pass (S i + length rest) st2 b) as [[texts2 st3] | e]; reflexivity.
Qed.

(** The iteration on line [i] of a pass that completes: the state before
    it is the one the pass reaches on the first [i] lines. *)
Lemma pass_iteration (lines texts : list str) (st_end : RewriteState) (i : nat) (line : str) :
  pass 0 initial_state lines = Ok (texts, st_end) ->
  lines !! i = Some line ->
  exists before st text st',
    pass 0 initial_state (take i lines) = Ok (before, st)
    /\ process_line i st line = Ok (text, st')
    /\ texts !! i = Some text.
Proof.
  intros Hpass Hline.
  pose proof (lookup_lt_Some _ _ _ Hline) as Hlt.
  rewrite <- (take_drop_middle lines i line Hline) in Hpass.
  rewrite pass_app in Hpass. unfold mbind, result_bind, rbind in Hpass.
  destruct (pass 0 initial_state (take i lines)) as [[before st] |] eqn:Hbefore;
    [| discriminate].
  cbn [fst snd] in Hpass.
  rewrite length_take, Nat.min_l in Hpass by lia. rewrite Nat.add_0_l in Hpass.
  destruct (pass i st (line :: drop (S i) lines)) as [[texts2 st2] |] eqn:Hrest;
    [| discriminate].
  injection Hpass as <- <-.
  apply pass_ok_cons in Hrest as (text & st' & texts' & Hstep & _ & ->).
  exists before, st, text, st'. split; [reflexivity |]. split; [exact Hstep |].
  apply pass_length in Hbefore.
  rewrite lookup_app_r by (rewrite Hbefore, length_take; lia).
  rewrite Hbefore, length_take, Nat.min_l by lia.
  rewrite Nat.sub_diag. reflexivity.
Qed.

(** No exception when every tool id met is configured. *)
Lemma pass_returns (lines : list str) (i : nat) (st : RewriteState) :
  planned st ->
  Forall (fun t => t < length tool_names) tool_sequence ->
  Forall (fun line => forall old_tool,
            named m104_pattern line = Some old_tool -> old_tool < length tool_names) lines ->
  exists r, pass i st lines = Ok r.
Proof.
  intros Hst Hseq Hlines.
  destruct (pass i st lines) as [r | e] eqn:Hpass; [exists r; reflexivity |].
  exfalso.
  apply pass_raise in Hpass as (tool & line & Htool & Hline & Herr); [| exact Hst].
  destruct Herr as [[_ Hnone] | (old_tool & Hold & _ & _ & Hnone)];
    apply lookup_ge_None in Hnone.
  - rewrite Forall_forall in Hseq. specialize (Hseq tool Htool). lia.
  - rewrite Forall_forall in Hlines. specialize (Hlines line Hline old_tool Hold). lia.
Qed.

(** *** A second pass over settled lines *)

Lemma enter_layer_same (i : nat) (st st2 : RewriteState) :
  same_layer st st2 -> same_layer (enter_layer i st) (enter_layer i st2).
Proof.
  unfold same_layer, GCodeToolSwitcher.enter_layer. intros [Hlayer Htool].
  destruct (bool_decide (i ∈ layer_positions)); [| split; assumption].
  rewrite Hlayer.
  destruct (Z.ltb_spec (current_layer st2 + 1) (Z.of_nat (length tool_sequence)));
    simpl; split; congruence.
Qed.

Lemma pass_settled (lines : list str) :
  forall i st st2 texts st',
  same_layer st st2 ->
  forallb (fun p => settled_for (fst p) (snd p))
    (zip (tools_from layer_positions tool_sequence i st2 (length lines)) lines) = true ->
  pass i st lines = Ok (texts, st') ->
  Forall2 (fun line text => exists tool, left_or_skipped tool_names tool line text)
    lines texts.
Proof.
  induction lines as [| line rest IH]; intros i st st2 texts st' Hsame Hall Hpass.
  - simpl in Hpass. injection Hpass as <- <-. constructor.
  - apply pass_ok_cons in Hpass as (text & st1 & texts' & Hline & Hrest & ->).
    simpl in Hall. apply andb_true_iff in Hall as [Hhere Hall].
    pose proof (enter_layer_same i st st2 Hsame) as [Hlayer1 Htool1].
    apply process_line_ok in Hline as (Hcur & Hlay & Hline).
    constructor.
    + destruct (current_tool st1) as [tool |] eqn:Htool.
      * destruct Hline as (s & Hs & -> & _).
        exists tool. eapply rewrite_line_settled; [| exact Hs].
        rewrite <- Htool1, <- Hcur in Hhere. exact Hhere.
      * destruct Hline as [-> _]. exists 0. left. reflexivity.
    + eapply (IH (S i) st1 _ texts' st'); [| exact Hall | exact Hrest].
      split; congruence.
Qed.

Lemma pass_settled_returns (lines : list str) :
  forall i st st2,
  same_layer st st2 ->
  planned st ->
  Forall (fun t => t < length tool_names) tool_sequence ->
  forallb (fun p => settled_for (fst p) (snd p))
    (zip (tools_from layer_positions tool_sequence i st2 (length lines)) lines) = true ->
  exists r, pass i st lines = Ok r.
Proof.
  induction lines as [| line rest IH]; intros i st st2 Hsame Hst Hseq Hall.
  - eexists. reflexivity.
  - simpl in Hall. apply andb_true_iff in Hall as [Hhere Hall].
    pose proof (enter_layer_same i st st2 Hsame) as [Hlayer1 Htool1].
    rewrite pass_cons.
    destruct (process_line i st line) as [[text st1] | e] eqn:Hline.
    + pose proof (process_line_planned _ _ _ _ Hst Hline) as Hst1.
      apply process_line_ok in Hline as (Hcur & Hlay & _).
      destruct (IH (S i) st1 (GCodeToolSwitcher.enter_layer layer_positions tool_sequence i st2))
        as [r Hr]; [split; congruence | exact Hst1 | exact Hseq | exact Hall |].
      unfold mbind, result_bind, rbind. cbn [snd]. rewrite Hr. eexists. reflexivity.
    + exfalso.
      apply process_line_raise in Hline as (tool & Htool & Herr).
      destruct Herr as [[_ Hnone] | (old_tool & Hold & Hne & _ & _)].
      * apply lookup_ge_None in Hnone.
        pose proof (enter_layer_planned i st Hst tool Htool) as Hin.
        rewrite Forall_forall in Hseq. specialize (Hseq tool Hin). lia.
      * rewrite <- Htool1, Htool in Hhere. simpl in Hhere.
        unfold settled in Hhere. rewrite !andb_true_iff, !negb_true_iff in Hhere.
        destruct Hhere as [[[_ Hm104] _] _].
        unfold names_other, named in *.
        destruct (search m104_pattern line); [| discriminate].
        injection Hold as Hold. apply negb_false_iff, Nat.eqb_eq in Hm104. congruence.
Qed.

Lemma initial_planned : planned initial_state.
Proof. intros t Ht. discriminate. Qed.

End PassFacts.
End RewriterFacts.

(** ** Facts about the conversion *)

Module AppFacts.
Import GCodeToolSwitcher Notions App.

Lemma count_tools_returns (tool_sequence : list nat) :
  forall tool_counts,
  Forall (fun t => t < length tool_counts) tool_sequence ->
  exists counted, count_tools tool_sequence tool_counts = Ok counted.
Proof.
  induction tool_sequence as [| tool rest IH]; intros tool_counts Hall; simpl.
  - eexists. reflexivity.
  - apply Forall_cons in Hall as [Htool Hrest].
    apply lookup_lt_is_Some in Htool as [count Hcount].
    unfold subscript_at, mbind, result_bind, rbind. rewrite Hcount.
    apply IH. rewrite length_insert. exact Hrest.
Qed.

Lemma process_file_io (tool_names : list str) (fuel : nat) (w w' : World)
    (input_file output_file : string) (ratio_pattern : list Q) (io : list event)
    (r : result (nat * list nat)) :
  process_file tool_names fuel w input_file output_file ratio_pattern = Some (w', io, r) ->
  Forall (fun e => is_file_io e = true) io.
Proof.
  unfold process_file.
  destruct (read_file w input_file) as [gcode_content | e];
    [| intros [= <- <- <-]; repeat constructor].
  destruct (parse_layers gcode_content) as [layer_positions gcode_lines].
  destruct (calculate_tool_distribution fuel (length layer_positions) ratio_pattern)
    as [tool_sequence |]; [| discriminate].
  destruct (modify_gcode tool_names layer_positions tool_sequence gcode_lines)
    as [modified_lines | e]; [| intros [= <- <- <-]; repeat constructor].
  destruct (write_file w output_file (join_lines modified_lines));
    intros [= <- <- <-]; repeat constructor.
Qed.

End AppFacts.

(** ** The rewriter on characters above 127

    The classes [\s] and [\w] reach beyond ASCII: a no-break space (160)
    separates the fields of a command like a blank does, and an accented
    letter (233) before a tool token leaves no word boundary in front of
    it. *)

Module BeyondAscii.
Import GCodeToolSwitcher Notions.

Lemma pickup_with_no_break_space :
  rewrite_line five_tools 2 None (lit "T0" ++ [ascii_of_nat 160] ++ lit "S1 L0 D0")
  = Ok (MkLine (lit "T2" ++ [ascii_of_nat 160] ++ lit "S1 L0 D0") (Some 2)).
Proof. vm_compute. reflexivity. Qed.

Lemma heater_with_no_break_space :
  named m104_pattern (lit "M104.1" ++ [ascii_of_nat 160] ++ lit "T9") = Some 9
  /\ modify_gcode two_tools [0] [0]
       [lit ";LAYER_CHANGE"; lit "M104.1" ++ [ascii_of_nat 160] ++ lit "T9"]
     = Raise (IndexError OldToolName 9).
Proof. split; vm_compute; reflexivity. Qed.

Lemma pickup_inside_comment :
  is_Some (search pickup_pattern
             (lit "M104.1 T0 P120 ; T0" ++ [ascii_of_nat 160] ++ lit "S1 L0 D0"))
  /\ rewrite_line five_tools 2 None
       (lit "M104.1 T0 P120 ; T0" ++ [ascii_of_nat 160] ++ lit "S1 L0 D0")
     = Ok (MkLine (lit "; M104.1 T0 P120 ; T0" ++ [ascii_of_nat 160]
                     ++ lit "S1 L0 D0 - skipped as T2 (Yellow) is already active")
                  (Some 2)).
Proof. split; [vm_compute; eexists; reflexivity | vm_compute; reflexivity]. Qed.

Lemma no_boundary_after_letter :
  rewrite_line five_tools 2 None (lit " T0 S2 L0 D0 " ++ [ascii_of_nat 233] ++ lit "T5")
  = Ok (MkLine (lit " T2 S2 L0 D0 " ++ [ascii_of_nat 233] ++ lit "T5") (Some 2)).
Proof. vm_compute. reflexivity. Qed.

End BeyondAscii.

(** ** The claims of the specification *)

Import GCodeToolSwitcher Notions PlannerFacts RewriterFacts App AppFacts.

(** *** The planner *)

(** C1. For a pattern of non-negative numbers with a positive sum, the planner
    returns the first N entries of the repeated full sweep, the sweep giving
    each tool, in index order, floor(count) copies of its id and one more when
    count has a fractional part; [1,1] and [0.5,0.5] with N = 4 both give
    [0,1,0,1]. *)
Theorem planner_follows_sweeps (ratio_pattern : list Q) (total_layers fuel : nat)
    (Hnonneg : Forall (fun c => (0 <= c)%Q) ratio_pattern)
    (Hsum : (0 < sum_pattern ratio_pattern)%Q)
    (Hfuel : total_layers <= fuel) :
  calculate_tool_distribution fuel total_layers ratio_pattern
    = Some (PlannerSpec.plan total_layers ratio_pattern)
  /\ calculate_tool_distribution 4 4 [1#1; 1#1]%Q = Some [0; 1; 0; 1]
  /\ calculate_tool_distribution 4 4 [1#2; 1#2]%Q = Some [0; 1; 0; 1].
Proof.
  split; [| split; reflexivity].
  rewrite calculate_take by (try apply sweep_not_empty; assumption).
  unfold PlannerSpec.plan. rewrite blocks_full_sweep by assumption. reflexivity.
Qed.

Lemma planner_follows_sweeps_witness :
  calculate_tool_distribution 6 6 [2#1; 1#1]%Q = Some [0; 0; 1; 0; 0; 1].
Proof.
  refine (eq_trans (proj1 (planner_follows_sweeps [2#1; 1#1]%Q 6 6 _ _ _)) _).
  - repeat constructor; unfold Qle; simpl; lia.
  - unfold Qlt; simpl; lia.
  - lia.
  - vm_compute. reflexivity.
Defined.

(** C2. For a pattern of non-negative numbers with a positive sum the planner
    terminates (any fuel of at least N sweeps gives the same result) and the
    result has exactly N entries; for N = 0 the result is empty whatever the
    pattern. *)
Theorem planner_length (ratio_pattern : list Q) (total_layers : nat)
    (Hnonneg : Forall (fun c => (0 <= c)%Q) ratio_pattern)
    (Hsum : (0 < sum_pattern ratio_pattern)%Q) :
  (exists tool_sequence,
      (forall fuel, total_layers <= fuel ->
         calculate_tool_distribution fuel total_layers ratio_pattern = Some tool_sequence)
      /\ length tool_sequence = total_layers)
  /\ (forall (any_pattern : list Q) (fuel : nat),
        calculate_tool_distribution fuel 0 any_pattern = Some []).
Proof.
  split.
  - pose proof (sweep_not_empty _ Hsum) as Hpos.
    eexists. split.
    + intros fuel Hfuel. apply calculate_take; assumption.
    + rewrite length_take, length_concat_replicate. nia.
  - intros any_pattern fuel. destruct fuel; reflexivity.
Qed.

Lemma planner_length_witness :
  exists tool_sequence,
    (forall fuel, 5 <= fuel ->
       calculate_tool_distribution fuel 5 [2#1; 0#1; 1#2]%Q = Some tool_sequence)
    /\ length tool_sequence = 5.
Proof.
  refine (proj1 (planner_length [2#1; 0#1; 1#2]%Q 5 _ _)).
  - repeat constructor; unfold Qle; simpl; lia.
  - unfold Qlt; simpl; lia.
Defined.

(** C7 fails: with pattern [3,3] and N = 3 all three layers go to tool 0,
    whose share of three layers is one and a half. *)
Lemma planner_share_counterexample :
  calculate_tool_distribution 3 3 [3#1; 3#1]%Q = Some [0; 0; 0]
  /\ ~ within_one_layer [3#1; 3#1]%Q 3 [0; 0; 0] 0.
Proof.
  split; [reflexivity |].
  unfold within_one_layer. vm_compute. intros H. apply H. reflexivity.
Qed.

(** C7, amended. For a pattern with a positive sum the planner returns
    exactly N entries, and the count of tool t stays within k layers of
    N * k / K, where k is what one sweep gives the tool (floor(count), plus
    one for a fractional part) and K what a whole sweep appends:
    |count * K - N * k| <= k * K.  Hence count / N tends to k / K: it is
    within 1/m of it as soon as N >= m * k. *)
Theorem planner_share_bound (ratio_pattern : list Q) (total_layers fuel t : nat)
    (Hsum : (0 < sum_pattern ratio_pattern)%Q)
    (Hfuel : total_layers <= fuel) :
  exists tool_sequence,
    calculate_tool_distribution fuel total_layers ratio_pattern = Some tool_sequence
    /\ length tool_sequence = total_layers
    /\ let k := Z.of_nat (per_sweep ratio_pattern t) in
       let K := Z.of_nat (sum_list (map layers_per_sweep ratio_pattern)) in
       let deviation :=
         Z.abs (Z.of_nat (count_tool t tool_sequence) * K - Z.of_nat total_layers * k) in
       (deviation <= k * K)%Z
       /\ forall m : nat,
            m * per_sweep ratio_pattern t <= total_layers ->
            (Z.of_nat m * deviation <= Z.of_nat total_layers * K)%Z.
Proof.
  pose proof (sweep_not_empty _ Hsum) as Hpos.
  eexists. split; [apply calculate_take; assumption |].
  split; [rewrite length_take, length_concat_replicate; nia |].
  destruct (count_tool_plan total_layers t (blocks 0 ratio_pattern) Hpos)
    as (extra & Hextra & ->).
  rewrite count_tool_sweep in *.
  rewrite length_blocks in *.
  set (k := per_sweep ratio_pattern t) in *.
  set (K := sum_list (map layers_per_sweep ratio_pattern)) in *.
  cbv zeta.
  pose proof (Nat.div_mod total_layers K ltac:(lia)) as Hdm.
  pose proof (Nat.mod_upper_bound total_layers K ltac:(lia)) as Hmod.
  set (q := total_layers / K) in *.
  set (r := total_layers mod K) in *.
  assert (Hbound : (Z.abs (Z.of_nat (q * k + extra) * Z.of_nat K
                           - Z.of_nat total_layers * Z.of_nat k)
                    <= Z.of_nat k * Z.of_nat K)%Z).
  { rewrite Hdm. apply Z.abs_le. nia. }
  split; [exact Hbound |].
  intros m Hm.
  apply Z.le_trans with (Z.of_nat m * (Z.of_nat k * Z.of_nat K))%Z; [nia |].
  assert (Z.of_nat m * Z.of_nat k <= Z.of_nat total_layers)%Z by lia.
  nia.
Qed.

Lemma planner_share_bound_witness :
  exists tool_sequence,
    calculate_tool_distribution 3 3 [3#1; 3#1]%Q = Some tool_sequence
    /\ length tool_sequence = 3
    /\ let deviation := Z.abs (Z.of_nat (count_tool 0 tool_sequence) * 6 - 3 * 3)%Z in
       (deviation <= 3 * 6)%Z
       /\ forall m : nat, m * 3 <= 3 -> (Z.of_nat m * deviation <= 3 * 6)%Z.
Proof.
  refine (planner_share_bound [3#1; 3#1]%Q 3 3 0 _ _).
  - unfold Qlt; simpl; lia.
  - lia.
Defined.

(** *** The rewriter *)










(** C9 fails: on a pickup line whose comment contains a T<digit> inside a
    word, the pickup block rewrites every T<id>, then the generic block
    rewrites the original line again and its result replaces the first
    one; the edits do not accumulate. *)
Lemma accumulate_counterexample :
  is_Some (search pickup_pattern (lit "T0 S1 L0 D0 ; FILAMENT1"))
  /\ is_Some (search tool_pattern (lit "T0 S1 L0 D0 ; FILAMENT1"))
  /\ rewrite_line five_tools 2 None (lit "T0 S1 L0 D0 ; FILAMENT1")
     = Ok (MkLine (lit "T2 S1 L0 D0 ; FILAMENT1") (Some 2))
  /\ rewrite_line_accumulating five_tools 2 None (lit "T0 S1 L0 D0 ; FILAMENT1")
     = Ok (MkLine (lit "T2 S1 L0 D0 ; FILAMENT2") (Some 2))
  /\ lit "T2 S1 L0 D0 ; FILAMENT1" <> lit "T2 S1 L0 D0 ; FILAMENT2".
Proof.
  split; [vm_compute; eexists; reflexivity |].
  split; [vm_compute; eexists; reflexivity |].
  split; [vm_compute; reflexivity |].
  split; [vm_compute; reflexivity | discriminate].
Qed.

(** C9, amended. Within one iteration the park, pickup and heater skips are
    exclusive exits: the line is commented out and nothing else is applied.
    Otherwise the blocks run in the order 3, 4, 5, 6, each of them matching
    and rewriting the line as it was when the iteration began, so the output
    is the rewrite of the last block that applies (leading token, else
    generic token, else heater command, else pickup), or the line itself. *)
Theorem edits_last_wins (tool_names : list str) (tool : nat) (active_tool : option nat)
    (line : str) (s : LineState)
    (Hline : rewrite_line tool_names tool active_tool line = Ok s) :
  if park_skips tool active_tool line then
    commented tool_names " - skipped parking as " tool line (out s)
  else if pickup_skips tool active_tool line then
    commented tool_names " - skipped pickup as " tool line (out s)
  else if heater_skips tool active_tool line then
    commented tool_names " - skipped as " tool line (out s)
  else if names_other simple_tool_pattern tool line then
    out s = simple_rewrite tool line
  else if names_other tool_pattern tool line then
    out s = tool_rewrite tool line
  else if names_other m104_pattern tool line then
    heater_command tool_names tool line (out s)
  else if names_other pickup_pattern tool line then
    out s = pickup_rewrite tool line
  else out s = line.
Proof. apply (rewrite_line_last_edit tool_names tool active_tool line s Hline). Qed.

Lemma edits_last_wins_witness :
  lit "T2 S1 L0 D0 ; FILAMENT1" = tool_rewrite 2 (lit "T0 S1 L0 D0 ; FILAMENT1").
Proof.
  apply (edits_last_wins five_tools 2 None (lit "T0 S1 L0 D0 ; FILAMENT1")
           (MkLine (lit "T2 S1 L0 D0 ; FILAMENT1") (Some 2))).
  vm_compute. reflexivity.
Defined.

(** C10. For a pattern of non-negative numbers with a positive sum every
    planned tool id is below the pattern's length; so with as many configured
    names as counts,
    [modify_gcode] never raises at [tool_names[current_tool]], whatever the
    document, and the report's [tool_counts[tool] += 1] stays in range. *)
Theorem planned_tools_in_range (ratio_pattern : list Q) (total_layers fuel : nat)
    (tool_names tool_names_ui : list str) (layer_positions : list nat)
    (gcode_lines : list str)
    (Hnonneg : Forall (fun c => (0 <= c)%Q) ratio_pattern)
    (Hsum : (0 < sum_pattern ratio_pattern)%Q)
    (Hfuel : total_layers <= fuel) :
  exists tool_sequence,
    calculate_tool_distribution fuel total_layers ratio_pattern = Some tool_sequence
    /\ Forall (fun t => t < length ratio_pattern) tool_sequence
    /\ (length tool_names = length ratio_pattern ->
        forall index,
          modify_gcode tool_names layer_positions tool_sequence gcode_lines
          <> Raise (IndexError CurrentToolName index))
    /\ (length tool_names_ui = length ratio_pattern ->
        exists tool_counts, report tool_names_ui tool_sequence = Ok tool_counts).
Proof.
  pose proof (sweep_not_empty _ Hsum) as Hpos.
  eexists. split; [apply calculate_take; assumption |].
  set (tool_sequence := take total_layers _).
  assert (Hrange : Forall (fun t => t < length ratio_pattern) tool_sequence).
  { unfold tool_sequence. apply Forall_take, Forall_concat, Forall_replicate.
    eapply Forall_impl; [apply blocks_bounds |]. simpl. intros t Ht. lia. }
  split; [exact Hrange |]. split.
  - intros Hlen index Hraise. unfold modify_gcode in Hraise.
    destruct (pass tool_names layer_positions tool_sequence 0 initial_state gcode_lines)
      as [r | e] eqn:Hpass; [discriminate |].
    injection Hraise as ->.
    apply pass_raise in Hpass as (tool & line & Htool & _ & Herr);
      [| apply initial_planned].
    destruct Herr as [[_ Hnone] | (old_tool & _ & _ & Habs & _)]; [| discriminate].
    apply lookup_ge_None in Hnone.
    rewrite Forall_forall in Hrange. specialize (Hrange tool Htool). lia.
  - intros Hlen. unfold report. apply count_tools_returns.
    rewrite length_replicate, Hlen. exact Hrange.
Qed.

Lemma planned_tools_in_range_witness :
  exists tool_sequence,
    calculate_tool_distribution 7 7 [2#1; 0#1; 1#2; 0#1; 0#1]%Q = Some tool_sequence
    /\ Forall (fun t => t < 5) tool_sequence
    /\ (length five_tools = 5 ->
        forall index,
          modify_gcode five_tools [0] tool_sequence [lit ";LAYER_CHANGE"; lit "T4 S1 L0 D0"]
          <> Raise (IndexError CurrentToolName index))
    /\ (length five_tools = 5 ->
        exists tool_counts, report five_tools tool_sequence = Ok tool_counts).
Proof.
  apply (planned_tools_in_range [2#1; 0#1; 1#2; 0#1; 0#1]%Q 7 7 five_tools five_tools [0]
           [lit ";LAYER_CHANGE"; lit "T4 S1 L0 D0"]).
  - repeat constructor; unfold Qle; simpl; lia.
  - unfold Qlt; simpl; lia.
  - lia.
Defined.




(** *** The conversion *)

(** C6. A pattern of non-negative numbers whose sum is not positive is
    rejected: [process_gcode] shows an error dialog and returns with no file
    opened and the files as they were.  When both paths are given and the
    input exists, the dialog is the one reserved for this condition; for
    non-negative numbers it is shown in no other case.  (On non-negative
    numbers the float sum of line 274 is positive exactly when the exact sum
    is.) *)
Theorem zero_sum_rejected (tool_names tool_names_ui : list str) (fuel : nat) (w : World)
    (input_file output_file : string) (entries : list (option Q)) (pattern : list Q)
    (Hpattern : get_current_pattern entries = Some pattern)
    (Hnonneg : Forall (fun c => (0 <= c)%Q) pattern)
    (Hsum : (sum_pattern pattern <= 0)%Q) :
  (exists events,
      process_gcode tool_names tool_names_ui fuel w input_file output_file entries
      = Some (w, events)
      /\ Forall (fun e => is_file_io e = false) events
      /\ (exists title m, last events = Some (ShowError title m))
      /\ (input_file <> EmptyString -> output_file <> EmptyString ->
          is_Some (files w !! input_file) ->
          events = [PathExists input_file; pattern_rejected]))
  /\ (forall fuel' w' input_file' output_file' entries' w'' events',
        process_gcode tool_names tool_names_ui fuel' w' input_file' output_file' entries'
        = Some (w'', events') ->
        pattern_rejected ∈ events' ->
        exists pattern',
          get_current_pattern entries' = Some pattern'
          /\ (Forall (fun c => (0 <= c)%Q) pattern' -> (sum_pattern pattern' <= 0)%Q)).
Proof.
  split.
  - unfold process_gcode.
    destruct (bool_decide_reflect (input_file = EmptyString)) as [Hin | Hin]; simpl.
    { eexists. split; [reflexivity |]. split; [repeat constructor |].
      split; [eexists _, _; reflexivity | intros H; contradiction]. }
    destruct (bool_decide_reflect (output_file = EmptyString)) as [Hout | Hout]; simpl.
    { eexists. split; [reflexivity |]. split; [repeat constructor |].
      split; [eexists _, _; reflexivity | intros _ H; contradiction]. }
    destruct (bool_decide_reflect (is_Some (files w !! input_file))) as [Hex | Hex]; simpl.
    + rewrite Hpattern.
      apply Qle_bool_iff in Hsum. rewrite Hsum.
      eexists. split; [reflexivity |]. split; [repeat constructor |].
      split; [eexists _, _; reflexivity | intros _ _ _; reflexivity].
    + eexists. split; [reflexivity |]. split; [repeat constructor |].
      split; [eexists _, _; reflexivity | intros _ _ H; contradiction].
  - intros fuel' w' input_file' output_file' entries' w'' events'.
    unfold process_gcode, pattern_rejected.
    destruct (bool_decide (input_file' = EmptyString)
              || bool_decide (output_file' = EmptyString)).
    { intros [= <- <-] Hin. apply list_elem_of_singleton in Hin. discriminate. }
    destruct (negb (bool_decide (is_Some (files w' !! input_file')))).
    { intros [= <- <-] Hin. apply elem_of_cons in Hin as [Hin | Hin]; [discriminate |].
      apply list_elem_of_singleton in Hin. discriminate. }
    destruct (get_current_pattern entries') as [pattern' |].
    + destruct (Qle_bool (sum_pattern pattern') 0) eqn:Hle.
      * intros _ _. exists pattern'. split; [reflexivity |].
        intros _. apply Qle_bool_iff. exact Hle.
      * destruct (process_file tool_names fuel' w' input_file' output_file' pattern')
          as [[[w2 io] r] |] eqn:Hfile; [| discriminate].
        apply process_file_io in Hfile.
        assert (Hio : ShowError "Error"
                        (Text "At least one tool must have a value greater than zero") ∉ io).
        { intros Hin. rewrite Forall_forall in Hfile. specialize (Hfile _ Hin). discriminate. }
        destruct (r ≫= _); intros [= <- <-] Hin;
          apply elem_of_cons in Hin as [Hin | Hin]; try discriminate;
          apply elem_of_app in Hin as [Hin | Hin]; try contradiction;
          apply list_elem_of_singleton in Hin; discriminate.
    + intros [= <- <-] Hin. apply elem_of_cons in Hin as [Hin | Hin]; [discriminate |].
      apply list_elem_of_singleton in Hin. discriminate.
Qed.

Lemma zero_sum_rejected_witness :
  exists events,
    process_gcode five_tools five_tools 10
      (MkWorld {[ "in.gcode"%string := lit ";LAYER_CHANGE" ]} ∅)
      "in.gcode" "out.gcode" [Some 0%Q; Some 0%Q] = Some
        (MkWorld {[ "in.gcode"%string := lit ";LAYER_CHANGE" ]} ∅, events)
    /\ Forall (fun e => is_file_io e = false) events
    /\ (exists title m, last events = Some (ShowError title m))
    /\ ("in.gcode"%string <> EmptyString -> "out.gcode"%string <> EmptyString ->
        is_Some (files (MkWorld {[ "in.gcode"%string := lit ";LAYER_CHANGE" ]} ∅)
                   !! "in.gcode"%string) ->
        events = [PathExists "in.gcode"; pattern_rejected]).
Proof.
  refine (proj1 (zero_sum_rejected five_tools five_tools 10
                   (MkWorld {[ "in.gcode"%string := lit ";LAYER_CHANGE" ]} ∅)
                   "in.gcode" "out.gcode" [Some 0%Q; Some 0%Q] [0%Q; 0%Q] _ _ _)).
  - reflexivity.
  - repeat constructor; unfold Qle; simpl; lia.
  - vm_compute. discriminate.
Defined.

(** ** Further properties of the code *)

Import MoreNotions.

(** *** The planner *)

Module PlannerMore.
Import GCodeToolSwitcher Notions PlannerFacts.

Lemma lookup_sweeps {A} (k i : nat) (l : list A) :
  i < k * length l -> concat (replicate k l) !! i = l !! (i mod length l).
Proof.
  revert i. induction k as [| k IH]; intros i Hi; [lia |].
  simpl. destruct (decide (i < length l)) as [Hlt | Hge].
  - rewrite lookup_app_l by lia. rewrite Nat.mod_small by lia. reflexivity.
  - rewrite lookup_app_r by lia. rewrite IH by lia.
    f_equal.
    replace i with ((i - length l) + 1 * length l) at 2 by lia.
    rewrite Nat.Div0.mod_add. reflexivity.
Qed.

(** Whatever the fuel, a returned sequence is the first [N] entries of
    repeated sweeps. *)
Lemma while_sweeps_some (total_layers : nat) (ratio_pattern : list Q) :
  forall fuel tool_sequence result,
  length tool_sequence <= total_layers ->
  while_sweeps fuel total_layers ratio_pattern tool_sequence = Some result ->
  length result = total_layers
  /\ exists k, result = take total_layers
                          (tool_sequence ++ concat (replicate k (blocks 0 ratio_pattern))).
Proof.
  induction fuel as [| fuel IH]; intros tool_sequence result Hlen Hrun; simpl in Hrun.
  - destruct (Nat.ltb_spec (length tool_sequence) total_layers); [discriminate |].
    injection Hrun as <-. split; [lia |]. exists 0. simpl.
    rewrite app_nil_r, take_ge by lia. reflexivity.
  - destruct (Nat.ltb_spec (length tool_sequence) total_layers).
    + rewrite sweep_take in Hrun by assumption.
      apply IH in Hrun as [Hres [k ->]]; [| rewrite length_take; lia].
      split; [exact Hres |]. exists (S k). simpl.
      rewrite take_take_app, <- app_assoc. reflexivity.
    + injection Hrun as <-. split; [lia |]. exists 0. simpl.
      rewrite app_nil_r, take_ge by lia. reflexivity.
Qed.

Lemma plan_lookup (ratio_pattern : list Q) (total_layers i : nat) :
  1 <= length (blocks 0 ratio_pattern) ->
  i < total_layers ->
  take total_layers (concat (replicate total_layers (blocks 0 ratio_pattern))) !! i
  = blocks 0 ratio_pattern !! (i mod length (blocks 0 ratio_pattern)).
Proof.
  intros Hpos Hi. rewrite lookup_take_lt by lia.
  apply lookup_sweeps. nia.
Qed.

Lemma sweep_length_blocks (ratio_pattern : list Q) :
  length (blocks 0 ratio_pattern) = sweep_length ratio_pattern.
Proof. apply length_blocks. Qed.

End PlannerMore.

Import GCodeToolSwitcher Notions PlannerFacts PlannerMore.

(** X1. The plan cycles: with a positive sum, layer i + K gets the tool of
    layer i, K being the number of layers one full sweep appends. *)
Theorem plan_is_periodic (ratio_pattern : list Q) (total_layers fuel i : nat)
    (Hsum : (0 < sum_pattern ratio_pattern)%Q)
    (Hfuel : total_layers <= fuel)
    (Hi : i + sweep_length ratio_pattern < total_layers) :
  exists tool_sequence,
    calculate_tool_distribution fuel total_layers ratio_pattern = Some tool_sequence
    /\ tool_sequence !! (i + sweep_length ratio_pattern) = tool_sequence !! i.
Proof.
  pose proof (sweep_not_empty _ Hsum) as Hpos.
  eexists. split; [apply calculate_take; assumption |].
  rewrite !plan_lookup by (try assumption; lia).
  rewrite sweep_length_blocks.
  replace (i + sweep_length ratio_pattern) with (i + 1 * sweep_length ratio_pattern) by lia.
  rewrite Nat.Div0.mod_add. reflexivity.
Qed.

Lemma plan_is_periodic_witness :
  exists tool_sequence,
    calculate_tool_distribution 9 9 [2#1; 0#1; 1#2]%Q = Some tool_sequence
    /\ tool_sequence !! (4 + sweep_length [2#1; 0#1; 1#2]%Q) = tool_sequence !! 4.
Proof.
  apply (plan_is_periodic [2#1; 0#1; 1#2]%Q 9 9 4).
  - unfold Qlt; simpl; lia.
  - lia.
  - vm_compute. lia.
Defined.

(** X2. Planning more layers never changes the layers already planned: with a
    positive sum, the plan for N layers is the first N entries of the plan
    for any M >= N layers. *)
Theorem plan_is_prefix (ratio_pattern : list Q) (fewer more fuel : nat)
    (Hsum : (0 < sum_pattern ratio_pattern)%Q)
    (Hle : fewer <= more)
    (Hfuel : more <= fuel) :
  exists short long,
    calculate_tool_distribution fuel fewer ratio_pattern = Some short
    /\ calculate_tool_distribution fuel more ratio_pattern = Some long
    /\ short = take fewer long.
Proof.
  pose proof (sweep_not_empty _ Hsum) as Hpos.
  eexists _, _. split; [apply calculate_take; [assumption | lia] |].
  split; [apply calculate_take; assumption |].
  rewrite take_take, Nat.min_l by lia.
  symmetry. apply take_sweeps_enough; [nia | exact Hle].
Qed.

Lemma plan_is_prefix_witness :
  exists short long,
    calculate_tool_distribution 7 3 [2#1; 1#1]%Q = Some short
    /\ calculate_tool_distribution 7 7 [2#1; 1#1]%Q = Some long
    /\ short = take 3 long.
Proof.
  apply (plan_is_prefix [2#1; 1#1]%Q 3 7 7).
  - unfold Qlt; simpl; lia.
  - lia.
  - lia.
Defined.

(** X3. With a positive sum, a tool whose count is zero is never planned,
    and a tool whose count is positive is planned as soon as there are at
    least as many layers as one full sweep appends. *)
Theorem plan_uses_positive_counts (ratio_pattern : list Q) (total_layers fuel t : nat)
    (count : Q)
    (Hsum : (0 < sum_pattern ratio_pattern)%Q)
    (Hfuel : total_layers <= fuel)
    (Hcount : ratio_pattern !! t = Some count) :
  exists tool_sequence,
    calculate_tool_distribution fuel total_layers ratio_pattern = Some tool_sequence
    /\ ((count == 0)%Q -> t ∉ tool_sequence)
    /\ ((0 < count)%Q -> sweep_length ratio_pattern <= total_layers -> t ∈ tool_sequence).
Proof.
  pose proof (sweep_not_empty _ Hsum) as Hpos.
  eexists. split; [apply calculate_take; assumption |].
  destruct (count_tool_plan total_layers t (blocks 0 ratio_pattern) Hpos)
    as (extra & Hextra & Hplan).
  rewrite count_tool_sweep in *. unfold per_sweep in *. rewrite Hcount in *.
  split.
  - intros Hzero Hin.
    assert (Hk : layers_per_sweep count = 0).
    { destruct count as [n d]. unfold Qeq in Hzero. simpl in Hzero.
      assert (n = 0%Z) as -> by lia. reflexivity. }
    rewrite Hk in *.
    apply list_elem_of_In, (count_occ_In Nat.eq_dec) in Hin.
    unfold count_tool in Hplan. lia.
  - intros Hpositive Hlong.
    pose proof (layers_per_sweep_positive count Hpositive) as Hk.
    apply list_elem_of_In, (count_occ_In Nat.eq_dec).
    unfold count_tool in Hplan. rewrite Hplan.
    rewrite sweep_length_blocks in *.
    assert (1 <= total_layers / sweep_length ratio_pattern).
    { apply Nat.div_le_lower_bound; lia. }
    nia.
Qed.

Lemma plan_uses_positive_counts_witness :
  exists tool_sequence,
    calculate_tool_distribution 4 4 [2#1; 0#1; 1#1; 0#1; 0#1]%Q = Some tool_sequence
    /\ ((0#1 == 0)%Q -> 1 ∉ tool_sequence)
    /\ ((0 < 0#1)%Q -> sweep_length [2#1; 0#1; 1#1; 0#1; 0#1]%Q <= 4 -> 1 ∈ tool_sequence).
Proof.
  apply (plan_uses_positive_counts [2#1; 0#1; 1#1; 0#1; 0#1]%Q 4 4 1 (0#1)).
  - unfold Qlt; simpl; lia.
  - lia.
  - reflexivity.
Defined.

(** X4. With every count zero, or no count at all, and at least one layer to
    plan, the loop never exits: no amount of fuel yields a sequence. *)
Theorem zero_pattern_never_returns (ratio_pattern : list Q) (total_layers fuel : nat)
    (Hzero : Forall (fun c => (c == 0)%Q) ratio_pattern)
    (Hlayers : 0 < total_layers) :
  calculate_tool_distribution fuel total_layers ratio_pattern = None.
Proof. apply zero_pattern_diverges; assumption. Qed.

Lemma zero_pattern_never_returns_witness :
  calculate_tool_distribution 1000 1 [0#1; 0#3]%Q = None.
Proof.
  apply (zero_pattern_never_returns [0#1; 0#3]%Q 1 1000).
  - repeat constructor.
  - lia.
Defined.

(** X5. After whole sweeps the shares are exact: with a positive sum and
    N = m * K layers, K being what one full sweep appends, every tool has
    exactly m times its layers per sweep. *)
Theorem whole_sweeps_exact (ratio_pattern : list Q) (sweeps fuel t : nat)
    (Hsum : (0 < sum_pattern ratio_pattern)%Q)
    (Hfuel : sweeps * sweep_length ratio_pattern <= fuel) :
  exists tool_sequence,
    calculate_tool_distribution fuel (sweeps * sweep_length ratio_pattern) ratio_pattern
      = Some tool_sequence
    /\ count_tool t tool_sequence = sweeps * per_sweep ratio_pattern t.
Proof.
  pose proof (sweep_not_empty _ Hsum) as Hpos.
  eexists. split; [apply calculate_take; assumption |].
  rewrite <- sweep_length_blocks in *.
  set (S := blocks 0 ratio_pattern) in *.
  rewrite (take_sweeps_enough _ sweeps) by nia.
  rewrite take_ge by (rewrite length_concat_replicate; lia).
  rewrite count_tool_sweeps. unfold S. rewrite count_tool_sweep. reflexivity.
Qed.

Lemma whole_sweeps_exact_witness :
  exists tool_sequence,
    calculate_tool_distribution 6 (2 * sweep_length [2#1; 1#2]%Q) [2#1; 1#2]%Q
      = Some tool_sequence
    /\ count_tool 0 tool_sequence = 2 * per_sweep [2#1; 1#2]%Q 0.
Proof.
  apply (whole_sweeps_exact [2#1; 1#2]%Q 2 6 0).
  - unfold Qlt; simpl; lia.
  - vm_compute. lia.
Defined.

(** *** Text *)

Module TextFacts.
Import GCodeToolSwitcher Notions.

Lemma is_newline_eq (c : ascii) : is_newline c = true -> c = ascii_of_nat 10.
Proof.
  unfold is_newline. intros H. apply Nat.eqb_eq in H.
  rewrite <- (ascii_nat_embedding c), H. reflexivity.
Qed.

Lemma newline_lit : lit (String "010" EmptyString) = [ascii_of_nat 10].
Proof. reflexivity. Qed.

Lemma split_lines_cons (s : str) : exists first rest, split_lines s = first :: rest.
Proof.
  induction s as [| c s (first & rest & IH)]; simpl; [eexists _, _; reflexivity |].
  destruct (is_newline c); [eexists _, _; reflexivity |].
  rewrite IH. eexists _, _. reflexivity.
Qed.

Lemma join_lines_cons (l l2 : str) (ls : list str) :
  join_lines (l :: l2 :: ls) = l ++ ascii_of_nat 10 :: join_lines (l2 :: ls).
Proof. reflexivity. Qed.

(** ['\n'.join(s.split('\n')) == s] *)
Lemma join_split (s : str) : join_lines (split_lines s) = s.
Proof.
  induction s as [| c s IH]; [reflexivity |].
  cbn [split_lines].
  destruct (split_lines_cons s) as (first & rest & Hs). rewrite Hs in *.
  destruct (is_newline c) eqn:Hc.
  - apply is_newline_eq in Hc as ->. rewrite join_lines_cons, IH. reflexivity.
  - rewrite <- IH. destruct rest; reflexivity.
Qed.

Lemma split_lines_no_newline (s : str) :
  Forall (Forall (fun c => is_newline c = false)) (split_lines s).
Proof.
  induction s as [| c s IH]; simpl; [repeat constructor |].
  destruct (is_newline c) eqn:Hc; [constructor; [constructor | exact IH] |].
  destruct (split_lines s) as [| first rest]; [repeat constructor; exact Hc |].
  apply Forall_cons in IH as [Hfirst Hrest].
  constructor; [constructor; assumption | exact Hrest].
Qed.

Lemma split_single (l : str) :
  Forall (fun c => is_newline c = false) l -> split_lines l = [l].
Proof.
  induction 1 as [| c l Hc Hl IH]; simpl; [reflexivity |].
  rewrite Hc, IH. reflexivity.
Qed.

Lemma split_app_newline (l rest : str) :
  Forall (fun c => is_newline c = false) l ->
  split_lines (l ++ ascii_of_nat 10 :: rest) = l :: split_lines rest.
Proof.
  induction 1 as [| c l Hc Hl IH]; simpl; [reflexivity |].
  rewrite Hc, IH. reflexivity.
Qed.

(** [s.split('\n')] undoes ['\n'.join(lines)] when no line holds a line
    feed and there is at least one line. *)
Lemma split_join (lines : list str) :
  lines <> [] ->
  Forall (Forall (fun c => is_newline c = false)) lines ->
  split_lines (join_lines lines) = lines.
Proof.
  intros Hne Hall. induction Hall as [| l rest Hl Hrest IH]; [contradiction |].
  destruct rest as [| l2 rest].
  - simpl. apply split_single. exact Hl.
  - rewrite join_lines_cons.
    rewrite split_app_newline by exact Hl. f_equal. apply IH. discriminate.
Qed.

Lemma strip_prefix_spec (l s r : str) : strip_prefix l s = Some r <-> s = l ++ r.
Proof.
  revert s. induction l as [| a l IH]; intros s; simpl.
  - split; [intros [= ->]; reflexivity | intros ->; reflexivity].
  - destruct s as [| b s]; [split; discriminate |].
    destruct (Ascii.eqb_spec a b) as [-> | Hne].
    + rewrite IH. split; [intros ->; reflexivity | intros [= ->]; reflexivity].
    + split; [discriminate | intros [= Hab _]; congruence].
Qed.

Lemma match_here_lit (prev : option ascii) (l : string) (s : str) :
  is_Some (match_here prev [Lit l] s) <-> exists r, s = lit l ++ r.
Proof.
  simpl. destruct (strip_prefix (lit l) s) as [r |] eqn:Hr.
  - apply strip_prefix_spec in Hr. split; [intros _; exists r; exact Hr |].
    intros _. eexists. reflexivity.
  - split; [intros [m Hm]; discriminate |].
    intros [r Hs]. apply strip_prefix_spec in Hs. congruence.
Qed.

Lemma search_lit (l : string) (s : str) :
  forall prev,
  is_Some (search_from prev [Lit l] s) <-> exists before after, s = before ++ lit l ++ after.
Proof.
  induction s as [| c s IH]; intros prev.
  - cbn [search_from]. destruct (match_here prev [Lit l] []) as [m |] eqn:Hm.
    + assert (Hsome : is_Some (match_here prev [Lit l] [])) by (rewrite Hm; eexists; reflexivity).
      apply match_here_lit in Hsome as [r Hr].
      split; [intros _; exists [], r; exact Hr | intros _; eexists; reflexivity].
    + split; [intros [m' Hm']; discriminate |].
      intros (before & after & Hs).
      destruct before; [| discriminate].
      assert (Hsome : is_Some (match_here prev [Lit l] [])).
      { apply match_here_lit. exists after. exact Hs. }
      rewrite Hm in Hsome. destruct Hsome; discriminate.
  - cbn [search_from]. destruct (match_here prev [Lit l] (c :: s)) as [m |] eqn:Hm.
    + assert (Hsome : is_Some (match_here prev [Lit l] (c :: s)))
        by (rewrite Hm; eexists; reflexivity).
      apply match_here_lit in Hsome as [r Hr].
      split; [intros _; exists [], r; exact Hr | intros _; eexists; reflexivity].
    + rewrite IH. split.
      * intros (before & after & ->). exists (c :: before), after. reflexivity.
      * intros (before & after & Hs). destruct before as [| b before].
        -- assert (Hsome : is_Some (match_here prev [Lit l] (c :: s))).
           { apply match_here_lit. exists after. exact Hs. }
           rewrite Hm in Hsome. destruct Hsome; discriminate.
        -- injection Hs as -> ->. exists before, after. reflexivity.
Qed.

Lemma contains_spec (needle : string) (s : str) :
  contains needle s = true <-> is_substring (lit needle) s.
Proof.
  unfold contains, is_substring, search. rewrite bool_decide_eq_true. apply search_lit.
Qed.

Lemma layers_from_spec (lines : list str) :
  forall i k,
  k ∈ layers_from i lines
  <-> i <= k /\ exists line, lines !! (k - i) = Some line
                              /\ contains layer_markers line = true.
Proof.
  induction lines as [| line rest IH]; intros i k; simpl.
  - split; [intros H; apply elem_of_nil in H; contradiction |].
    intros [_ (l & Hl & _)]. discriminate.
  - assert (Hrest : k ∈ layers_from (S i) rest
                    <-> i < k /\ exists l, (line :: rest) !! (k - i) = Some l
                                            /\ contains layer_markers l = true).
    { rewrite IH. split.
      - intros [Hk (l & Hl & Hc)]. split; [lia |]. exists l.
        replace (k - i) with (S (k - S i)) by lia. split; assumption.
      - intros [Hk (l & Hl & Hc)]. split; [lia |]. exists l.
        replace (k - i) with (S (k - S i)) in Hl by lia. split; assumption. }
    destruct (contains layer_markers line) eqn:Hline.
    + rewrite elem_of_cons, Hrest. split.
      * intros [-> | [Hk Hex]]; [| split; [lia | exact Hex]].
        split; [lia |]. exists line. rewrite Nat.sub_diag. split; [reflexivity | exact Hline].
      * intros [Hk (l & Hl & Hc)].
        destruct (decide (k = i)) as [-> | Hne]; [left; reflexivity |].
        right. split; [lia |]. exists l. split; assumption.
    + rewrite Hrest. split.
      * intros [Hk Hex]. split; [lia | exact Hex].
      * intros [Hk (l & Hl & Hc)].
        destruct (decide (k = i)) as [-> | Hne].
        -- rewrite Nat.sub_diag in Hl. injection Hl as ->. congruence.
        -- split; [lia |]. exists l. split; assumption.
Qed.

Lemma layers_from_sorted (lines : list str) :
  forall i, StronglySorted lt (layers_from i lines).
Proof.
  induction lines as [| line rest IH]; intros i; simpl; [constructor |].
  destruct (contains layer_markers line); [| apply IH].
  constructor; [apply IH |].
  apply List.Forall_forall. intros k Hk.
  apply list_elem_of_In, layers_from_spec in Hk as [Hk _]. lia.
Qed.

(** Every line of a text is a piece of it. *)
Lemma first_line_prefix (s first : str) (rest : list str) :
  split_lines s = first :: rest -> exists after, s = first ++ after.
Proof.
  revert first rest. induction s as [| c s IH]; intros first rest; simpl.
  - intros [= <- <-]. exists []. reflexivity.
  - destruct (is_newline c).
    + intros [= <- <-]. eexists. reflexivity.
    + destruct (split_lines s) as [| l ls] eqn:Hs.
      * intros [= <- <-]. destruct (split_lines_cons s) as (? & ? & ?); congruence.
      * intros [= <- <-]. destruct (IH l ls eq_refl) as [after ->].
        exists after. reflexivity.
Qed.

Lemma line_is_substring (s line : str) :
  line ∈ split_lines s -> is_substring line s.
Proof.
  revert line. induction s as [| c s IH]; intros line; simpl.
  - intros Hin. apply list_elem_of_singleton in Hin as ->. exists [], []. reflexivity.
  - destruct (is_newline c).
    + intros Hin. apply elem_of_cons in Hin as [-> | Hin].
      * exists [], (c :: s). reflexivity.
      * destruct (IH line Hin) as (before & after & ->).
        exists (c :: before), after. reflexivity.
    + destruct (split_lines s) as [| l ls] eqn:Hs.
      * intros Hin. apply list_elem_of_singleton in Hin as ->.
        destruct (split_lines_cons s) as (? & ? & ?); congruence.
      * intros Hin. apply elem_of_cons in Hin as [-> | Hin].
        -- destruct (first_line_prefix s l ls Hs) as [after ->].
           exists [], after. reflexivity.
        -- destruct (IH line) as (before & after & ->);
             [apply elem_of_cons; right; exact Hin |].
           exists (c :: before), after. reflexivity.
Qed.

Lemma substring_trans (a b c : str) :
  is_substring a b -> is_substring b c -> is_substring a c.
Proof.
  intros (p1 & q1 & ->) (p2 & q2 & ->).
  exists (p2 ++ p1), (q1 ++ q2). rewrite <- !app_assoc. reflexivity.
Qed.

End TextFacts.

Import TextFacts.

(** *** parse_layers *)

(** X6. [parse_layers] lists exactly the indices of the lines in which
    ";LAYER_CHANGE" occurs somewhere, in strictly ascending order, and the
    lines it returns join back, with line feeds, to the text it was given. *)
Theorem parse_layers_exact (gcode_content : str) :
  (forall k,
     k ∈ fst (parse_layers gcode_content)
     <-> exists line, snd (parse_layers gcode_content) !! k = Some line
                      /\ is_substring (lit ";LAYER_CHANGE") line)
  /\ StronglySorted lt (fst (parse_layers gcode_content))
  /\ join_lines (snd (parse_layers gcode_content)) = gcode_content.
Proof.
  unfold parse_layers. cbn [fst snd]. split; [| split].
  - intros k. rewrite layers_from_spec, Nat.sub_0_r. split.
    + intros [_ (line & Hline & Hc)]. exists line. split; [exact Hline |].
      apply contains_spec. exact Hc.
    + intros (line & Hline & Hc). split; [lia |]. exists line. split; [exact Hline |].
      apply contains_spec. exact Hc.
  - apply layers_from_sorted.
  - apply join_split.
Qed.

(** *** What a match is made of *)

Module RegexFacts.
Import GCodeToolSwitcher Notions MoreNotions.

Lemma span_app (p : ascii -> bool) (s a b : str) : span p s = (a, b) -> s = a ++ b.
Proof.
  revert a b. induction s as [| c s IH]; intros a b; simpl.
  - intros [= <- <-]. reflexivity.
  - destruct (p c); [| intros [= <- <-]; reflexivity].
    destruct (span p s) as [a' b']. intros [= <- <-].
    rewrite (IH a' b' eq_refl). reflexivity.
Qed.

Lemma extend_cut (piece s' : str) (g : option str) (m : re_match) :
  well_cut s' m ->
  g = None \/ g = Some piece ->
  well_cut (piece ++ s') (extend piece g m).
Proof.
  intros [Hs (a & b & Hg)] Hgroup. unfold well_cut, extend. simpl. split.
  - rewrite Hs at 1. rewrite app_assoc. reflexivity.
  - destruct Hgroup as [-> | ->].
    + exists (piece ++ a), b. rewrite Hg at 1. rewrite <- app_assoc. reflexivity.
    + exists [], (group0 m). reflexivity.
Qed.

Lemma fmap_extend_cut (piece s' : str) (g : option str) (o : option re_match)
    (m : re_match) :
  (forall m', o = Some m' -> well_cut s' m') ->
  g = None \/ g = Some piece ->
  extend piece g <$> o = Some m ->
  well_cut (piece ++ s') m.
Proof.
  intros Ho Hg. destruct o as [m' |]; [| discriminate].
  intros [= <-]. apply extend_cut; [apply Ho; reflexivity | exact Hg].
Qed.

Lemma match_here_cut (r : regex) :
  forall prev s m, match_here prev r s = Some m -> well_cut s m.
Proof.
  induction r as [| a r IH]; intros prev s m; cbn [match_here].
  - intros [= <-]. split; [reflexivity | exists [], []; reflexivity].
  - destruct a.
    + destruct (strip_prefix (lit l) s) as [s' |] eqn:Hs; [| discriminate].
      apply TextFacts.strip_prefix_spec in Hs as ->.
      apply fmap_extend_cut; [intros m'; apply IH | left; reflexivity].
    + destruct (span is_space s) as [sp s'] eqn:Hs. apply span_app in Hs as ->.
      destruct sp; [discriminate |].
      apply fmap_extend_cut; [intros m'; apply IH | left; reflexivity].
    + destruct (span is_space s) as [sp s'] eqn:Hs. apply span_app in Hs as ->.
      apply fmap_extend_cut; [intros m'; apply IH | left; reflexivity].
    + destruct (span is_digit s) as [ds s'] eqn:Hs. apply span_app in Hs as ->.
      destruct ds; [discriminate |].
      apply fmap_extend_cut; [intros m'; apply IH | left; reflexivity].
    + destruct (span is_digit s) as [ds s'] eqn:Hs. apply span_app in Hs as ->.
      destruct ds; [discriminate |].
      apply fmap_extend_cut; [intros m'; apply IH | right; reflexivity].
    + destruct (xorb _ _); [apply IH | discriminate].
    + destruct prev; [discriminate | apply IH].
    + destruct (span (fun c => negb (is_newline c)) s) as [run s'] eqn:Hs.
      apply span_app in Hs as ->.
      apply fmap_extend_cut; [intros m'; apply IH | left; reflexivity].
    + destruct s as [| c [| c2 s]]; [apply IH | | discriminate].
      destruct (is_newline c); [apply IH | discriminate].
Qed.

Lemma search_from_cut (r : regex) (s : str) :
  forall prev m, search_from prev r s = Some m ->
  exists before, well_cut (drop (length before) s) m /\ s = before ++ drop (length before) s.
Proof.
  induction s as [| c s IH]; intros prev m; cbn [search_from].
  - destruct (match_here prev r []) as [m' |] eqn:Hm; [| discriminate].
    intros [= <-]. exists []. split; [eapply match_here_cut; exact Hm | reflexivity].
  - destruct (match_here prev r (c :: s)) as [m' |] eqn:Hm.
    + intros [= <-]. exists []. split; [eapply match_here_cut; exact Hm | reflexivity].
    + intros Hs. apply IH in Hs as (before & Hcut & Heq).
      exists (c :: before). simpl. split; [exact Hcut | f_equal; exact Heq].
Qed.

(** The groups of a match hold characters of the text only. *)
Lemma search_chars (P : ascii -> Prop) (r : regex) (s : str) (m : re_match) :
  search r s = Some m -> Forall P s -> Forall P (group0 m) /\ Forall P (group1 m).
Proof.
  intros Hm Hs. apply search_from_cut in Hm as (before & [Hcut (a & b & Hg)] & Heq).
  rewrite Heq, Hcut in Hs.
  apply Forall_app in Hs as [_ Hs]. apply Forall_app in Hs as [H0 _].
  split; [exact H0 |].
  rewrite Hg in H0. apply Forall_app in H0 as [_ H0]. apply Forall_app in H0 as [H1 _].
  exact H1.
Qed.

(** [re.sub] puts together characters of the text and of the replacement. *)
Lemma sub_chars (P : ascii -> Prop) (r : regex) (repl s : str) :
  Forall P repl -> Forall P s -> Forall P (sub r repl s).
Proof.
  intros Hrepl. unfold sub. generalize 0 at 1. generalize (@None ascii).
  induction s as [| c s IH]; intros prev skip Hs; cbn [sub_from].
  - destruct skip; [| constructor]. destruct (match_here prev r []); [exact Hrepl | constructor].
  - apply Forall_cons in Hs as [Hc Hs].
    destruct skip; [| apply IH; exact Hs].
    destruct (match_here prev r (c :: s)) as [m |].
    + destruct (group0 m).
      * apply Forall_app. split; [exact Hrepl |]. constructor; [exact Hc | apply IH; exact Hs].
      * apply Forall_app. split; [exact Hrepl | apply IH; exact Hs].
    + constructor; [exact Hc | apply IH; exact Hs].
Qed.

Lemma digit_not_newline (c : ascii) : is_digit c = true -> is_newline c = false.
Proof.
  unfold is_digit, is_newline. intros H.
  apply andb_true_iff in H as [H1 _]. apply Nat.leb_le in H1.
  apply Nat.eqb_neq. lia.
Qed.

Lemma uint_chars (d : Decimal.uint) :
  Forall (fun c => is_digit c = true) (lit (DecimalString.NilEmpty.string_of_uint d)).
Proof. induction d; simpl; constructor; try reflexivity; assumption. Qed.

(** [str(n)] is made of decimal digits. *)
Lemma str_of_nat_digits (n : nat) : Forall (fun c => is_digit c = true) (str_of_nat n).
Proof.
  unfold str_of_nat, DecimalString.NilZero.string_of_uint.
  destruct (Nat.to_uint n) eqn:Hd; try (rewrite <- Hd; apply uint_chars).
  repeat constructor.
Qed.

Lemma str_of_nat_no_newline (n : nat) : no_newline (str_of_nat n).
Proof.
  eapply Forall_impl; [apply str_of_nat_digits |]. apply digit_not_newline.
Qed.

End RegexFacts.

(** *** The rewriter *)

Module RewriterMore.
Import GCodeToolSwitcher Notions RewriterFacts RegexFacts.

Section More.

Variable tool_names : list str.
Variable layer_positions : list nat.
Variable tool_sequence : list nat.

Local Abbreviation process_line := (process_line tool_names layer_positions tool_sequence).
Local Abbreviation pass := (pass tool_names layer_positions tool_sequence).
Local Abbreviation enter_layer := (enter_layer layer_positions tool_sequence).

Lemma enter_layer_idle (i : nat) (st : RewriteState) :
  current_tool st = None ->
  i ∉ layer_positions \/ tool_sequence = [] ->
  current_tool (enter_layer i st) = None.
Proof.
  intros Hst Hidle. unfold GCodeToolSwitcher.enter_layer.
  destruct (bool_decide_reflect (i ∈ layer_positions)) as [Hin | Hout]; [| exact Hst].
  destruct Hidle as [Hidle | ->]; [contradiction |].
  destruct (Z.ltb_spec (current_layer st + 1) (Z.of_nat (length (@nil nat)))); simpl;
    [reflexivity | exact Hst].
Qed.

Lemma enter_layer_absent (i : nat) (st : RewriteState) :
  i ∉ layer_positions -> enter_layer i st = st.
Proof.
  intros Hout. unfold GCodeToolSwitcher.enter_layer.
  rewrite bool_decide_eq_false_2 by exact Hout. reflexivity.
Qed.

(** While no tool is planned yet the pass copies the lines. *)
Lemma pass_idle (lines : list str) :
  forall i st,
  current_tool st = None ->
  (forall j, i <= j < i + length lines -> j ∉ layer_positions \/ tool_sequence = []) ->
  exists st', pass i st lines = Ok (lines, st') /\ current_tool st' = None
              /\ active_tool st' = active_tool st.
Proof.
  induction lines as [| line rest IH]; intros i st Hst Hidle.
  - exists st. repeat split; assumption.
  - rewrite pass_cons. unfold GCodeToolSwitcher.process_line.
    pose proof (enter_layer_idle i st Hst (Hidle i ltac:(simpl; lia))) as Hnone.
    rewrite Hnone. unfold mbind, result_bind, rbind. cbn [fst snd].
    destruct (IH (S i) (enter_layer i st) Hnone) as (st' & -> & Hst' & Hact).
    { intros j Hj. apply Hidle. simpl. lia. }
    exists st'. split; [reflexivity |]. split; [exact Hst' |].
    rewrite Hact. apply enter_layer_active.
Qed.

Lemma rewrite_line_inert (current_tool : nat) (active_tool : option nat) (line : str) :
  inert line ->
  rewrite_line tool_names current_tool active_tool line = Ok (MkLine line active_tool).
Proof.
  intros (Hpark & Hpickup & Hm104 & Htool & Hsimple).
  unfold rewrite_line, run_steps.
  rewrite park_step_eq. unfold park_skips. rewrite Hpark.
  rewrite pickup_step_eq. cbn [active out].
  unfold pickup_skips, active_after_pickup, names_other. rewrite Hpickup.
  rewrite m104_step_eq. cbn [active out]. unfold names_other. rewrite Hm104.
  rewrite tool_step_eq. unfold names_other. rewrite Htool.
  rewrite simple_step_eq. unfold names_other. rewrite Hsimple. reflexivity.
Qed.

Lemma literal_no_newline (l : string) :
  forallb (fun c => negb (is_newline c)) (lit l) = true -> no_newline (lit l).
Proof.
  unfold no_newline. induction (lit l) as [| c s IH]; simpl; [constructor |].
  intros H. apply andb_true_iff in H as [Hc Hs].
  constructor; [apply negb_true_iff; exact Hc | apply IH; exact Hs].
Qed.

Lemma commented_no_newline (what : string) (current_tool : nat) (line text : str) :
  Forall no_newline tool_names ->
  no_newline line ->
  forallb (fun c => negb (is_newline c)) (lit what) = true ->
  commented tool_names what current_tool line text ->
  no_newline text.
Proof.
  intros Hnames Hline Hwhat (name & Hname & ->).
  assert (no_newline name).
  { rewrite Forall_forall in Hnames. apply Hnames.
    apply list_elem_of_lookup. exists current_tool. exact Hname. }
  unfold no_newline in *.
  repeat (apply Forall_app; split); try assumption;
    try (apply str_of_nat_no_newline);
    apply literal_no_newline; first [exact Hwhat | reflexivity].
Qed.

Lemma group1_or_no_newline (r : regex) (line default : str) :
  no_newline line -> no_newline default -> no_newline (group1_or r line default).
Proof.
  intros Hline Hdefault. unfold group1_or.
  destruct (search r line) as [m |] eqn:Hm; [| exact Hdefault].
  apply (search_chars _ _ _ _ Hm Hline).
Qed.

Lemma new_command_no_newline (current_tool old_tool : nat) (line text : str) :
  Forall no_newline tool_names ->
  no_newline line ->
  new_command tool_names current_tool old_tool line = Ok text ->
  no_newline text.
Proof.
  intros Hnames Hline. unfold new_command.
  set (p_value := group1_or [Lit "P"; Group1] line (lit "120")).
  set (q_value := group1_or [Lit "Q"; Group1] line _).
  set (s_value := group1_or [Lit "S"; Group1] line (lit "210")).
  assert (Hp : no_newline p_value).
  { apply group1_or_no_newline; [exact Hline | apply literal_no_newline; reflexivity]. }
  assert (Hq : no_newline q_value).
  { apply group1_or_no_newline; [exact Hline | apply str_of_nat_no_newline]. }
  assert (Hs : no_newline s_value).
  { apply group1_or_no_newline; [exact Hline | apply literal_no_newline; reflexivity]. }
  assert (Hcommand : no_newline (lit "M104.1 T" ++ str_of_nat current_tool ++ lit " P"
                                   ++ p_value ++ lit " Q" ++ q_value ++ lit " S" ++ s_value)).
  { unfold no_newline in *.
    repeat (apply Forall_app; split); try assumption;
      try (apply str_of_nat_no_newline); apply literal_no_newline; reflexivity. }
  destruct (search [Lit ";"; DotStar; EndAnchor] line) as [m |] eqn:Hm.
  - intros Heq.
    assert (Htext : text = (lit "M104.1 T" ++ str_of_nat current_tool ++ lit " P"
                              ++ p_value ++ lit " Q" ++ q_value ++ lit " S" ++ s_value)
                           ++ lit " " ++ group0 m) by (injection Heq as <-; reflexivity).
    rewrite Htext.
    apply Forall_app. split; [exact Hcommand |].
    apply Forall_app. split; [apply literal_no_newline; reflexivity |].
    apply (search_chars _ _ _ _ Hm Hline).
  - unfold subscript_at, mbind, result_bind, rbind.
    destruct (tool_names !! old_tool) as [old_name |] eqn:Hold; [| discriminate].
    destruct (tool_names !! current_tool) as [new_name |] eqn:Hnew; [| discriminate].
    intros Heq.
    assert (Htext : text = (lit "M104.1 T" ++ str_of_nat current_tool ++ lit " P"
                              ++ p_value ++ lit " Q" ++ q_value ++ lit " S" ++ s_value)
                           ++ lit " ; switched from T" ++ str_of_nat old_tool ++ lit " ("
                           ++ old_name ++ lit ") to T" ++ str_of_nat current_tool
                           ++ lit " (" ++ new_name ++ lit ")")
      by (injection Heq as <-; reflexivity).
    rewrite Htext.
    assert (no_newline old_name /\ no_newline new_name) as [Ho Hn].
    { rewrite Forall_forall in Hnames.
      split; apply Hnames, list_elem_of_lookup; eexists; eassumption. }
    apply Forall_app. split; [exact Hcommand |].
    unfold no_newline in *.
    repeat (apply Forall_app; split); try assumption;
      try (apply str_of_nat_no_newline); apply literal_no_newline; reflexivity.
Qed.

Lemma rewrite_line_no_newline (current_tool : nat) (active_tool : option nat) (line : str)
    (s : LineState) :
  Forall no_newline tool_names ->
  no_newline line ->
  rewrite_line tool_names current_tool active_tool line = Ok s ->
  no_newline (out s).
Proof.
  intros Hnames Hline Hs.
  assert (Hrepl : no_newline (lit "T" ++ str_of_nat current_tool)).
  { apply Forall_app. split; [apply literal_no_newline; reflexivity |].
    apply str_of_nat_no_newline. }
  apply rewrite_line_last_edit in Hs. unfold last_edit in Hs.
  destruct (park_skips current_tool active_tool line);
    [eapply commented_no_newline; [exact Hnames | exact Hline | | exact Hs]; reflexivity |].
  destruct (pickup_skips current_tool active_tool line);
    [eapply commented_no_newline; [exact Hnames | exact Hline | | exact Hs]; reflexivity |].
  destruct (heater_skips current_tool active_tool line);
    [eapply commented_no_newline; [exact Hnames | exact Hline | | exact Hs]; reflexivity |].
  destruct (names_other simple_tool_pattern current_tool line);
    [rewrite Hs; apply sub_chars; [exact Hrepl | exact Hline] |].
  destruct (names_other tool_pattern current_tool line);
    [rewrite Hs; apply sub_chars; [exact Hrepl | exact Hline] |].
  destruct (names_other m104_pattern current_tool line).
  { destruct Hs as (old_tool & _ & Hs).
    eapply new_command_no_newline; [exact Hnames | exact Hline | exact Hs]. }
  destruct (names_other pickup_pattern current_tool line);
    [rewrite Hs; apply sub_chars; [exact Hrepl | exact Hline] |].
  rewrite Hs. exact Hline.
Qed.

Lemma pass_no_newline (lines : list str) :
  forall i st texts st',
  Forall no_newline tool_names ->
  Forall no_newline lines ->
  pass i st lines = Ok (texts, st') ->
  Forall no_newline texts.
Proof.
  induction lines as [| line rest IH]; intros i st texts st' Hnames Hlines Hpass.
  - simpl in Hpass. injection Hpass as <- <-. constructor.
  - apply pass_ok_cons in Hpass as (text & st1 & texts' & Hline & Hrest & ->).
    apply Forall_cons in Hlines as [Hl Hlines].
    constructor; [| eapply IH; [exact Hnames | exact Hlines | exact Hrest]].
    apply process_line_ok in Hline as (_ & _ & Hline).
    destruct (current_tool st1).
    + destruct Hline as (s & Hs & -> & _).
      eapply rewrite_line_no_newline; [exact Hnames | exact Hl | exact Hs].
    + destruct Hline as [-> _]. exact Hl.
Qed.

Lemma modify_gcode_no_newline (gcode_lines modified_gcode : list str) :
  Forall no_newline tool_names ->
  Forall no_newline gcode_lines ->
  modify_gcode tool_names layer_positions tool_sequence gcode_lines = Ok modified_gcode ->
  Forall no_newline modified_gcode.
Proof.
  intros Hnames Hlines Hpass. unfold modify_gcode in Hpass.
  destruct (pass 0 initial_state gcode_lines) as [[texts st_end] | e] eqn:Hrun;
    [| discriminate].
  injection Hpass as <-.
  eapply pass_no_newline; [exact Hnames | exact Hlines | exact Hrun].
Qed.

Lemma modify_gcode_idle (gcode_lines : list str) :
  (forall j, j < length gcode_lines -> j ∉ layer_positions) \/ tool_sequence = [] ->
  modify_gcode tool_names layer_positions tool_sequence gcode_lines = Ok gcode_lines.
Proof.
  intros Hidle. unfold modify_gcode.
  destruct (pass_idle gcode_lines 0 initial_state eq_refl) as (st' & -> & _);
    [| reflexivity].
  intros j Hj. destruct Hidle as [Hidle | Hidle]; [left; apply Hidle; lia | right; exact Hidle].
Qed.

End More.
End RewriterMore.

Import RewriterFacts RegexFacts RewriterMore.

(** X7. The lines before the first layer boundary are never touched: in a
    pass that completes, the first k output lines are the first k input lines
    whenever no index below k is listed in LayerPositions. *)
Theorem preamble_untouched (tool_names : list str) (layer_positions tool_sequence : list nat)
    (gcode_lines modified_gcode : list str) (k : nat)
    (Hbefore : forall j, j < k -> j ∉ layer_positions)
    (Hpass : modify_gcode tool_names layer_positions tool_sequence gcode_lines
             = Ok modified_gcode) :
  take k modified_gcode = take k gcode_lines.
Proof.
  unfold modify_gcode in Hpass.
  rewrite <- (take_drop k gcode_lines) in Hpass at 1.
  rewrite pass_app in Hpass.
  destruct (pass_idle tool_names layer_positions tool_sequence (take k gcode_lines)
              0 initial_state eq_refl) as (st' & Hidle & _).
  { intros j Hj. left. apply Hbefore. rewrite length_take in Hj.
    destruct Hj as [_ Hj]. rewrite Nat.add_0_l in Hj.
    eapply Nat.lt_le_trans; [exact Hj | apply Nat.le_min_l]. }
  rewrite Hidle in Hpass. unfold mbind, result_bind, rbind in Hpass. cbn [fst snd] in Hpass.
  destruct (pass tool_names layer_positions tool_sequence _ st' (drop k gcode_lines))
    as [[texts st2] | e] eqn:Hrest; [| discriminate].
  injection Hpass as <-. cbn [fst].
  apply pass_length in Hrest.
  rewrite take_app, take_take, Nat.min_id, length_take.
  destruct (decide (k <= length gcode_lines)) as [Hk | Hk].
  - rewrite Nat.min_l, Nat.sub_diag, take_0, app_nil_r by lia. reflexivity.
  - rewrite length_drop in Hrest.
    destruct texts; [| simpl in Hrest; lia].
    rewrite take_nil, app_nil_r. reflexivity.
Qed.

Lemma preamble_untouched_witness :
  take 2 [lit "T0 S1 L0 D0"; lit "M104.1 T9 P1"; lit ";LAYER_CHANGE"; lit "T2 S1 L0 D0"]
  = take 2 [lit "T0 S1 L0 D0"; lit "M104.1 T9 P1"; lit ";LAYER_CHANGE"; lit "T0 S1 L0 D0"].
Proof.
  apply (preamble_untouched five_tools [2] [2]
           [lit "T0 S1 L0 D0"; lit "M104.1 T9 P1"; lit ";LAYER_CHANGE"; lit "T0 S1 L0 D0"]
           [lit "T0 S1 L0 D0"; lit "M104.1 T9 P1"; lit ";LAYER_CHANGE"; lit "T2 S1 L0 D0"] 2).
  - intros j Hj Hin. apply list_elem_of_singleton in Hin. lia.
  - vm_compute. reflexivity.
Defined.

(** X8. Without a layer boundary among the line indices, or with an empty
    ToolSequence, [modify_gcode] is the identity and raises nothing, whatever
    the lines and the tool names. *)
Theorem nothing_planned_nothing_changed (tool_names : list str)
    (layer_positions tool_sequence : list nat) (gcode_lines : list str)
    (Hidle : (forall j, j < length gcode_lines -> j ∉ layer_positions)
             \/ tool_sequence = []) :
  modify_gcode tool_names layer_positions tool_sequence gcode_lines = Ok gcode_lines.
Proof.
  apply modify_gcode_idle. exact Hidle.
Qed.

Lemma nothing_planned_nothing_changed_witness :
  modify_gcode two_tools [0] [] [lit ";LAYER_CHANGE"; lit "M104.1 T7"; lit "T3 S1 L0 D0"]
  = Ok [lit ";LAYER_CHANGE"; lit "M104.1 T7"; lit "T3 S1 L0 D0"].
Proof.
  apply (nothing_planned_nothing_changed two_tools [0] []
           [lit ";LAYER_CHANGE"; lit "M104.1 T7"; lit "T3 S1 L0 D0"]).
  right. reflexivity.
Defined.

(** X9. A line on which none of the five command forms (park, pickup,
    heater, generic and leading tool token) is found is copied as it is by
    every pass that completes. *)
Theorem inert_line_copied (tool_names : list str) (layer_positions tool_sequence : list nat)
    (gcode_lines modified_gcode : list str) (i : nat) (line : str)
    (Hpass : modify_gcode tool_names layer_positions tool_sequence gcode_lines
             = Ok modified_gcode)
    (Hline : gcode_lines !! i = Some line)
    (Hinert : inert line) :
  modified_gcode !! i = Some line.
Proof.
  unfold modify_gcode in Hpass.
  destruct (pass tool_names layer_positions tool_sequence 0 initial_state gcode_lines)
    as [[texts st_end] | e] eqn:Hrun; [| discriminate].
  injection Hpass as <-. cbn [fst].
  destruct (pass_iteration _ _ _ _ _ _ _ _ Hrun Hline)
    as (before & st & text & st' & _ & Hstep & ->).
  f_equal. unfold process_line in Hstep.
  destruct (current_tool (enter_layer layer_positions tool_sequence i st)) as [tool |].
  - rewrite (rewrite_line_inert tool_names tool _ line Hinert) in Hstep.
    injection Hstep as <- _. reflexivity.
  - injection Hstep as <- _. reflexivity.
Qed.

Lemma inert_line_copied_witness :
  [lit ";LAYER_CHANGE"; lit "G1 X10 Y10 E1.5 ; T perimeter"; lit "T2 S1 L0 D0"] !! 1
  = Some (lit "G1 X10 Y10 E1.5 ; T perimeter").
Proof.
  apply (inert_line_copied five_tools [0] [2]
           [lit ";LAYER_CHANGE"; lit "G1 X10 Y10 E1.5 ; T perimeter"; lit "T0 S1 L0 D0"]
           [lit ";LAYER_CHANGE"; lit "G1 X10 Y10 E1.5 ; T perimeter"; lit "T2 S1 L0 D0"] 1).
  - vm_compute. reflexivity.
  - reflexivity.
  - repeat split; vm_compute; reflexivity.
Defined.

(** X10. The rewriter never puts a line feed into a line: when no tool name
    and no input line holds one, no line of a completed pass does, so the
    lines stay lines when they are joined. *)
Theorem pass_keeps_lines_whole (tool_names : list str)
    (layer_positions tool_sequence : list nat) (gcode_lines modified_gcode : list str)
    (Hnames : Forall no_newline tool_names)
    (Hlines : Forall no_newline gcode_lines)
    (Hpass : modify_gcode tool_names layer_positions tool_sequence gcode_lines
             = Ok modified_gcode) :
  Forall no_newline modified_gcode.
Proof.
  apply (modify_gcode_no_newline tool_names layer_positions tool_sequence
           gcode_lines modified_gcode Hnames Hlines Hpass).
Qed.

Lemma pass_keeps_lines_whole_witness :
  Forall no_newline
    [lit ";LAYER_CHANGE";
     lit "M104.1 T2 P120 Q125 S215 ; switched from T0 (Cyan) to T2 (Yellow)";
     lit "T2 S1 L0 D0"].
Proof.
  apply (pass_keeps_lines_whole five_tools [0] [2]
           [lit ";LAYER_CHANGE"; lit "M104.1 T0 P120 Q125 S215"; lit "T0 S1 L0 D0"]).
  - repeat constructor.
  - repeat constructor.
  - vm_compute. reflexivity.
Defined.

(** *** The conversion *)

Module AppMore.
Import GCodeToolSwitcher Notions PlannerFacts PlannerMore RewriterFacts RewriterMore App AppFacts
  TextFacts.

Lemma read_file_ok (w : World) (path : string) (content : str) :
  read_file w path = Ok content <-> files w !! path = Some content /\ path ∉ denied w.
Proof.
  unfold read_file. destruct (bool_decide_reflect (path ∈ denied w)) as [Hd | Hd].
  - split; [discriminate | intros [_ H]; contradiction].
  - destruct (files w !! path) as [c |].
    + split; [intros [= ->]; split; [reflexivity | exact Hd] | intros [[= ->] _]; reflexivity].
    + split; [discriminate | intros [H _]; discriminate].
Qed.

Lemma write_file_ok (w w' : World) (path : string) (content : str) :
  write_file w path content = Ok w'
  <-> w' = MkWorld (<[path := content]> (files w)) (denied w) /\ path ∉ denied w.
Proof.
  unfold write_file. destruct (bool_decide_reflect (path ∈ denied w)) as [Hd | Hd].
  - split; [discriminate | intros [_ H]; contradiction].
  - split; [intros [= <-]; split; [reflexivity | exact Hd] | intros [-> _]; reflexivity].
Qed.

(** What a successful [process_file] has done, step by step. *)
Lemma process_file_ok (tool_names : list str) (fuel : nat) (w w' : World)
    (input_file output_file : string) (ratio_pattern : list Q) (io : list event)
    (total_layers : nat) (tool_sequence : list nat) :
  process_file tool_names fuel w input_file output_file ratio_pattern
  = Some (w', io, Ok (total_layers, tool_sequence)) ->
  exists gcode_content modified_lines,
    read_file w input_file = Ok gcode_content
    /\ total_layers = length (fst (parse_layers gcode_content))
    /\ calculate_tool_distribution fuel total_layers ratio_pattern = Some tool_sequence
    /\ modify_gcode tool_names (fst (parse_layers gcode_content)) tool_sequence
         (snd (parse_layers gcode_content)) = Ok modified_lines
    /\ write_file w output_file (join_lines modified_lines) = Ok w'
    /\ io = [OpenRead input_file; OpenWrite output_file].
Proof.
  unfold process_file.
  destruct (read_file w input_file) as [gcode_content | e]; [| discriminate].
  destruct (parse_layers gcode_content) as [layer_positions gcode_lines] eqn:Hparse.
  destruct (calculate_tool_distribution fuel (length layer_positions) ratio_pattern)
    as [planned |] eqn:Hplan; [| discriminate].
  destruct (modify_gcode tool_names layer_positions planned gcode_lines)
    as [modified_lines | e] eqn:Hmodify; [| discriminate].
  destruct (write_file w output_file (join_lines modified_lines)) as [w2 | e] eqn:Hwrite;
    [| discriminate].
  intros [= <- <- <- <-].
  exists gcode_content, modified_lines. rewrite Hparse. cbn [fst snd].
  repeat split; assumption.
Qed.

Lemma process_file_world (tool_names : list str) (fuel : nat) (w w' : World)
    (input_file output_file : string) (ratio_pattern : list Q) (io : list event)
    (r : result (nat * list nat)) :
  process_file tool_names fuel w input_file output_file ratio_pattern = Some (w', io, r) ->
  (w' = w /\ (exists e, r = Raise e))
  \/ (exists text, w' = MkWorld (<[output_file := text]> (files w)) (denied w)
                   /\ io = [OpenRead input_file; OpenWrite output_file]
                   /\ exists value, r = Ok value).
Proof.
  unfold process_file.
  destruct (read_file w input_file) as [gcode_content | e];
    [| intros [= <- <- <-]; left; split; [reflexivity | eexists; reflexivity]].
  destruct (parse_layers gcode_content) as [layer_positions gcode_lines].
  destruct (calculate_tool_distribution fuel (length layer_positions) ratio_pattern)
    as [planned |]; [| discriminate].
  destruct (modify_gcode tool_names layer_positions planned gcode_lines)
    as [modified_lines | e];
    [| intros [= <- <- <-]; left; split; [reflexivity | eexists; reflexivity]].
  destruct (write_file w output_file (join_lines modified_lines)) as [w2 | e] eqn:Hwrite;
    [| intros [= <- <- <-]; left; split; [reflexivity | eexists; reflexivity]].
  intros [= <- <- <-]. right. apply write_file_ok in Hwrite as [-> _].
  eexists. split; [reflexivity |]. split; [reflexivity | eexists; reflexivity].
Qed.

Lemma calculate_length (fuel total_layers : nat) (ratio_pattern : list Q)
    (tool_sequence : list nat) :
  calculate_tool_distribution fuel total_layers ratio_pattern = Some tool_sequence ->
  length tool_sequence = total_layers.
Proof.
  intros H. apply while_sweeps_some in H as [H _]; [exact H | simpl; lia].
Qed.

Lemma modify_gcode_length (tool_names : list str) (layer_positions tool_sequence : list nat)
    (gcode_lines modified_gcode : list str) :
  modify_gcode tool_names layer_positions tool_sequence gcode_lines = Ok modified_gcode ->
  length modified_gcode = length gcode_lines.
Proof.
  unfold modify_gcode.
  destruct (pass tool_names layer_positions tool_sequence 0 initial_state gcode_lines)
    as [[texts st] | e] eqn:Hpass; [| discriminate].
  intros [= <-]. eapply pass_length. exact Hpass.
Qed.

End AppMore.

Import App AppFacts AppMore.

(** X11. A successful [process_file] writes a file with exactly as many
    lines as the input file has, provided no tool name holds a line feed. *)
Theorem output_has_as_many_lines (tool_names : list str) (fuel : nat) (w w' : World)
    (input_file output_file : string) (ratio_pattern : list Q) (io : list event)
    (total_layers : nat) (tool_sequence : list nat)
    (Hnames : Forall no_newline tool_names)
    (Hrun : process_file tool_names fuel w input_file output_file ratio_pattern
            = Some (w', io, Ok (total_layers, tool_sequence))) :
  exists gcode_content written,
    files w !! input_file = Some gcode_content
    /\ files w' !! output_file = Some written
    /\ length (split_lines written) = length (split_lines gcode_content).
Proof.
  apply process_file_ok in Hrun
    as (gcode_content & modified_lines & Hread & _ & _ & Hmodify & Hwrite & _).
  apply read_file_ok in Hread as [Hread _].
  apply write_file_ok in Hwrite as [-> _].
  exists gcode_content, (join_lines modified_lines).
  split; [exact Hread |]. split; [apply lookup_insert_eq |].
  unfold parse_layers in Hmodify. cbn [fst snd] in Hmodify.
  pose proof (modify_gcode_length _ _ _ _ _ Hmodify) as Hlen.
  rewrite split_join; [exact Hlen | |].
  - destruct (split_lines_cons gcode_content) as (first & rest & Hs).
    rewrite Hs in Hlen. destruct modified_lines; [discriminate | discriminate].
  - eapply modify_gcode_no_newline;
      [exact Hnames | apply split_lines_no_newline | exact Hmodify].
Qed.

Lemma output_has_as_many_lines_witness :
  exists gcode_content written,
    files (MkWorld {[ "in.gcode"%string := lit ";LAYER_CHANGE" ++ [ascii_of_nat 10]
                                            ++ lit "T0 S1 L0 D0" ]} ∅)
      !! "in.gcode"%string = Some gcode_content
    /\ files (MkWorld (<[ "out.gcode"%string := lit ";LAYER_CHANGE" ++ [ascii_of_nat 10]
                                                  ++ lit "T1 S1 L0 D0" ]>
                         {[ "in.gcode"%string := lit ";LAYER_CHANGE" ++ [ascii_of_nat 10]
                                                    ++ lit "T0 S1 L0 D0" ]}) ∅)
         !! "out.gcode"%string = Some written
    /\ length (split_lines written) = length (split_lines gcode_content).
Proof.
  apply (output_has_as_many_lines two_tools 1
           (MkWorld {[ "in.gcode"%string := lit ";LAYER_CHANGE" ++ [ascii_of_nat 10]
                                              ++ lit "T0 S1 L0 D0" ]} ∅)
           _ "in.gcode" "out.gcode" [0#1; 1#1]%Q
           [OpenRead "in.gcode"; OpenWrite "out.gcode"] 1 [1]).
  - repeat constructor.
  - vm_compute. reflexivity.
Defined.

(** X12. A successful [process_file] reports one tool per layer: the layer
    count it returns is the number of lines holding the layer marker, and the
    tool sequence it returns has that length, whatever the pattern. *)
Theorem one_tool_per_layer (tool_names : list str) (fuel : nat) (w w' : World)
    (input_file output_file : string) (ratio_pattern : list Q) (io : list event)
    (total_layers : nat) (tool_sequence : list nat)
    (Hrun : process_file tool_names fuel w input_file output_file ratio_pattern
            = Some (w', io, Ok (total_layers, tool_sequence))) :
  exists gcode_content,
    files w !! input_file = Some gcode_content
    /\ total_layers
       = length (filter (fun line => contains layer_markers line = true)
                        (split_lines gcode_content))
    /\ length tool_sequence = total_layers.
Proof.
  apply process_file_ok in Hrun
    as (gcode_content & modified_lines & Hread & -> & Hplan & _).
  apply read_file_ok in Hread as [Hread _].
  exists gcode_content. split; [exact Hread |].
  split; [| eapply calculate_length; exact Hplan].
  unfold parse_layers. cbn [fst]. generalize 0.
  induction (split_lines gcode_content) as [| line rest IH]; intros i; [reflexivity |].
  cbn [layers_from]. rewrite filter_cons.
  destruct (contains layer_markers line) eqn:Hline.
  - rewrite decide_True by reflexivity. simpl. f_equal. apply IH.
  - rewrite decide_False by discriminate. apply IH.
Qed.

Lemma one_tool_per_layer_witness :
  exists gcode_content,
    files (MkWorld {[ "in.gcode"%string := lit ";LAYER_CHANGE" ++ [ascii_of_nat 10]
                                            ++ lit "T0 S1 L0 D0" ]} ∅)
      !! "in.gcode"%string = Some gcode_content
    /\ 1 = length (filter (fun line => contains layer_markers line = true)
                          (split_lines gcode_content))
    /\ length [1] = 1.
Proof.
  apply (one_tool_per_layer two_tools 1
           (MkWorld {[ "in.gcode"%string := lit ";LAYER_CHANGE" ++ [ascii_of_nat 10]
                                              ++ lit "T0 S1 L0 D0" ]} ∅)
           (MkWorld (<[ "out.gcode"%string := lit ";LAYER_CHANGE" ++ [ascii_of_nat 10]
                                                ++ lit "T1 S1 L0 D0" ]>
                       {[ "in.gcode"%string := lit ";LAYER_CHANGE" ++ [ascii_of_nat 10]
                                                  ++ lit "T0 S1 L0 D0" ]}) ∅)
           "in.gcode" "out.gcode" [0#1; 1#1]%Q
           [OpenRead "in.gcode"; OpenWrite "out.gcode"] 1 [1]).
  vm_compute. reflexivity.
Defined.

(** X13. A conversion attempt touches no file but the output: whatever
    [process_gcode] is given, every other path keeps its content, the set of
    paths that cannot be opened is unchanged, and without an [open] of the
    output for writing the files are exactly as before. *)
Theorem only_output_written (tool_names tool_names_ui : list str) (fuel : nat) (w w' : World)
    (input_file output_file : string) (entries : list (option Q)) (events : list event)
    (Hrun : process_gcode tool_names tool_names_ui fuel w input_file output_file entries
            = Some (w', events)) :
  denied w' = denied w
  /\ (forall path, path <> output_file -> files w' !! path = files w !! path)
  /\ (OpenWrite output_file ∉ events -> w' = w).
Proof.
  unfold process_gcode in Hrun.
  destruct (bool_decide (input_file = EmptyString) || bool_decide (output_file = EmptyString));
    [injection Hrun as <- <-; repeat split |].
  destruct (negb (bool_decide (is_Some (files w !! input_file))));
    [injection Hrun as <- <-; repeat split |].
  destruct (get_current_pattern entries) as [pattern |];
    [| injection Hrun as <- <-; repeat split].
  destruct (Qle_bool (sum_pattern pattern) 0); [injection Hrun as <- <-; repeat split |].
  destruct (process_file tool_names fuel w input_file output_file pattern)
    as [[[w2 io] r] |] eqn:Hfile; [| discriminate].
  assert (Hw : w' = w2 /\ exists last, events = PathExists input_file :: io ++ [last]).
  { destruct (r ≫= _); injection Hrun as <- <-; split; try reflexivity;
      eexists; reflexivity. }
  destruct Hw as [-> [last ->]].
  apply process_file_world in Hfile as [[-> _] | (text & -> & -> & _)].
  - repeat split.
  - cbn [files denied]. split; [reflexivity |]. split.
    + intros path Hpath. apply lookup_insert_ne. congruence.
    + intros Hnot. exfalso. apply Hnot.
      apply elem_of_cons. right. apply elem_of_cons. right.
      apply elem_of_cons. left. reflexivity.
Qed.

Lemma only_output_written_witness :
  denied (MkWorld (<[ "out.gcode"%string := lit "T1 S1 L0 D0" ]>
                     {[ "in.gcode"%string := lit "T1 S1 L0 D0" ]}) ∅)
  = denied (MkWorld {[ "in.gcode"%string := lit "T1 S1 L0 D0" ]} ∅)
  /\ (forall path, path <> "out.gcode"%string ->
        files (MkWorld (<[ "out.gcode"%string := lit "T1 S1 L0 D0" ]>
                          {[ "in.gcode"%string := lit "T1 S1 L0 D0" ]}) ∅) !! path
        = files (MkWorld {[ "in.gcode"%string := lit "T1 S1 L0 D0" ]} ∅) !! path)
  /\ (OpenWrite "out.gcode"
        ∉ [PathExists "in.gcode"; OpenRead "in.gcode"; OpenWrite "out.gcode";
           ShowInfo "Success" (Processed 0)] ->
      MkWorld (<[ "out.gcode"%string := lit "T1 S1 L0 D0" ]>
                 {[ "in.gcode"%string := lit "T1 S1 L0 D0" ]}) ∅
      = MkWorld {[ "in.gcode"%string := lit "T1 S1 L0 D0" ]} ∅).
Proof.
  apply (only_output_written two_tools two_tools 0
           (MkWorld {[ "in.gcode"%string := lit "T1 S1 L0 D0" ]} ∅)
           (MkWorld (<[ "out.gcode"%string := lit "T1 S1 L0 D0" ]>
                       {[ "in.gcode"%string := lit "T1 S1 L0 D0" ]}) ∅)
           "in.gcode" "out.gcode" [Some (1#1)%Q; Some (1#1)%Q]
           [PathExists "in.gcode"; OpenRead "in.gcode"; OpenWrite "out.gcode";
            ShowInfo "Success" (Processed 0)]).
  vm_compute. reflexivity.
Defined.

(** X14. [process_file] opens the output only after the whole text has been
    rewritten: when it raises, be it on reading, in the rewriter or on
    opening the output, every file is as it was. *)
Theorem failure_writes_nothing (tool_names : list str) (fuel : nat) (w w' : World)
    (input_file output_file : string) (ratio_pattern : list Q) (io : list event) (e : exn)
    (Hrun : process_file tool_names fuel w input_file output_file ratio_pattern
            = Some (w', io, Raise e)) :
  w' = w.
Proof.
  apply process_file_world in Hrun as [[-> _] | (text & _ & _ & value & Habs)];
    [reflexivity | discriminate].
Qed.

Lemma failure_writes_nothing_witness :
  MkWorld {[ "in.gcode"%string := lit ";LAYER_CHANGE" ++ [ascii_of_nat 10]
                                    ++ lit "M104.1 T3 P120 Q125 S215" ]} ∅
  = MkWorld {[ "in.gcode"%string := lit ";LAYER_CHANGE" ++ [ascii_of_nat 10]
                                      ++ lit "M104.1 T3 P120 Q125 S215" ]} ∅.
Proof.
  apply (failure_writes_nothing two_tools 1
           (MkWorld {[ "in.gcode"%string := lit ";LAYER_CHANGE" ++ [ascii_of_nat 10]
                                              ++ lit "M104.1 T3 P120 Q125 S215" ]} ∅)
           (MkWorld {[ "in.gcode"%string := lit ";LAYER_CHANGE" ++ [ascii_of_nat 10]
                                              ++ lit "M104.1 T3 P120 Q125 S215" ]} ∅)
           "in.gcode" "out.gcode" [1#1; 1#1]%Q
           [OpenRead "in.gcode"] (IndexError OldToolName 3)).
  vm_compute. reflexivity.
Defined.

(** X15. A file without any layer marker is copied as it is: whatever the
    pattern, the fuel and the tool names, [process_file] writes the input
    text unchanged to the output and reports no layer. *)
Theorem no_marker_copied (tool_names : list str) (fuel : nat) (w : World)
    (input_file output_file : string) (ratio_pattern : list Q) (gcode_content : str)
    (Hinput : files w !! input_file = Some gcode_content)
    (Hreadable : input_file ∉ denied w)
    (Hwritable : output_file ∉ denied w)
    (Hplain : ~ is_substring (lit ";LAYER_CHANGE") gcode_content) :
  process_file tool_names fuel w input_file output_file ratio_pattern
  = Some (MkWorld (<[output_file := gcode_content]> (files w)) (denied w),
          [OpenRead input_file; OpenWrite output_file], Ok (0, [])).
Proof.
  unfold process_file.
  rewrite (proj2 (read_file_ok w input_file gcode_content) (conj Hinput Hreadable)).
  assert (Hlayers : layers_from 0 (split_lines gcode_content) = []).
  { destruct (layers_from 0 (split_lines gcode_content)) as [| k rest] eqn:Hk;
      [reflexivity |].
    exfalso. apply Hplain.
    assert (Hin : k ∈ layers_from 0 (split_lines gcode_content))
      by (rewrite Hk; apply elem_of_cons; left; reflexivity).
    apply layers_from_spec in Hin as [_ (line & Hline & Hc)].
    apply contains_spec in Hc.
    eapply substring_trans; [exact Hc |].
    apply line_is_substring. apply list_elem_of_lookup. eexists. exact Hline. }
  unfold parse_layers. rewrite Hlayers.
  assert (Hplan : calculate_tool_distribution fuel (length (@nil nat)) ratio_pattern = Some [])
    by (destruct fuel; reflexivity).
  rewrite Hplan.
  rewrite modify_gcode_idle by (right; reflexivity).
  rewrite join_split.
  unfold write_file. rewrite bool_decide_eq_false_2 by exact Hwritable. reflexivity.
Qed.

Lemma no_marker_copied_witness :
  process_file two_tools 0 (MkWorld {[ "in.gcode"%string := lit "T0 S1 L0 D0" ]} ∅)
    "in.gcode" "out.gcode" [0#1; 0#1]%Q
  = Some (MkWorld (<[ "out.gcode"%string := lit "T0 S1 L0 D0" ]>
                     (files (MkWorld {[ "in.gcode"%string := lit "T0 S1 L0 D0" ]} ∅)))
                  (denied (MkWorld {[ "in.gcode"%string := lit "T0 S1 L0 D0" ]} ∅)),
          [OpenRead "in.gcode"; OpenWrite "out.gcode"], Ok (0, [])).
Proof.
  apply (no_marker_copied two_tools 0 (MkWorld {[ "in.gcode"%string := lit "T0 S1 L0 D0" ]} ∅)
           "in.gcode" "out.gcode" [0#1; 0#1]%Q (lit "T0 S1 L0 D0")).
  - vm_compute. reflexivity.
  - vm_compute. intros H. discriminate H.
  - vm_compute. intros H. discriminate H.
  - intros (before & after & Heq).
    assert (Hlen : length (lit "T0 S1 L0 D0")
                   = length (before ++ lit ";LAYER_CHANGE" ++ after))
      by (rewrite <- Heq; reflexivity).
    rewrite !length_app in Hlen. simpl in Hlen. lia.
Defined.

(** *** The report and the dialogs *)

Module ReportFacts.
Import GCodeToolSwitcher Notions MoreNotions App AppFacts AppMore.

Lemma sum_list_bump (tool_counts : list nat) :
  forall tool count,
  tool_counts !! tool = Some count ->
  sum_list (<[tool := count + 1]> tool_counts) = sum_list tool_counts + 1.
Proof.
  induction tool_counts as [| c rest IH]; intros tool count; [discriminate |].
  destruct tool as [| tool]; simpl.
  - intros [= ->]. lia.
  - intros Hrest. rewrite (IH _ _ Hrest). lia.
Qed.

Lemma count_tools_counts (tool_sequence : list nat) :
  forall tool_counts counted,
  count_tools tool_sequence tool_counts = Ok counted ->
  length counted = length tool_counts
  /\ Forall (fun t => t < length tool_counts) tool_sequence
  /\ sum_list counted = sum_list tool_counts + length tool_sequence
  /\ forall t c, tool_counts !! t = Some c ->
                 counted !! t = Some (c + count_tool t tool_sequence).
Proof.
  induction tool_sequence as [| tool rest IH]; intros tool_counts counted; simpl.
  - intros [= <-]. split; [reflexivity |]. split; [constructor |]. split; [lia |].
    intros t c Hc. rewrite Hc. f_equal. unfold count_tool. simpl. lia.
  - unfold subscript_at, mbind, result_bind, rbind.
    destruct (tool_counts !! tool) as [count |] eqn:Hcount; [| discriminate].
    intros Hrest. apply IH in Hrest as (Hlen & Hall & Hsum & Hat).
    rewrite length_insert in Hlen, Hall.
    split; [exact Hlen |]. split; [| split].
    + constructor; [| exact Hall]. apply lookup_lt_is_Some. eexists. exact Hcount.
    + rewrite Hsum, (sum_list_bump _ _ _ Hcount). lia.
    + intros t c Hc. unfold count_tool. simpl.
      destruct (Nat.eq_dec tool t) as [-> | Hne].
      * rewrite (Hat t (count + 1)).
        -- f_equal. rewrite Hc in Hcount. injection Hcount as ->.
           unfold count_tool. lia.
        -- apply list_lookup_insert_eq. apply lookup_lt_is_Some. eexists. exact Hc.
      * apply Hat. rewrite list_lookup_insert_ne by exact Hne. exact Hc.
Qed.

Lemma count_tools_raise (tool_sequence : list nat) :
  forall tool_counts e,
  count_tools tool_sequence tool_counts = Raise e
  <-> exists before t after,
        tool_sequence = before ++ t :: after
        /\ Forall (fun u => u < length tool_counts) before
        /\ length tool_counts <= t
        /\ e = IndexError ToolCount t.
Proof.
  induction tool_sequence as [| tool rest IH]; intros tool_counts e; simpl.
  - split; [discriminate |]. intros (before & t & after & Heq & _).
    destruct before; discriminate.
  - unfold subscript_at, mbind, result_bind, rbind.
    destruct (tool_counts !! tool) as [count |] eqn:Hcount.
    + rewrite IH, length_insert. split.
      * intros (before & t & after & -> & Hall & Ht & ->).
        exists (tool :: before), t, after. split; [reflexivity |].
        split; [| split; [exact Ht | reflexivity]].
        constructor; [| exact Hall]. apply lookup_lt_is_Some. eexists. exact Hcount.
      * intros (before & t & after & Heq & Hall & Ht & ->).
        destruct before as [| b before]; simpl in Heq; injection Heq as -> ->.
        -- apply lookup_ge_None in Ht. congruence.
        -- apply Forall_cons in Hall as [_ Hall].
           exists before, t, after. repeat split; assumption.
    + apply lookup_ge_None in Hcount. split.
      * intros [= <-]. exists [], tool, rest. repeat split; [constructor | exact Hcount].
      * intros (before & t & after & Heq & Hall & Ht & ->).
        destruct before as [| b before]; simpl in Heq; injection Heq as -> ->.
        -- reflexivity.
        -- apply Forall_cons in Hall as [Hb _]. lia.
Qed.

Lemma lookup_replicate_zero (n t : nat) : t < n -> replicate n 0 !! t = Some 0.
Proof. intros Ht. apply lookup_replicate. split; [reflexivity | exact Ht]. Qed.

Lemma sum_list_zeros (n : nat) : sum_list (replicate n 0) = 0.
Proof. induction n as [| n IH]; [reflexivity | exact IH]. Qed.

Lemma get_current_pattern_some (entries : list (option Q)) :
  forall pattern, get_current_pattern entries = Some pattern <-> entries = map Some pattern.
Proof.
  induction entries as [| [value |] rest IH]; intros pattern; simpl.
  - split; [intros [= <-]; reflexivity |]. destruct pattern; [reflexivity | discriminate].
  - destruct (get_current_pattern rest) as [p |] eqn:Hrest.
    + split.
      * intros [= <-]. simpl. f_equal. apply IH. reflexivity.
      * destruct pattern as [| q pattern]; [discriminate |]. simpl. intros [= -> Heq].
        apply IH in Heq. injection Heq as ->. reflexivity.
    + split; [discriminate |].
      destruct pattern as [| q pattern]; [discriminate |]. simpl. intros [= -> Heq].
      apply IH in Heq. discriminate.
  - split; [discriminate |]. destruct pattern; discriminate.
Qed.

End ReportFacts.

Import ReportFacts.

(** X16. When the report's counting loop completes, there is one count per
    configured name, each count is the number of layers planned for that
    tool, the counts add up to the number of planned layers, and every
    planned tool id is below the number of names. *)
Theorem report_counts (tool_names_ui : list str) (tool_sequence tool_counts : list nat)
    (Hreport : report tool_names_ui tool_sequence = Ok tool_counts) :
  length tool_counts = length tool_names_ui
  /\ (forall t, t < length tool_names_ui ->
                tool_counts !! t = Some (count_tool t tool_sequence))
  /\ sum_list tool_counts = length tool_sequence
  /\ Forall (fun t => t < length tool_names_ui) tool_sequence.
Proof.
  unfold report in Hreport.
  apply count_tools_counts in Hreport as (Hlen & Hall & Hsum & Hat).
  rewrite length_replicate in Hlen, Hall. rewrite sum_list_zeros in Hsum.
  split; [exact Hlen |]. split; [| split; [exact Hsum | exact Hall]].
  intros t Ht. apply (Hat t 0). apply lookup_replicate_zero. exact Ht.
Qed.

Lemma report_counts_witness :
  length [2; 1] = length two_tools
  /\ (forall t, t < length two_tools -> [2; 1] !! t = Some (count_tool t [0; 1; 0]))
  /\ sum_list [2; 1] = length [0; 1; 0]
  /\ Forall (fun t => t < length two_tools) [0; 1; 0].
Proof.
  apply (report_counts two_tools [0; 1; 0] [2; 1]).
  vm_compute. reflexivity.
Defined.

(** X17. The report raises exactly when a planned tool id has no configured
    name: the error is the [IndexError] of [tool_counts[tool]] at the first
    such id of the sequence. *)
Theorem report_raises_at_first_unnamed (tool_names_ui : list str) (tool_sequence : list nat)
    (e : exn) :
  report tool_names_ui tool_sequence = Raise e
  <-> exists before t after,
        tool_sequence = before ++ t :: after
        /\ Forall (fun u => u < length tool_names_ui) before
        /\ length tool_names_ui <= t
        /\ e = IndexError ToolCount t.
Proof.
  unfold report. rewrite count_tools_raise, length_replicate. reflexivity.
Qed.

(** X18. Every conversion attempt ends with exactly one dialog, shown last;
    the success dialog is shown only after the input has been read and the
    output written, and it reports the number of lines holding a layer
    marker. *)
Theorem one_dialog_shown_last (tool_names tool_names_ui : list str) (fuel : nat)
    (w w' : World) (input_file output_file : string) (entries : list (option Q))
    (events : list event)
    (Hrun : process_gcode tool_names tool_names_ui fuel w input_file output_file entries
            = Some (w', events)) :
  exists before dialog,
    events = before ++ [dialog]
    /\ Forall (fun e => is_dialog e = false) before
    /\ is_dialog dialog = true
    /\ forall title m,
         dialog = ShowInfo title m ->
         before = [PathExists input_file; OpenRead input_file; OpenWrite output_file]
         /\ exists gcode_content written,
              files w !! input_file = Some gcode_content
              /\ files w' !! output_file = Some written
              /\ title = "Success"%string
              /\ m = Processed (length (fst (parse_layers gcode_content))).
Proof.
  unfold process_gcode in Hrun.
  destruct (bool_decide (input_file = EmptyString) || bool_decide (output_file = EmptyString)).
  { injection Hrun as <- <-. exists [], (ShowError "Error"
      (Text "Please specify both input and output files")).
    repeat split; [constructor | discriminate | discriminate]. }
  destruct (negb (bool_decide (is_Some (files w !! input_file)))).
  { injection Hrun as <- <-.
    exists [PathExists input_file], (ShowError "Error" (InputNotFound input_file)).
    repeat split; [repeat constructor | discriminate | discriminate]. }
  destruct (get_current_pattern entries) as [pattern |].
  2: { injection Hrun as <- <-.
       exists [PathExists input_file],
         (ShowError "Invalid Input" (Text "Please enter valid numbers for all tools")).
       repeat split; [repeat constructor | discriminate | discriminate]. }
  destruct (Qle_bool (sum_pattern pattern) 0).
  { injection Hrun as <- <-. exists [PathExists input_file], pattern_rejected.
    repeat split; [repeat constructor | discriminate | discriminate]. }
  destruct (process_file tool_names fuel w input_file output_file pattern)
    as [[[w2 io] r] |] eqn:Hfile; [| discriminate].
  assert (Hio : Forall (fun e => is_dialog e = false) (PathExists input_file :: io)).
  { constructor; [reflexivity |].
    eapply Forall_impl; [eapply process_file_io; exact Hfile |].
    intros [] He; try discriminate He; reflexivity. }
  destruct r as [[total_layers tool_sequence] | e].
  - cbn [mbind result_bind rbind] in Hrun.
    destruct (report tool_names_ui tool_sequence) as [counts | e];
      cbn [mbind result_bind rbind] in Hrun; injection Hrun as <- <-.
    + exists (PathExists input_file :: io), (ShowInfo "Success" (Processed total_layers)).
      split; [reflexivity |]. split; [exact Hio |]. split; [reflexivity |].
      intros title m [= <- <-].
      pose proof Hfile as Hworld.
      apply process_file_world in Hworld as [[_ [e He]] | (text & -> & -> & _)];
        [discriminate |].
      split; [reflexivity |].
      apply process_file_ok in Hfile
        as (gcode_content & modified_lines & Hread & -> & _).
      apply read_file_ok in Hread as [Hread _].
      exists gcode_content, text. split; [exact Hread |].
      split; [apply lookup_insert_eq |]. split; reflexivity.
    + exists (PathExists input_file :: io), (ShowError "Error" (FailedToProcess e)).
      split; [reflexivity |]. split; [exact Hio |]. split; [reflexivity | discriminate].
  - cbn [mbind result_bind rbind] in Hrun. injection Hrun as <- <-.
    exists (PathExists input_file :: io), (ShowError "Error" (FailedToProcess e)).
    split; [reflexivity |]. split; [exact Hio |]. split; [reflexivity | discriminate].
Qed.

Lemma one_dialog_shown_last_witness :
  exists before dialog,
    [PathExists "in.gcode"; OpenRead "in.gcode"; OpenWrite "out.gcode";
     ShowInfo "Success" (Processed 0)] = before ++ [dialog]
    /\ Forall (fun e => is_dialog e = false) before
    /\ is_dialog dialog = true
    /\ forall title m,
         dialog = ShowInfo title m ->
         before = [PathExists "in.gcode"; OpenRead "in.gcode"; OpenWrite "out.gcode"]
         /\ exists gcode_content written,
              files (MkWorld {[ "in.gcode"%string := lit "T1 S1 L0 D0" ]} ∅)
                !! "in.gcode"%string = Some gcode_content
              /\ files (MkWorld (<[ "out.gcode"%string := lit "T1 S1 L0 D0" ]>
                                   {[ "in.gcode"%string := lit "T1 S1 L0 D0" ]}) ∅)
                   !! "out.gcode"%string = Some written
              /\ title = "Success"%string
              /\ m = Processed (length (fst (parse_layers gcode_content))).
Proof.
  apply (one_dialog_shown_last two_tools two_tools 0
           (MkWorld {[ "in.gcode"%string := lit "T1 S1 L0 D0" ]} ∅)
           (MkWorld (<[ "out.gcode"%string := lit "T1 S1 L0 D0" ]>
                       {[ "in.gcode"%string := lit "T1 S1 L0 D0" ]}) ∅)
           "in.gcode" "out.gcode" [Some (1#1)%Q; Some (1#1)%Q]
           [PathExists "in.gcode"; OpenRead "in.gcode"; OpenWrite "out.gcode";
            ShowInfo "Success" (Processed 0)]).
  vm_compute. reflexivity.
Defined.

(** X19. [get_current_pattern] returns a pattern exactly when every entry
    converts to a number, and then the pattern is those numbers in the order
    of the entries; one entry that does not convert makes it return
    nothing. *)
Theorem get_current_pattern_exact (entries : list (option Q)) :
  (forall pattern, get_current_pattern entries = Some pattern <-> entries = map Some pattern)
  /\ (get_current_pattern entries = None <-> None ∈ entries).
Proof.
  split; [apply get_current_pattern_some |].
  induction entries as [| [value |] rest IH]; simpl.
  - split; [discriminate |]. intros H. apply elem_of_nil in H. contradiction.
  - destruct (get_current_pattern rest) as [p |].
    + split; [discriminate |]. intros H. apply elem_of_cons in H as [H | H]; [discriminate |].
      apply IH in H. discriminate.
    + split; [| reflexivity]. intros _. apply elem_of_cons. right. apply IH. reflexivity.
  - split; [| reflexivity]. intros _. apply elem_of_cons. left. reflexivity.
Qed.

(** *** The colour helpers *)

Module ColorFacts.
Import MoreNotions Colors.

Lemma ascii_listed (c : ascii) : c ∈ all_ascii.
Proof.
  rewrite <- (ascii_nat_embedding c). apply list_elem_of_fmap_2.
  apply elem_of_seq. pose proof (nat_ascii_bounded c). lia.
Qed.

Lemma for_all_ascii (P : ascii -> bool) : forallb P all_ascii = true -> forall c, P c = true.
Proof.
  intros Hall c. rewrite forallb_forall in Hall. apply Hall.
  apply list_elem_of_In. apply ascii_listed.
Qed.

Lemma int16_two_chars (s : str) (v : Z) :
  length s <= 2 -> int16 s = Some v -> (-15 <= v <= 255)%Z.
Proof.
  intros Hlen Hv.
  assert (Hin : within (int16 s) = true).
  { destruct s as [| c1 [| c2 [| c3 s]]]; [reflexivity | | | simpl in Hlen; lia].
    - clear Hv Hlen. revert c1.
      apply (for_all_ascii (fun c1 => within (int16 [c1]))). vm_compute. reflexivity.
    - clear Hv Hlen. revert c2.
      apply (for_all_ascii (fun c2 => within (int16 [c1; c2]))).
      revert c1.
      apply (for_all_ascii
               (fun c1 => forallb (fun c2 => within (int16 [c1; c2])) all_ascii)).
      vm_compute. reflexivity. }
  rewrite Hv in Hin. simpl in Hin. lia.
Qed.

Lemma format_two_chars (x : Z) :
  (-15 <= x <= 255)%Z ->
  exists c1 c2, format_02x x = [c1; c2] /\ Ascii.eqb "#" c1 = false
                /\ int16 [c1; c2] = Some x.
Proof.
  intros Hx.
  assert (Hall : forallb (fun k => byte_checked (Z.of_nat k - 15)) (seq 0 271) = true)
    by (vm_compute; reflexivity).
  rewrite forallb_forall in Hall.
  specialize (Hall (Z.to_nat (x + 15))).
  replace (Z.of_nat (Z.to_nat (x + 15)) - 15)%Z with x in Hall by lia.
  assert (Hin : In (Z.to_nat (x + 15)) (seq 0 271)) by (apply in_seq; lia).
  apply Hall in Hin. unfold byte_checked in Hin.
  destruct (format_02x x) as [| c1 [| c2 [| c3 rest]]]; try discriminate.
  apply andb_true_iff in Hin as [Hc Hv].
  exists c1, c2. split; [reflexivity |].
  split; [destruct (Ascii.eqb "#" c1); [discriminate | reflexivity] |].
  apply bool_decide_eq_true in Hv. exact Hv.
Qed.

Lemma hex_pair (c1 c2 : ascii) :
  hex_digit c1 -> hex_digit c2 ->
  exists v, int16 [c1; c2] = Some v /\ format_02x v = [lower c1; lower c2]
            /\ (0 <= v <= 255)%Z /\ Ascii.eqb "#" c1 = false.
Proof.
  intros [h1 H1] [h2 H2].
  assert (Hall : pair_checked c1 c2 = true).
  { revert c2 H2. intros c2 _. revert c2.
    apply (for_all_ascii (fun c2 => pair_checked c1 c2)).
    clear H1. revert c1.
    apply (for_all_ascii (fun c1 => forallb (fun c2 => pair_checked c1 c2) all_ascii)).
    vm_compute. reflexivity. }
  unfold pair_checked in Hall. rewrite H1, H2 in Hall.
  apply andb_true_iff in Hall as [Hall Hhash]. apply andb_true_iff in Hall as [Hall Hhi].
  apply andb_true_iff in Hall as [Hall Hlo]. apply andb_true_iff in Hall as [Hv Hf].
  apply bool_decide_eq_true in Hv. apply bool_decide_eq_true in Hf.
  exists (16 * h1 + h2)%Z. split; [exact Hv |]. split; [exact Hf |].
  split; [lia |]. destruct (Ascii.eqb "#" c1); [discriminate | reflexivity].
Qed.

Lemma skip_hashes (k : nat) (s : str) :
  skip (Ascii.eqb "#") (replicate k "#"%char ++ s) = skip (Ascii.eqb "#") s.
Proof. induction k as [| k IH]; [reflexivity | exact IH]. Qed.

Lemma length_skip (p : ascii -> bool) (s : str) : length (skip p s) <= length s.
Proof.
  induction s as [| c s IH]; simpl; [lia |].
  destruct (p c); simpl; lia.
Qed.

Lemma hex_to_rgb_some (hex_value : str) (r g b : Z) :
  hex_to_rgb hex_value = Some (r, g, b) ->
  int16 (take 2 (skip (Ascii.eqb "#") hex_value)) = Some r
  /\ int16 (take 2 (drop 2 (skip (Ascii.eqb "#") hex_value))) = Some g
  /\ int16 (take 2 (drop 4 (skip (Ascii.eqb "#") hex_value))) = Some b.
Proof.
  unfold hex_to_rgb.
  destruct (int16 (take 2 (skip _ hex_value))) as [r' |]; [| discriminate].
  destruct (int16 (take 2 (drop 2 (skip _ hex_value)))) as [g' |]; [| discriminate].
  destruct (int16 (take 2 (drop 4 (skip _ hex_value)))) as [b' |]; [| discriminate].
  intros [= <- <- <-]. repeat split.
Qed.

Lemma hex_to_rgb_within (hex_value : str) (r g b : Z) :
  hex_to_rgb hex_value = Some (r, g, b) ->
  (-15 <= r <= 255)%Z /\ (-15 <= g <= 255)%Z /\ (-15 <= b <= 255)%Z.
Proof.
  intros H. apply hex_to_rgb_some in H as (Hr & Hg & Hb).
  repeat split; eapply int16_two_chars; try eassumption; rewrite length_take; lia.
Qed.

End ColorFacts.

Import Colors ColorFacts.

(** X20. [rgb_to_hex] followed by [hex_to_rgb] gives the three numbers back
    exactly when each of them is between -15 and 255: two characters hold a
    byte, or a minus sign and one digit, and nothing else. *)
Theorem rgb_round_trip (r g b : Z) :
  hex_to_rgb (rgb_to_hex r g b) = Some (r, g, b)
  <-> (-15 <= r <= 255)%Z /\ (-15 <= g <= 255)%Z /\ (-15 <= b <= 255)%Z.
Proof.
  split; [apply hex_to_rgb_within |].
  intros (Hr & Hg & Hb).
  destruct (format_two_chars r Hr) as (r1 & r2 & Hfr & Hhash & Hvr).
  destruct (format_two_chars g Hg) as (g1 & g2 & Hfg & _ & Hvg).
  destruct (format_two_chars b Hb) as (b1 & b2 & Hfb & _ & Hvb).
  unfold rgb_to_hex, hex_to_rgb. rewrite Hfr, Hfg, Hfb.
  cbn [lit list_ascii_of_string app skip]. rewrite Ascii.eqb_refl.
  cbn [skip]. rewrite Hhash. cbn [take drop].
  rewrite Hvr, Hvg, Hvb. reflexivity.
Qed.

(** X21. Six hexadecimal digits, in either case, after any number of [#] and
    before any further text, are read as three bytes, and [rgb_to_hex] writes
    these back as one [#] and the six digits in lower case. *)
Theorem hex_round_trip (hashes : nat) (digits tail : str)
    (Hsix : length digits = 6)
    (Hhex : Forall hex_digit digits) :
  exists r g b,
    hex_to_rgb (replicate hashes "#"%char ++ digits ++ tail) = Some (r, g, b)
    /\ (0 <= r <= 255)%Z /\ (0 <= g <= 255)%Z /\ (0 <= b <= 255)%Z
    /\ rgb_to_hex r g b = lit "#" ++ map lower digits.
Proof.
  destruct digits as [| r1 [| r2 [| g1 [| g2 [| b1 [| b2 [| c rest]]]]]]];
    try discriminate Hsix.
  apply Forall_cons in Hhex as [Hr1 Hhex]. apply Forall_cons in Hhex as [Hr2 Hhex].
  apply Forall_cons in Hhex as [Hg1 Hhex]. apply Forall_cons in Hhex as [Hg2 Hhex].
  apply Forall_cons in Hhex as [Hb1 Hhex]. apply Forall_cons in Hhex as [Hb2 _].
  destruct (hex_pair r1 r2 Hr1 Hr2) as (r & Hvr & Hfr & Hr & Hhash).
  destruct (hex_pair g1 g2 Hg1 Hg2) as (g & Hvg & Hfg & Hg & _).
  destruct (hex_pair b1 b2 Hb1 Hb2) as (b & Hvb & Hfb & Hb & _).
  exists r, g, b. split; [| repeat split; try lia].
  - unfold hex_to_rgb. rewrite skip_hashes.
    cbn [app skip]. rewrite Hhash. cbn [take drop]. rewrite firstn_O.
    rewrite Hvr, Hvg, Hvb. reflexivity.
  - unfold rgb_to_hex. rewrite Hfr, Hfg, Hfb. reflexivity.
Qed.

Lemma hex_round_trip_witness :
  exists r g b,
    hex_to_rgb (replicate 1 "#"%char ++ lit "00FFff" ++ lit "80") = Some (r, g, b)
    /\ (0 <= r <= 255)%Z /\ (0 <= g <= 255)%Z /\ (0 <= b <= 255)%Z
    /\ rgb_to_hex r g b = lit "#" ++ map lower (lit "00FFff").
Proof.
  apply (hex_round_trip 1 (lit "00FFff") (lit "80")).
  - reflexivity.
  - repeat first [apply Forall_nil_2 | apply Forall_cons_2]; eexists; reflexivity.
Defined.

(** X22. With fewer than five characters after the leading [#]s,
    [hex_to_rgb] raises [ValueError]: the third pair is empty. *)
Theorem short_colour_rejected (hashes : nat) (text : str)
    (Hshort : length text <= 4) :
  hex_to_rgb (replicate hashes "#"%char ++ text) = None.
Proof.
  unfold hex_to_rgb. rewrite skip_hashes.
  pose proof (length_skip (Ascii.eqb "#") text) as Hlen.
  assert (Hempty : drop 4 (skip (Ascii.eqb "#") text) = []) by (apply drop_ge; lia).
  rewrite Hempty.
  destruct (int16 (take 2 (skip _ text))) as [r |]; [| reflexivity].
  destruct (int16 (take 2 (drop 2 (skip _ text)))) as [g |]; reflexivity.
Qed.

Lemma short_colour_rejected_witness :
  hex_to_rgb (replicate 1 "#"%char ++ lit "ffff") = None.
Proof.
  apply (short_colour_rejected 1 (lit "ffff")). simpl. lia.
Defined.

(** X23. Whatever text [hex_to_rgb] is given, each number it returns is
    between -15 and 255. *)
Theorem hex_to_rgb_bounds (hex_value : str) (r g b : Z)
    (Hrgb : hex_to_rgb hex_value = Some (r, g, b)) :
  (-15 <= r <= 255)%Z /\ (-15 <= g <= 255)%Z /\ (-15 <= b <= 255)%Z.
Proof.
  apply (hex_to_rgb_within hex_value). exact Hrgb.
Qed.

Lemma hex_to_rgb_bounds_witness :
  (-15 <= -1 <= 255)%Z /\ (-15 <= 255 <= 255)%Z /\ (-15 <= 10 <= 255)%Z.
Proof.
  apply (hex_to_rgb_bounds (lit "#-1ff0A") (-1) 255 10).
  vm_compute. reflexivity.
Defined.
